(** * Complaint desk: row-level policies, status ledger and client guards

    A shallow embedding of the persistence layer (tables, CHECK and key
    constraints, triggers and row-level-security policies of the two SQL
    migrations) and of the page handlers that talk to it
    (NewComplaint, AdminComplaintDetail, AdminDashboard,
    StudentComplaintDetail), followed by the properties of the
    specification stated over that embedding. *)

From Stdlib Require Import List String Ascii Bool Arith PeanoNat ZArith Lia.
From Stdlib Require Import Numbers.DecimalString.
From Stdlib Require Import Sorting.Sorted Sorting.Permutation.
Import ListNotations.

Open Scope string_scope.
Open Scope list_scope.
Open Scope nat_scope.

(* ================================================================== *)
(** ** JavaScript and SQL string primitives used by the sources *)
(* ================================================================== *)

Module Js.

(** Text. A string of the program is modelled by the sequence of its
    characters, one [ascii] per character: the character with code
    point [n] is [ascii_of_nat n], for the code points 0 to 255 (the
    first 256 of Unicode, ISO 8859-1). Each of these characters is one
    UTF-16 code unit and one SQL character, so [String.length] is both
    [s.length] of JavaScript and [char_length(s)] of SQL: an accented
    letter such as U+00E9 counts once. Text with characters beyond
    U+00FF is outside the model, and so is text with the character
    U+0000, which a text column cannot hold. *)

(** White space removed by [String.prototype.trim] (the WhiteSpace and
    LineTerminator characters of ECMAScript) among these characters:
    TAB, LF, VT, FF, CR, SPACE and NO-BREAK SPACE (U+00A0). *)
Definition is_space (c : ascii) : bool :=
  let n := nat_of_ascii c in
  ((9 <=? n) && (n <=? 13)) || (n =? 32) || (n =? 160).

Fixpoint all_space (s : string) : bool :=
  match s with
  | EmptyString => true
  | String c s' => is_space c && all_space s'
  end.

Fixpoint trimStart (s : string) : string :=
  match s with
  | EmptyString => EmptyString
  | String c s' => if is_space c then trimStart s' else s
  end.

Fixpoint trimEnd (s : string) : string :=
  match s with
  | EmptyString => EmptyString
  | String c s' =>
      match trimEnd s' with
      | EmptyString => if is_space c then EmptyString else String c EmptyString
      | t => String c t
      end
  end.

(** [s.trim()] *)
Definition trim (s : string) : string := trimEnd (trimStart s).

(** JavaScript truthiness of a string: only the empty string is falsy. *)
Definition truthy (s : string) : bool :=
  match s with EmptyString => false | _ => true end.

(** [s || null] *)
Definition or_null (s : string) : option string :=
  if truthy s then Some s else None.

(** [x || ""] for a nullable string *)
Definition or_empty (x : option string) : string :=
  match x with
  | Some s => if truthy s then s else ""
  | None => ""
  end.

(** The capital letters among these characters: A to Z, and U+00C0 to
    U+00DE without the multiplication sign U+00D7. *)
Definition is_capital (c : ascii) : bool :=
  let n := nat_of_ascii c in
  ((65 <=? n) && (n <=? 90))
  || ((192 <=? n) && (n <=? 222) && negb (n =? 215)).

(** The lower-case mapping of Unicode on these characters: a capital
    letter goes to the letter 32 code points up, every other character
    (micro sign, sharp s and y with diaeresis included) to itself. *)
Definition lower_char (c : ascii) : ascii :=
  if is_capital c then ascii_of_nat (nat_of_ascii c + 32) else c.

(** [s.toLowerCase()] *)
Fixpoint toLowerCase (s : string) : string :=
  match s with
  | EmptyString => EmptyString
  | String c s' => String (lower_char c) (toLowerCase s')
  end.

Fixpoint startsWith (s t : string) : bool :=
  match t, s with
  | EmptyString, _ => true
  | String _ _, EmptyString => false
  | String b t', String a s' => Ascii.eqb a b && startsWith s' t'
  end.

(** [s.includes(t)] *)
Fixpoint includes (s t : string) : bool :=
  startsWith s t ||
  match s with
  | EmptyString => false
  | String _ s' => includes s' t
  end.

(** [s.split(sep)] for a one-character separator; also
    [string_to_array(s, sep)] on a non-empty [s]. *)
Fixpoint split (sep : ascii) (s : string) : list string :=
  match s with
  | EmptyString => [EmptyString]
  | String c s' =>
      if Ascii.eqb c sep then EmptyString :: split sep s'
      else match split sep s' with
           | seg :: rest => String c seg :: rest
           | [] => [String c EmptyString]
           end
  end.

(** [arr.pop()] read as a value: the last element, [undefined] on []. *)
Definition pop (l : list string) : option string :=
  match rev l with
  | x :: _ => Some x
  | [] => None
  end.

(** Template-literal rendering of a number ([Date.now()]). *)
Definition number_to_string (n : nat) : string :=
  NilZero.string_of_uint (Nat.to_uint n).

(** Template-literal rendering of a possibly undefined string. *)
Definition render (x : option string) : string :=
  match x with Some s => s | None => "undefined" end.

(** [arr.includes(x)] on an array of strings *)
Definition array_includes (l : list string) (x : string) : bool :=
  existsb (String.eqb x) l.

End Js.

(** [char_length] of the SQL CHECK constraints. *)
Definition char_length (s : string) : Z := Z.of_nat (String.length s).

(* ================================================================== *)
(** ** Data model: enums and rows of the four tables (types.ts, CREATE TABLE) *)
(* ================================================================== *)

Definition uuid := string.
Definition timestamptz := nat.

Inductive AppRole := role_student | role_admin.

Inductive ComplaintCategory :=
  | cat_mentor | cat_admin | cat_academic_counsellor
  | cat_working_hub | cat_peer | cat_other.

Inductive ComplaintStatus := open | in_progress | resolved.

Definition AppRole_eqb (a b : AppRole) : bool :=
  match a, b with
  | role_student, role_student | role_admin, role_admin => true
  | _, _ => false
  end.

Definition ComplaintStatus_eqb (a b : ComplaintStatus) : bool :=
  match a, b with
  | open, open | in_progress, in_progress | resolved, resolved => true
  | _, _ => false
  end.

(** Enum labels as the SQL types and the TypeScript unions spell them. *)
Definition status_label (s : ComplaintStatus) : string :=
  match s with
  | open => "open" | in_progress => "in_progress" | resolved => "resolved"
  end.

Definition category_label (c : ComplaintCategory) : string :=
  match c with
  | cat_mentor => "mentor" | cat_admin => "admin"
  | cat_academic_counsellor => "academic_counsellor"
  | cat_working_hub => "working_hub" | cat_peer => "peer"
  | cat_other => "other"
  end.

Definition all_categories : list ComplaintCategory :=
  [cat_mentor; cat_admin; cat_academic_counsellor;
   cat_working_hub; cat_peer; cat_other].

(** Input cast ['label'::public.complaint_category]; [None] is the
    invalid-input error of the enum type. *)
Definition category_of_label (s : string) : option ComplaintCategory :=
  find (fun c => String.eqb (category_label c) s) all_categories.

Definition role_label (r : AppRole) : string :=
  match r with role_student => "student" | role_admin => "admin" end.

Definition role_of_label (s : string) : option AppRole :=
  find (fun r => String.eqb (role_label r) s) [role_student; role_admin].

(** [a IS DISTINCT FROM b] on a NOT NULL status column. *)
Definition is_distinct_from (a b : ComplaintStatus) : bool :=
  negb (ComplaintStatus_eqb a b).

Module Profile.
Record t := mk {
  id : uuid;
  role : AppRole;
  full_name : string;
  email : string;
  is_active : bool;
  created_at : timestamptz;
  updated_at : timestamptz
}.
End Profile.

Module UserRole.
Record t := mk {
  id : uuid;
  user_id : uuid;
  role : AppRole;
  created_at : timestamptz
}.
End UserRole.

Module Complaint.
Record t := mk {
  id : uuid;
  student_id : uuid;
  title : string;
  category : ComplaintCategory;
  description : string;
  attachment_id : option uuid;
  status : ComplaintStatus;
  admin_note : option string;
  created_at : timestamptz;
  updated_at : timestamptz
}.
End Complaint.

Module Attachment.
Record t := mk {
  id : uuid;
  owner_user_id : uuid;
  complaint_id : option uuid;
  original_filename : string;
  stored_path : string;
  mime_type : string;
  byte_size : Z;
  created_at : timestamptz
}.
End Attachment.

Module History.
Record t := mk {
  id : uuid;
  complaint_id : uuid;
  changed_by_user_id : uuid;
  from_status : option ComplaintStatus;
  to_status : ComplaintStatus;
  note_snapshot : option string;
  changed_at : timestamptz
}.
End History.

(** A row of [storage.objects]: the bucket, the object name (its path)
    and what the bucket limits are checked against. *)
Module StorageObject.
Record t := mk {
  bucket_id : string;
  name : string;
  content_type : string;
  size : Z
}.
End StorageObject.

(** A row of [storage.buckets]. *)
Module Bucket.
Record t := mk {
  id : string;
  public : bool;
  file_size_limit : Z;
  allowed_mime_types : list string
}.
End Bucket.

(** The database: the public tables, the storage objects, and the
    source [gen_random_uuid()] draws from ([entropy] is the sequence,
    [drawn] how many values were taken). *)
Record Database := mkDatabase {
  profiles : list Profile.t;
  user_roles : list UserRole.t;
  complaints : list Complaint.t;
  attachments : list Attachment.t;
  complaint_status_history : list History.t;
  storage_objects : list StorageObject.t;
  entropy : nat -> uuid;
  drawn : nat
}.

(* ================================================================== *)
(** ** Requests against the store: errors, transactions, the session *)
(* ================================================================== *)

(** What a request can come back with. *)
Inductive error :=
  | invalid_enum_input          (* 22P02: value outside the enum *)
  | check_violation             (* 23514: a CHECK constraint *)
  | foreign_key_violation       (* 23503 *)
  | unique_violation            (* 23505: primary key / UNIQUE *)
  | cardinality_violation       (* 21000: scalar subquery with > 1 row *)
  | rls_violation               (* 42501: new row violates a policy *)
  | no_single_row               (* PGRST116: .single() without exactly one row *)
  | bucket_not_found
  | payload_too_large           (* bucket file_size_limit *)
  | invalid_mime_type           (* bucket allowed_mime_types *)
  | object_already_exists
  | object_not_found            (* no readable object under that name *)
  | type_error.                 (* JavaScript TypeError in the handler *)

Inductive result (A : Type) :=
  | Ok (a : A)
  | Err (e : error).
Arguments Ok {A} a.
Arguments Err {A} e.

(** A statement running inside one transaction: it reads and changes
    the database or aborts; the caller of an aborted statement keeps the
    database it started from. *)
Definition Tx (A : Type) := Database -> result (A * Database).

Definition ret {A} (a : A) : Tx A := fun db => Ok (a, db).

Definition bind {A B} (m : Tx A) (k : A -> Tx B) : Tx B :=
  fun db =>
    match m db with
    | Ok (a, db') => k a db'
    | Err e => Err e
    end.

Definition raise {A} (e : error) : Tx A := fun _ => Err e.

Definition ensure (b : bool) (e : error) : Tx unit :=
  if b then ret tt else raise e.

Definition read {A} (f : Database -> A) : Tx A := fun db => Ok (f db, db).

Definition lift {A} (r : result A) : Tx A :=
  fun db => match r with Ok a => Ok (a, db) | Err e => Err e end.

Notation "x <- m ;; k" := (bind m (fun x => k))
  (at level 61, m at next level, right associativity).
Notation "m ;;; k" := (bind m (fun _ => k))
  (at level 61, right associativity).

(** One request is one transaction: the database it leaves behind is
    the new one, or the old one when the statement aborted. *)
Definition commit {A} (m : Tx A) (db : Database) : Database :=
  match m db with
  | Ok (_, db') => db'
  | Err _ => db
  end.

(** [auth.uid()]: the id in the caller's token, NULL without a session. *)
Definition auth_uid := option uuid.

(** [auth.uid() = x] in a policy: NULL never compares equal. *)
Definition uid_is (uid : auth_uid) (x : uuid) : bool :=
  match uid with
  | Some u => String.eqb u x
  | None => false
  end.

(** [COALESCE(auth.uid(), x)] *)
Definition coalesce_uid (uid : auth_uid) (x : uuid) : uuid :=
  match uid with Some u => u | None => x end.

(** Table writes, leaving every other table as it is. *)
Definition with_profiles (l : list Profile.t) (db : Database) : Database :=
  mkDatabase l (user_roles db) (complaints db) (attachments db)
    (complaint_status_history db) (storage_objects db) (entropy db) (drawn db).

Definition with_user_roles (l : list UserRole.t) (db : Database) : Database :=
  mkDatabase (profiles db) l (complaints db) (attachments db)
    (complaint_status_history db) (storage_objects db) (entropy db) (drawn db).

Definition with_complaints (l : list Complaint.t) (db : Database) : Database :=
  mkDatabase (profiles db) (user_roles db) l (attachments db)
    (complaint_status_history db) (storage_objects db) (entropy db) (drawn db).

Definition with_attachments (l : list Attachment.t) (db : Database) : Database :=
  mkDatabase (profiles db) (user_roles db) (complaints db) l
    (complaint_status_history db) (storage_objects db) (entropy db) (drawn db).

Definition with_history (l : list History.t) (db : Database) : Database :=
  mkDatabase (profiles db) (user_roles db) (complaints db) (attachments db)
    l (storage_objects db) (entropy db) (drawn db).

Definition with_objects (l : list StorageObject.t) (db : Database) : Database :=
  mkDatabase (profiles db) (user_roles db) (complaints db) (attachments db)
    (complaint_status_history db) l (entropy db) (drawn db).

Definition with_drawn (n : nat) (db : Database) : Database :=
  mkDatabase (profiles db) (user_roles db) (complaints db) (attachments db)
    (complaint_status_history db) (storage_objects db) (entropy db) n.

(** [gen_random_uuid()]: the next value of the source. *)
Definition gen_random_uuid : Tx uuid :=
  fun db => Ok (entropy db (drawn db), with_drawn (S (drawn db)) db).

(** A scalar subquery: NULL on no row, the value on one, an error on
    more. *)
Definition scalar_subquery {A} (rows : list A) : result (option A) :=
  match rows with
  | [] => Ok None
  | [x] => Ok (Some x)
  | _ => Err cardinality_violation
  end.

(** PostgREST [.single()] *)
Definition single {A} (rows : list A) : result A :=
  match rows with
  | [x] => Ok x
  | _ => Err no_single_row
  end.

(* ================================================================== *)
(** ** Roles and row-level-security policies (both migrations applied) *)
(* ================================================================== *)

(** [public.has_role(_user_id, _role)]: SECURITY DEFINER, reads
    [user_roles] unfiltered. *)
Definition has_role (db : Database) (_user_id : auth_uid) (_role : AppRole) : bool :=
  existsb (fun r => uid_is _user_id (UserRole.user_id r)
                    && AppRole_eqb (UserRole.role r) _role)
          (user_roles db).

(** [public.is_admin(user_id)] as redefined by the second migration. *)
Definition is_admin (db : Database) (user_id : auth_uid) : bool :=
  has_role db user_id role_admin.

(** [storage.foldername(name)]: the path segments without the last. *)
Definition foldername (name : string) : list string :=
  removelast (Js.split "/" name).

(** [auth.uid()::text = (storage.foldername(name))[1]] *)
Definition uid_owns_folder (uid : auth_uid) (name : string) : bool :=
  match uid, nth_error (foldername name) 0 with
  | Some u, Some seg => String.eqb u seg
  | _, _ => false
  end.

Module Policy.

(** "Users can view their own profile", "Admins can view all profiles" *)
Definition profiles_select (db : Database) (uid : auth_uid) (p : Profile.t) : bool :=
  uid_is uid (Profile.id p) || has_role db uid role_admin.

(** "Users can update their own profile": USING *)
Definition profiles_update_using (uid : auth_uid) (p : Profile.t) : bool :=
  uid_is uid (Profile.id p).

(** "Students can view their own complaints", "Admins can view all
    complaints" *)
Definition complaints_select (db : Database) (uid : auth_uid) (c : Complaint.t) : bool :=
  uid_is uid (Complaint.student_id c) || has_role db uid role_admin.

(** "Students can create complaints": WITH CHECK *)
Definition complaints_insert_check (uid : auth_uid) (c : Complaint.t) : bool :=
  uid_is uid (Complaint.student_id c).

(** "Admins can update complaints": USING (also the check on the new
    row, the policy having no WITH CHECK of its own) *)
Definition complaints_update_using (db : Database) (uid : auth_uid) (c : Complaint.t) : bool :=
  has_role db uid role_admin.

(** "Users can view attachments of their complaints" *)
Definition attachments_select (db : Database) (uid : auth_uid) (a : Attachment.t) : bool :=
  uid_is uid (Attachment.owner_user_id a) || is_admin db uid.

(** "Users can insert attachments for their complaints": WITH CHECK *)
Definition attachments_insert_check (uid : auth_uid) (a : Attachment.t) : bool :=
  uid_is uid (Attachment.owner_user_id a).

(** "Users can view history of their complaints"; the EXISTS subquery
    reads [complaints] through the caller's own SELECT policies. *)
Definition history_select (db : Database) (uid : auth_uid) (h : History.t) : bool :=
  existsb (fun c => String.eqb (Complaint.id c) (History.complaint_id h)
                    && uid_is uid (Complaint.student_id c))
          (filter (complaints_select db uid) (complaints db))
  || is_admin db uid.

(** "System can insert history records": WITH CHECK (true), no TO
    clause, so it applies to every role. *)
Definition history_insert_check (uid : auth_uid) (h : History.t) : bool := true.

(** "Users can upload their own attachments": WITH CHECK *)
Definition objects_insert_check (uid : auth_uid) (o : StorageObject.t) : bool :=
  String.eqb (StorageObject.bucket_id o) "complaint-attachments"
  && uid_owns_folder uid (StorageObject.name o).

(** "Users can view their own attachments", "Admins can view all
    attachments" *)
Definition objects_select (db : Database) (uid : auth_uid) (o : StorageObject.t) : bool :=
  (String.eqb (StorageObject.bucket_id o) "complaint-attachments"
   && (uid_owns_folder uid (StorageObject.name o) || is_admin db uid))
  || (String.eqb (StorageObject.bucket_id o) "complaint-attachments"
      && is_admin db uid).

End Policy.

(* ================================================================== *)
(** ** Table constraints *)
(* ================================================================== *)

Definition null_or_at_most (n : Z) (x : option string) : bool :=
  match x with
  | None => true
  | Some s => (char_length s <=? n)%Z
  end.

(** CHECK constraints of [public.profiles] *)
Definition profile_checks (p : Profile.t) : bool :=
  (char_length (Profile.full_name p) <=? 100)%Z
  && (char_length (Profile.email p) <=? 254)%Z.

(** CHECK constraints of [public.complaints] *)
Definition complaint_checks (c : Complaint.t) : bool :=
  ((0 <? char_length (Complaint.title c))%Z
   && (char_length (Complaint.title c) <=? 120)%Z)
  && ((0 <? char_length (Complaint.description c))%Z
      && (char_length (Complaint.description c) <=? 5000)%Z)
  && null_or_at_most 5000 (Complaint.admin_note c).

(** CHECK constraints of [public.attachments] *)
Definition attachment_checks (a : Attachment.t) : bool :=
  (char_length (Attachment.original_filename a) <=? 255)%Z
  && (char_length (Attachment.stored_path a) <=? 1024)%Z
  && (char_length (Attachment.mime_type a) <=? 100)%Z
  && ((0 <? Attachment.byte_size a)%Z
      && (Attachment.byte_size a <=? 10485760)%Z).

(** CHECK constraint of [public.complaint_status_history] *)
Definition history_checks (h : History.t) : bool :=
  null_or_at_most 5000 (History.note_snapshot h).

Definition profile_exists (db : Database) (x : uuid) : bool :=
  existsb (fun p => String.eqb (Profile.id p) x) (profiles db).

Definition complaint_exists (db : Database) (x : uuid) : bool :=
  existsb (fun c => String.eqb (Complaint.id c) x) (complaints db).

Definition attachment_exists (db : Database) (x : uuid) : bool :=
  existsb (fun a => String.eqb (Attachment.id a) x) (attachments db).

Definition history_exists (db : Database) (x : uuid) : bool :=
  existsb (fun h => String.eqb (History.id h) x) (complaint_status_history db).

(** A nullable foreign key: NULL references nothing. *)
Definition null_or (f : uuid -> bool) (x : option uuid) : bool :=
  match x with None => true | Some v => f v end.

(* ================================================================== *)
(** ** The status ledger and its trigger *)
(* ================================================================== *)

(** The columns the trigger's INSERT into [complaint_status_history]
    names; [id] and [changed_at] take their defaults. *)
Record HistoryInsert := mkHistoryInsert {
  hi_complaint_id : uuid;
  hi_changed_by_user_id : uuid;
  hi_from_status : option ComplaintStatus;
  hi_to_status : ComplaintStatus;
  hi_note_snapshot : option string
}.

(** Who runs an INSERT: the table owner (a SECURITY DEFINER function,
    row-level security not applied) or an API client with its uid. *)
Inductive invoker :=
  | definer
  | client (uid : auth_uid).

(** [INSERT INTO public.complaint_status_history (...) VALUES (...)] *)
Definition insert_history (who : invoker) (now : timestamptz) (v : HistoryInsert)
  : Tx History.t :=
  id <- gen_random_uuid ;;
  let NEW := History.mk id (hi_complaint_id v) (hi_changed_by_user_id v)
               (hi_from_status v) (hi_to_status v) (hi_note_snapshot v) now in
  ensure (match who with
          | definer => true
          | client uid => Policy.history_insert_check uid NEW
          end) rls_violation ;;;
  ensure (history_checks NEW) check_violation ;;;
  taken <- read (fun db => history_exists db id) ;;
  ensure (negb taken) unique_violation ;;;
  c_ok <- read (fun db => complaint_exists db (History.complaint_id NEW)) ;;
  ensure c_ok foreign_key_violation ;;;
  p_ok <- read (fun db => profile_exists db (History.changed_by_user_id NEW)) ;;
  ensure p_ok foreign_key_violation ;;;
  (fun db => Ok (NEW, with_history (complaint_status_history db ++ [NEW]) db)).

Inductive tg_op := INSERT | UPDATE.

Definition tg_op_eqb (a b : tg_op) : bool :=
  match a, b with
  | INSERT, INSERT | UPDATE, UPDATE => true
  | _, _ => false
  end.

(** [x IS DISTINCT FROM y] on nullable statuses. *)
Definition opt_status_distinct (x y : option ComplaintStatus) : bool :=
  match x, y with
  | None, None => false
  | Some a, Some b => is_distinct_from a b
  | _, _ => true
  end.

(** [public.log_complaint_status_change()], SECURITY DEFINER; [OLD] is
    the null record when the trigger fires for an INSERT. *)
Definition log_complaint_status_change
  (TG_OP : tg_op) (OLD : option Complaint.t) (NEW : Complaint.t)
  (uid : auth_uid) (now : timestamptz) : Tx unit :=
  let OLD_status := option_map Complaint.status OLD in
  if tg_op_eqb TG_OP INSERT
     || opt_status_distinct OLD_status (Some (Complaint.status NEW))
  then
    insert_history definer now
      (mkHistoryInsert
         (Complaint.id NEW)
         (coalesce_uid uid (Complaint.student_id NEW))
         (match TG_OP with INSERT => None | UPDATE => OLD_status end)
         (Complaint.status NEW)
         (Complaint.admin_note NEW)) ;;;
    ret tt
  else ret tt.

(** [public.update_updated_at_column()] on a complaint row *)
Definition update_updated_at_column (now : timestamptz) (NEW : Complaint.t) : Complaint.t :=
  Complaint.mk (Complaint.id NEW) (Complaint.student_id NEW) (Complaint.title NEW)
    (Complaint.category NEW) (Complaint.description NEW)
    (Complaint.attachment_id NEW) (Complaint.status NEW)
    (Complaint.admin_note NEW) (Complaint.created_at NEW) now.

(* ================================================================== *)
(** ** Statements on [public.complaints] *)
(* ================================================================== *)

(** The columns NewComplaint sends; [id], [status], [admin_note] and
    the timestamps take their column defaults. *)
Record ComplaintInsert := mkComplaintInsert {
  ci_student_id : uuid;
  ci_title : string;
  ci_category : string;
  ci_description : string;
  ci_attachment_id : option uuid
}.

(** [INSERT INTO public.complaints] through the API, with the AFTER
    INSERT trigger [log_complaint_status]. *)
Definition insert_complaint (uid : auth_uid) (now : timestamptz) (v : ComplaintInsert)
  : Tx Complaint.t :=
  cat <- lift (match category_of_label (ci_category v) with
               | Some c => Ok c
               | None => Err invalid_enum_input
               end) ;;
  id <- gen_random_uuid ;;
  let NEW := Complaint.mk id (ci_student_id v) (ci_title v) cat
               (ci_description v) (ci_attachment_id v)
               open None now now in
  ensure (complaint_checks NEW) check_violation ;;;
  ensure (Policy.complaints_insert_check uid NEW) rls_violation ;;;
  taken <- read (fun db => complaint_exists db id) ;;
  ensure (negb taken) unique_violation ;;;
  s_ok <- read (fun db => profile_exists db (Complaint.student_id NEW)) ;;
  ensure s_ok foreign_key_violation ;;;
  a_ok <- read (fun db => null_or (attachment_exists db) (Complaint.attachment_id NEW)) ;;
  ensure a_ok foreign_key_violation ;;;
  (fun db => Ok (tt, with_complaints (complaints db ++ [NEW]) db)) ;;;
  log_complaint_status_change INSERT None NEW uid now ;;;
  ret NEW.

(** The SET list of AdminComplaintDetail's update. *)
Record ComplaintUpdate := mkComplaintUpdate {
  cu_status : ComplaintStatus;
  cu_admin_note : option string
}.

Definition set_columns (v : ComplaintUpdate) (OLD : Complaint.t) : Complaint.t :=
  Complaint.mk (Complaint.id OLD) (Complaint.student_id OLD) (Complaint.title OLD)
    (Complaint.category OLD) (Complaint.description OLD)
    (Complaint.attachment_id OLD) (cu_status v) (cu_admin_note v)
    (Complaint.created_at OLD) (Complaint.updated_at OLD).

(** One pass over the table: a row the WHERE clause and the USING
    policy both select is replaced by its new version (BEFORE UPDATE
    trigger applied, CHECK constraints verified); returns the new table
    and the (OLD, NEW) pairs the AFTER UPDATE trigger fires for. *)
Fixpoint update_rows (selected : Complaint.t -> bool) (now : timestamptz)
  (v : ComplaintUpdate) (rows : list Complaint.t)
  : result (list Complaint.t * list (Complaint.t * Complaint.t)) :=
  match rows with
  | [] => Ok ([], [])
  | OLD :: rest =>
      if selected OLD then
        let NEW := update_updated_at_column now (set_columns v OLD) in
        if complaint_checks NEW then
          match update_rows selected now v rest with
          | Ok (rows', fired) => Ok (NEW :: rows', (OLD, NEW) :: fired)
          | Err e => Err e
          end
        else Err check_violation
      else
        match update_rows selected now v rest with
        | Ok (rows', fired) => Ok (OLD :: rows', fired)
        | Err e => Err e
        end
  end.

Fixpoint fire_log_complaint_status (fired : list (Complaint.t * Complaint.t))
  (uid : auth_uid) (now : timestamptz) : Tx unit :=
  match fired with
  | [] => ret tt
  | (OLD, NEW) :: rest =>
      log_complaint_status_change UPDATE (Some OLD) NEW uid now ;;;
      fire_log_complaint_status rest uid now
  end.

(** [UPDATE public.complaints SET status = .., admin_note = ..
     WHERE id = target] through the API; returns the number of rows
    updated. Rows the caller's USING policy hides are not touched and
    raise no error. *)
Definition update_complaints (uid : auth_uid) (now : timestamptz)
  (target : uuid) (v : ComplaintUpdate) : Tx nat :=
  fun db =>
    let selected := fun c =>
      String.eqb (Complaint.id c) target
      && Policy.complaints_update_using db uid c in
    match update_rows selected now v (complaints db) with
    | Err e => Err e
    | Ok (rows', fired) =>
        (fire_log_complaint_status fired uid now ;;;
         ret (List.length fired)) (with_complaints rows' db)
    end.

(** [SELECT * FROM public.complaints] as the caller sees it. *)
Definition select_complaints (db : Database) (uid : auth_uid) : list Complaint.t :=
  filter (Policy.complaints_select db uid) (complaints db).

Definition select_profiles (db : Database) (uid : auth_uid) : list Profile.t :=
  filter (Policy.profiles_select db uid) (profiles db).

Definition select_attachments (db : Database) (uid : auth_uid) : list Attachment.t :=
  filter (Policy.attachments_select db uid) (attachments db).

Definition select_history (db : Database) (uid : auth_uid) : list History.t :=
  filter (Policy.history_select db uid) (complaint_status_history db).

(** Stable insertion into a list ordered by a numeric key. *)
Fixpoint insert_by {A} (key : A -> nat) (x : A) (l : list A) : list A :=
  match l with
  | [] => [x]
  | y :: l' => if key y <=? key x then y :: insert_by key x l' else x :: l
  end.

(** [.order(col, { ascending: true })] *)
Definition order_ascending {A} (key : A -> nat) (l : list A) : list A :=
  fold_right (insert_by key) [] l.

(** [.order(col, { ascending: false })] *)
Definition order_descending {A} (key : A -> nat) (l : list A) : list A :=
  rev (order_ascending key l).

(* ================================================================== *)
(** ** Attachments and the storage bucket *)
(* ================================================================== *)

(** What the browser hands over for a chosen file. *)
Record File := mkFile {
  file_name : string;
  file_type : string;
  file_size : Z
}.

(** The columns NewComplaint sends with its INSERT into
    [attachments]. *)
Record AttachmentInsert := mkAttachmentInsert {
  ai_owner_user_id : uuid;
  ai_original_filename : string;
  ai_stored_path : string;
  ai_mime_type : string;
  ai_byte_size : Z
}.

(** [INSERT INTO public.attachments ... RETURNING *] through the API. *)
Definition insert_attachment (uid : auth_uid) (now : timestamptz) (v : AttachmentInsert)
  : Tx Attachment.t :=
  id <- gen_random_uuid ;;
  let NEW := Attachment.mk id (ai_owner_user_id v) None
               (ai_original_filename v) (ai_stored_path v)
               (ai_mime_type v) (ai_byte_size v) now in
  ensure (attachment_checks NEW) check_violation ;;;
  ensure (Policy.attachments_insert_check uid NEW) rls_violation ;;;
  taken <- read (fun db => attachment_exists db id) ;;
  ensure (negb taken) unique_violation ;;;
  o_ok <- read (fun db => profile_exists db (Attachment.owner_user_id NEW)) ;;
  ensure o_ok foreign_key_violation ;;;
  (fun db => Ok (NEW, with_attachments (attachments db ++ [NEW]) db)).

(** The bucket row the first migration inserts. *)
Definition complaint_attachments : Bucket.t :=
  Bucket.mk "complaint-attachments" false 10485760%Z
    ["application/pdf"; "image/jpeg"; "image/png"; "image/jpg"].

Definition buckets : list Bucket.t := [complaint_attachments].

Definition same_object (bucket name : string) (o : StorageObject.t) : bool :=
  String.eqb (StorageObject.bucket_id o) bucket
  && String.eqb (StorageObject.name o) name.

(** [supabase.storage.from(bucket).upload(name, file)]: the bucket's
    size limit and mime list, then the INSERT policy on
    [storage.objects]; an existing name is not overwritten. *)
Definition storage_upload (uid : auth_uid) (bucket name : string) (f : File) : Tx unit :=
  b <- lift (match find (fun b => String.eqb (Bucket.id b) bucket) buckets with
             | Some b => Ok b
             | None => Err bucket_not_found
             end) ;;
  ensure (file_size f <=? Bucket.file_size_limit b)%Z payload_too_large ;;;
  ensure (Js.array_includes (Bucket.allowed_mime_types b) (file_type f))
         invalid_mime_type ;;;
  let NEW := StorageObject.mk bucket name (file_type f) (file_size f) in
  ensure (Policy.objects_insert_check uid NEW) rls_violation ;;;
  taken <- read (fun db => existsb (same_object bucket name) (storage_objects db)) ;;
  ensure (negb taken) object_already_exists ;;;
  (fun db => Ok (tt, with_objects (storage_objects db ++ [NEW]) db)).

(** [supabase.storage.from(bucket).download(path)]: the object, if the
    SELECT policies let the caller read one under that name. *)
Definition storage_download (db : Database) (uid : auth_uid) (bucket path : string)
  : result StorageObject.t :=
  match find (fun o => same_object bucket path o && Policy.objects_select db uid o)
             (storage_objects db) with
  | Some o => Ok o
  | None => Err object_not_found
  end.

(* ================================================================== *)
(** ** Statements on [public.profiles] *)
(* ================================================================== *)

(** The SET list of an UPDATE on profiles: any column may be named
    (the policy restricts rows, and no column grant restricts the SET
    list). *)
Record ProfileUpdate := mkProfileUpdate {
  pu_id : option uuid;
  pu_role : option AppRole;
  pu_full_name : option string;
  pu_email : option string;
  pu_is_active : option bool;
  pu_created_at : option timestamptz;
  pu_updated_at : option timestamptz
}.

(** A column left out of a SET list keeps its value; one left out of an
    INSERT takes its default. *)
Definition or_old {A} (x : option A) (old : A) : A :=
  match x with Some v => v | None => old end.

(** New row of a profile: the SET list, then the BEFORE UPDATE trigger
    [update_profiles_updated_at], which overwrites [updated_at] with
    [now()] whatever the SET list says. *)
Definition profile_new_row (now : timestamptz) (v : ProfileUpdate) (OLD : Profile.t)
  : Profile.t :=
  Profile.mk (or_old (pu_id v) (Profile.id OLD))
    (or_old (pu_role v) (Profile.role OLD))
    (or_old (pu_full_name v) (Profile.full_name OLD))
    (or_old (pu_email v) (Profile.email OLD))
    (or_old (pu_is_active v) (Profile.is_active OLD))
    (or_old (pu_created_at v) (Profile.created_at OLD)) now.

(** "Users can update their own profile": WITH CHECK. The subquery
    [(SELECT role FROM public.profiles WHERE id = auth.uid())] reads the
    table as it was when the statement started, through the caller's
    SELECT policies; a NULL result fails the check. *)
Definition profiles_update_check (db : Database) (uid : auth_uid) (NEW : Profile.t)
  : result bool :=
  match scalar_subquery
          (map Profile.role
             (filter (fun p => uid_is uid (Profile.id p))
                (select_profiles db uid))) with
  | Err e => Err e
  | Ok None => Ok false
  | Ok (Some r) => Ok (uid_is uid (Profile.id NEW) && AppRole_eqb (Profile.role NEW) r)
  end.

Fixpoint update_profile_rows (db : Database) (uid : auth_uid) (now : timestamptz)
  (where_ : Profile.t -> bool) (v : ProfileUpdate) (rows : list Profile.t)
  : result (list Profile.t) :=
  match rows with
  | [] => Ok []
  | OLD :: rest =>
      if where_ OLD && Policy.profiles_update_using uid OLD then
        let NEW := profile_new_row now v OLD in
        if profile_checks NEW then
          match profiles_update_check db uid NEW with
          | Err e => Err e
          | Ok false => Err rls_violation
          | Ok true =>
              match update_profile_rows db uid now where_ v rest with
              | Ok rows' => Ok (NEW :: rows')
              | Err e => Err e
              end
          end
        else Err check_violation
      else
        match update_profile_rows db uid now where_ v rest with
        | Ok rows' => Ok (OLD :: rows')
        | Err e => Err e
        end
  end.

Definition nodup_by {A} (key : A -> string) (l : list A) : bool :=
  if List.list_eq_dec String.string_dec (nodup String.string_dec (map key l)) (map key l)
  then true else false.

(** [UPDATE public.profiles SET ... WHERE ...] through the API; the
    primary key and the UNIQUE constraint on [email] are verified on
    the resulting table. *)
Definition update_profiles (uid : auth_uid) (now : timestamptz)
  (where_ : Profile.t -> bool) (v : ProfileUpdate) : Tx unit :=
  fun db =>
    match update_profile_rows db uid now where_ v (profiles db) with
    | Err e => Err e
    | Ok rows' =>
        if nodup_by Profile.id rows' && nodup_by Profile.email rows'
        then Ok (tt, with_profiles rows' db)
        else Err unique_violation
    end.

(** [public.handle_new_user()] of the second migration, fired AFTER
    INSERT ON auth.users: one profile and one [user_roles] row, the
    role read from the sign-up metadata (['student'] when absent). *)
Definition handle_new_user (new_id : uuid) (new_email : string)
  (meta_full_name meta_role : option string) (now : timestamptz) : Tx unit :=
  role <- lift (match meta_role with
                | None => Ok role_student
                | Some l => match role_of_label l with
                            | Some r => Ok r
                            | None => Err invalid_enum_input
                            end
                end) ;;
  let p := Profile.mk new_id role (match meta_full_name with Some n => n | None => "User" end)
             new_email true now now in
  ensure (profile_checks p) check_violation ;;;
  taken <- read (fun db => profile_exists db new_id
                           || existsb (fun q => String.eqb (Profile.email q) new_email)
                                (profiles db)) ;;
  ensure (negb taken) unique_violation ;;;
  (fun db => Ok (tt, with_profiles (profiles db ++ [p]) db)) ;;;
  rid <- gen_random_uuid ;;
  dup <- read (fun db => existsb (fun r => String.eqb (UserRole.id r) rid
                                           || (String.eqb (UserRole.user_id r) new_id
                                               && AppRole_eqb (UserRole.role r) role))
                           (user_roles db)) ;;
  ensure (negb dup) unique_violation ;;;
  (fun db => Ok (tt, with_user_roles (user_roles db ++ [UserRole.mk rid new_id role now]) db)).

(* ================================================================== *)
(** ** The statements of the API in full *)
(* ================================================================== *)

(** The pages name only some columns and filter by id. The API takes
    more: an INSERT or the SET list of an UPDATE may name any column of
    the table, and an UPDATE any filter; the policies restrict rows,
    not columns. The statements of this section are the general ones;
    [insert_complaint], [update_complaints], [insert_attachment] and
    the client's [insert_history] above are the instances the pages
    (or a client copying the trigger) send. Values are typed: a value
    outside an enum, or NULL for a NOT NULL column, is refused before
    anything is written. An INSERT carries one row. *)

(** Equality of nullable uuids ([IS NOT DISTINCT FROM]). *)
Definition opt_uuid_eqb (x y : option uuid) : bool :=
  match x, y with
  | None, None => true
  | Some a, Some b => String.eqb a b
  | _, _ => false
  end.

(** The columns of an INSERT into [public.complaints]: [student_id],
    [title], [category] and [description] are NOT NULL without a
    default, any other column may be named or left to its default.
    The category is given by its label and cast by the store. *)
Record ComplaintRow := mkComplaintRow {
  cr_id : option uuid;
  cr_student_id : uuid;
  cr_title : string;
  cr_category : string;
  cr_description : string;
  cr_attachment_id : option uuid;
  cr_status : option ComplaintStatus;
  cr_admin_note : option string;
  cr_created_at : option timestamptz;
  cr_updated_at : option timestamptz
}.

(** [INSERT INTO public.complaints (...) VALUES (...)] through the API,
    with the AFTER INSERT trigger [log_complaint_status]. The INSERT
    policy looks at [student_id] only: status, note, id and times are
    the caller's to choose. *)
Definition insert_complaint_row (uid : auth_uid) (now : timestamptz) (v : ComplaintRow)
  : Tx Complaint.t :=
  cat <- lift (match category_of_label (cr_category v) with
               | Some c => Ok c
               | None => Err invalid_enum_input
               end) ;;
  id <- match cr_id v with
        | Some x => ret x
        | None => gen_random_uuid
        end ;;
  let NEW := Complaint.mk id (cr_student_id v) (cr_title v) cat
               (cr_description v) (cr_attachment_id v)
               (or_old (cr_status v) open) (cr_admin_note v)
               (or_old (cr_created_at v) now)
               (or_old (cr_updated_at v) now) in
  ensure (complaint_checks NEW) check_violation ;;;
  ensure (Policy.complaints_insert_check uid NEW) rls_violation ;;;
  taken <- read (fun db => complaint_exists db id) ;;
  ensure (negb taken) unique_violation ;;;
  s_ok <- read (fun db => profile_exists db (Complaint.student_id NEW)) ;;
  ensure s_ok foreign_key_violation ;;;
  a_ok <- read (fun db => null_or (attachment_exists db) (Complaint.attachment_id NEW)) ;;
  ensure a_ok foreign_key_violation ;;;
  (fun db => Ok (tt, with_complaints (complaints db ++ [NEW]) db)) ;;;
  log_complaint_status_change INSERT None NEW uid now ;;;
  ret NEW.

(** The INSERT NewComplaint sends, as an instance. *)
Definition complaint_row_of (v : ComplaintInsert) : ComplaintRow :=
  mkComplaintRow None (ci_student_id v) (ci_title v) (ci_category v)
    (ci_description v) (ci_attachment_id v) None None None None.

(** The SET list of an UPDATE on [public.complaints]: any column may be
    named; [Some None] sets a nullable column to NULL. *)
Record ComplaintPatch := mkComplaintPatch {
  cp_id : option uuid;
  cp_student_id : option uuid;
  cp_title : option string;
  cp_category : option ComplaintCategory;
  cp_description : option string;
  cp_attachment_id : option (option uuid);
  cp_status : option ComplaintStatus;
  cp_admin_note : option (option string);
  cp_created_at : option timestamptz;
  cp_updated_at : option timestamptz
}.

Definition set_patch (v : ComplaintPatch) (OLD : Complaint.t) : Complaint.t :=
  Complaint.mk
    (or_old (cp_id v) (Complaint.id OLD))
    (or_old (cp_student_id v) (Complaint.student_id OLD))
    (or_old (cp_title v) (Complaint.title OLD))
    (or_old (cp_category v) (Complaint.category OLD))
    (or_old (cp_description v) (Complaint.description OLD))
    (or_old (cp_attachment_id v) (Complaint.attachment_id OLD))
    (or_old (cp_status v) (Complaint.status OLD))
    (or_old (cp_admin_note v) (Complaint.admin_note OLD))
    (or_old (cp_created_at v) (Complaint.created_at OLD))
    (or_old (cp_updated_at v) (Complaint.updated_at OLD)).

(** One pass over the table, as [update_rows], for any SET list. *)
Fixpoint patch_rows (selected : Complaint.t -> bool) (now : timestamptz)
  (v : ComplaintPatch) (rows : list Complaint.t)
  : result (list Complaint.t * list (Complaint.t * Complaint.t)) :=
  match rows with
  | [] => Ok ([], [])
  | OLD :: rest =>
      if selected OLD then
        let NEW := update_updated_at_column now (set_patch v OLD) in
        if complaint_checks NEW then
          match patch_rows selected now v rest with
          | Ok (rows', fired) => Ok (NEW :: rows', (OLD, NEW) :: fired)
          | Err e => Err e
          end
        else Err check_violation
      else
        match patch_rows selected now v rest with
        | Ok (rows', fired) => Ok (OLD :: rows', fired)
        | Err e => Err e
        end
  end.

(** Whether the statement changed the primary key of a row. *)
Definition id_changed (fired : list (Complaint.t * Complaint.t)) : bool :=
  existsb (fun p => negb (String.eqb (Complaint.id (snd p)) (Complaint.id (fst p))))
    fired.

(** The foreign keys of a new row version, verified for the columns
    that changed: [student_id] and [fk_complaints_attachment]. *)
Definition references_kept (db : Database) (OLD NEW : Complaint.t) : bool :=
  (String.eqb (Complaint.student_id NEW) (Complaint.student_id OLD)
   || profile_exists db (Complaint.student_id NEW))
  && (opt_uuid_eqb (Complaint.attachment_id NEW) (Complaint.attachment_id OLD)
      || null_or (attachment_exists db) (Complaint.attachment_id NEW)).

(** The foreign keys onto [complaints(id)] (ON UPDATE NO ACTION): every
    ledger row and every attachment naming a complaint still finds
    it. *)
Definition referenced_ids_kept (db : Database) (rows' : list Complaint.t) : bool :=
  let kept := fun x => existsb (fun c => String.eqb (Complaint.id c) x) rows' in
  forallb (fun h => kept (History.complaint_id h)) (complaint_status_history db)
  && forallb (fun a => null_or kept (Attachment.complaint_id a)) (attachments db).

(** [UPDATE public.complaints SET ... WHERE ...] through the API, for any
    SET list and any filter: the rows the filter and the USING policy
    select are rewritten, the primary key and the foreign keys are
    verified where a key changed, then [log_complaint_status] fires for
    every updated row. Returns the number of rows updated. *)
Definition update_complaint_rows (uid : auth_uid) (now : timestamptz)
  (where_ : Complaint.t -> bool) (v : ComplaintPatch) : Tx nat :=
  fun db =>
    let selected := fun c => where_ c && Policy.complaints_update_using db uid c in
    match patch_rows selected now v (complaints db) with
    | Err e => Err e
    | Ok (rows', fired) =>
        if id_changed fired && negb (nodup_by Complaint.id rows')
        then Err unique_violation
        else if negb (forallb (fun p => references_kept db (fst p) (snd p)) fired)
        then Err foreign_key_violation
        else if id_changed fired && negb (referenced_ids_kept db rows')
        then Err foreign_key_violation
        else
          (fire_log_complaint_status fired uid now ;;;
           ret (List.length fired)) (with_complaints rows' db)
    end.

(** The UPDATE AdminComplaintDetail sends, as an instance (with the
    filter [id = target]). *)
Definition patch_of (v : ComplaintUpdate) : ComplaintPatch :=
  mkComplaintPatch None None None None None None
    (Some (cu_status v)) (Some (cu_admin_note v)) None None.

(** The columns of an INSERT into [public.attachments]. *)
Record AttachmentRow := mkAttachmentRow {
  ar_id : option uuid;
  ar_owner_user_id : uuid;
  ar_complaint_id : option uuid;
  ar_original_filename : string;
  ar_stored_path : string;
  ar_mime_type : string;
  ar_byte_size : Z;
  ar_created_at : option timestamptz
}.

(** [INSERT INTO public.attachments (...) VALUES (...)] through the
    API. *)
Definition insert_attachment_row (uid : auth_uid) (now : timestamptz) (v : AttachmentRow)
  : Tx Attachment.t :=
  id <- match ar_id v with
        | Some x => ret x
        | None => gen_random_uuid
        end ;;
  let NEW := Attachment.mk id (ar_owner_user_id v) (ar_complaint_id v)
               (ar_original_filename v) (ar_stored_path v)
               (ar_mime_type v) (ar_byte_size v) (or_old (ar_created_at v) now) in
  ensure (attachment_checks NEW) check_violation ;;;
  ensure (Policy.attachments_insert_check uid NEW) rls_violation ;;;
  taken <- read (fun db => attachment_exists db id) ;;
  ensure (negb taken) unique_violation ;;;
  o_ok <- read (fun db => profile_exists db (Attachment.owner_user_id NEW)) ;;
  ensure o_ok foreign_key_violation ;;;
  c_ok <- read (fun db => null_or (complaint_exists db) (Attachment.complaint_id NEW)) ;;
  ensure c_ok foreign_key_violation ;;;
  (fun db => Ok (NEW, with_attachments (attachments db ++ [NEW]) db)).

(** The INSERT NewComplaint sends, as an instance. *)
Definition attachment_row_of (v : AttachmentInsert) : AttachmentRow :=
  mkAttachmentRow None (ai_owner_user_id v) None (ai_original_filename v)
    (ai_stored_path v) (ai_mime_type v) (ai_byte_size v) None.

(** The columns of an INSERT into [public.complaint_status_history]. *)
Record HistoryRow := mkHistoryRow {
  hr_id : option uuid;
  hr_complaint_id : uuid;
  hr_changed_by_user_id : uuid;
  hr_from_status : option ComplaintStatus;
  hr_to_status : ComplaintStatus;
  hr_note_snapshot : option string;
  hr_changed_at : option timestamptz
}.

(** [INSERT INTO public.complaint_status_history (...) VALUES (...)] by a
    client, under the policy "System can insert history records". *)
Definition insert_history_row (uid : auth_uid) (now : timestamptz) (v : HistoryRow)
  : Tx History.t :=
  id <- match hr_id v with
        | Some x => ret x
        | None => gen_random_uuid
        end ;;
  let NEW := History.mk id (hr_complaint_id v) (hr_changed_by_user_id v)
               (hr_from_status v) (hr_to_status v) (hr_note_snapshot v)
               (or_old (hr_changed_at v) now) in
  ensure (Policy.history_insert_check uid NEW) rls_violation ;;;
  ensure (history_checks NEW) check_violation ;;;
  taken <- read (fun db => history_exists db id) ;;
  ensure (negb taken) unique_violation ;;;
  c_ok <- read (fun db => complaint_exists db (History.complaint_id NEW)) ;;
  ensure c_ok foreign_key_violation ;;;
  p_ok <- read (fun db => profile_exists db (History.changed_by_user_id NEW)) ;;
  ensure p_ok foreign_key_violation ;;;
  (fun db => Ok (NEW, with_history (complaint_status_history db ++ [NEW]) db)).

(** The columns the trigger names, sent by a client. *)
Definition history_row_of (v : HistoryInsert) : HistoryRow :=
  mkHistoryRow None (hi_complaint_id v) (hi_changed_by_user_id v)
    (hi_from_status v) (hi_to_status v) (hi_note_snapshot v) None.

(* ================================================================== *)
(** ** NewComplaint page *)
(* ================================================================== *)

(** [z.string().trim().min(lo).max(hi)]: the parsed value on success. *)
Definition zod_trim_min_max (lo hi : Z) (value : string) : option string :=
  let t := Js.trim value in
  if (lo <=? char_length t)%Z && (char_length t <=? hi)%Z then Some t else None.

Definition titleSchema : string -> option string := zod_trim_min_max 1 120.
Definition descriptionSchema : string -> option string := zod_trim_min_max 1 5000.

(** [validateField]: whether the schema accepts the value. *)
Definition validateField (value : string) (schema : string -> option string) : bool :=
  match schema value with Some _ => true | None => false end.

Definition validTypes : list string :=
  ["application/pdf"; "image/jpeg"; "image/png"; "image/jpg"].

Definition maxSize : Z := (10 * 1024 * 1024)%Z.

Inductive FileToast :=
  | Invalid_file_type
  | File_too_large.

(** [handleFileChange]: [selectedFile] is [e.target.files?.[0]], [file]
    the page's current file; returns the file the page holds afterwards
    and the toast shown, if any. *)
Definition handleFileChange (selectedFile : option File) (file : option File)
  : option File * option FileToast :=
  match selectedFile with
  | Some f =>
      if negb (Js.array_includes validTypes (file_type f)) then
        (file, Some Invalid_file_type)
      else if (file_size f >? maxSize)%Z then
        (file, Some File_too_large)
      else (Some f, None)
  | None => (file, None)
  end.

Record NewComplaintForm := mkNewComplaintForm {
  form_title : string;
  form_category : string;
  form_description : string;
  form_file : option File
}.

Inductive SubmitOutcome :=
  | Not_submitted (category_required : bool)   (* validation stopped it *)
  | Complaint_submitted
  | Submission_failed (e : error).

(** The upload step of [handleSubmit]: the blob, then the attachment
    record; two requests, the first not undone when the second fails. *)
Definition upload_step (uid : uuid) (date_now : nat) (now : timestamptz)
  (file : File) (db : Database) : result uuid * Database :=
  let fileExt := Js.pop (Js.split "." (file_name file)) in
  let fileName :=
    (uid ++ "/" ++ Js.number_to_string date_now ++ "." ++ Js.render fileExt)%string in
  match storage_upload (Some uid) "complaint-attachments" fileName file db with
  | Err uploadError => (Err uploadError, db)
  | Ok (_, db1) =>
      match insert_attachment (Some uid) now
              (mkAttachmentInsert uid (file_name file) fileName
                 (file_type file) (file_size file)) db1 with
      | Err attachmentError => (Err attachmentError, db1)
      | Ok (attachmentData, db2) => (Ok (Attachment.id attachmentData), db2)
      end
  end.

(** [handleSubmit]: [user] is the signed-in user's id ([None] without a
    session), [date_now] is [Date.now()], [now] the server clock. *)
Definition handleSubmit (user : option uuid) (date_now : nat) (now : timestamptz)
  (form : NewComplaintForm) (db : Database) : SubmitOutcome * Database :=
  let titleValid := validateField (form_title form) titleSchema in
  let descriptionValid := validateField (form_description form) descriptionSchema in
  if negb titleValid || negb descriptionValid || negb (Js.truthy (form_category form))
  then (Not_submitted (negb (Js.truthy (form_category form))), db)
  else
    let '(attachmentId, db1) :=
      match form_file form, user with
      | Some file, Some uid =>
          match upload_step uid date_now now file db with
          | (Ok id, db') => (Ok (Some id), db')
          | (Err e, db') => (Err e, db')
          end
      | _, _ => (Ok None, db)
      end in
    match attachmentId with
    | Err e => (Submission_failed e, db1)
    | Ok attachmentId =>
        match user with
        | None => (Submission_failed type_error, db1)
        | Some uid =>
            match insert_complaint (Some uid) now
                    (mkComplaintInsert uid (Js.trim (form_title form))
                       (form_category form) (Js.trim (form_description form))
                       attachmentId) db1 with
            | Err complaintError => (Submission_failed complaintError, db1)
            | Ok (_, db2) => (Complaint_submitted, db2)
            end
        end
    end.

(* ================================================================== *)
(** ** Reading pages: complaint detail (student and admin), dashboard *)
(* ================================================================== *)

(** The embedded columns of [student:student_id (id, full_name, email)]. *)
Record StudentRef := mkStudentRef {
  sr_id : uuid;
  sr_full_name : string;
  sr_email : string
}.

(** The TypeScript [Complaint]: the row and the optional joined student. *)
Record JoinedComplaint := mkJoined {
  row : Complaint.t;
  student : option StudentRef
}.

(** The join of the embedded select, evaluated by the store: the
    referenced profile as far as the caller may read it. *)
Definition embed_student (db : Database) (uid : auth_uid) (c : Complaint.t)
  : JoinedComplaint :=
  mkJoined c
    (option_map (fun p => mkStudentRef (Profile.id p) (Profile.full_name p) (Profile.email p))
       (find (fun p => String.eqb (Profile.id p) (Complaint.student_id c))
          (select_profiles db uid))).

Definition opt_of_result {A} (r : result A) : option A :=
  match r with Ok a => Some a | Err _ => None end.

Module StudentComplaintDetail.

(** [fetchComplaint]: [select("*").eq("id", id).single()]; the value
    the page's [complaint] holds afterwards, starting from [null]. *)
Definition fetchComplaint (db : Database) (uid : auth_uid) (id : uuid)
  : option Complaint.t :=
  opt_of_result
    (single (filter (fun c => String.eqb (Complaint.id c) id)
               (select_complaints db uid))).

(** [fetchHistory]: [eq("complaint_id", id)] ordered by [changed_at]
    ascending. *)
Definition fetchHistory (db : Database) (uid : auth_uid) (id : uuid)
  : list History.t :=
  order_ascending History.changed_at
    (filter (fun h => String.eqb (History.complaint_id h) id)
       (select_history db uid)).

(** The attachment row [downloadAttachment] looks up first. *)
Definition fetchAttachment (db : Database) (uid : auth_uid) (attachment_id : uuid)
  : option Attachment.t :=
  opt_of_result
    (single (filter (fun a => String.eqb (Attachment.id a) attachment_id)
               (select_attachments db uid))).

(** [downloadAttachment]: the blob handed to the browser, if any. *)
Definition downloadAttachment (db : Database) (uid : auth_uid)
  (complaint : option Complaint.t) : option StorageObject.t :=
  match complaint with
  | None => None
  | Some c =>
      match Complaint.attachment_id c with
      | None => None
      | Some aid =>
          match fetchAttachment db uid aid with
          | None => None
          | Some attachmentData =>
              opt_of_result
                (storage_download db uid "complaint-attachments"
                   (Attachment.stored_path attachmentData))
          end
      end
  end.

End StudentComplaintDetail.

Module AdminComplaintDetail.

(** The page's state. *)
Record State := mkState {
  complaint : option JoinedComplaint;
  history : list History.t;
  status : ComplaintStatus;
  adminNote : string
}.

(** [fetchComplaint] with the student join. *)
Definition fetchComplaint (db : Database) (uid : auth_uid) (id : uuid)
  : option JoinedComplaint :=
  opt_of_result
    (single (map (embed_student db uid)
               (filter (fun c => String.eqb (Complaint.id c) id)
                  (select_complaints db uid)))).

(** The page after [fetchComplaint] and [fetchHistory] have answered and
    the effect on [complaint] has copied status and note into the form. *)
Definition refresh (db : Database) (uid : auth_uid) (id : uuid) (st : State) : State :=
  let complaint' :=
    match fetchComplaint db uid id with
    | Some c => Some c
    | None => complaint st
    end in
  match complaint' with
  | Some c =>
      mkState complaint' (StudentComplaintDetail.fetchHistory db uid id)
        (Complaint.status (row c)) (Js.or_empty (Complaint.admin_note (row c)))
  | None =>
      mkState complaint' (StudentComplaintDetail.fetchHistory db uid id)
        (status st) (adminNote st)
  end.

Inductive SaveOutcome :=
  | Note_required            (* "Please provide an admin note when resolving" *)
  | Cannot_update            (* "Resolved complaints cannot be modified." *)
  | Updated_successfully
  | Update_failed (e : error).

(** [handleSave] for the complaint [id] of the route. *)
Definition handleSave (uid : auth_uid) (now : timestamptz) (id : uuid)
  (st : State) (db : Database) : SaveOutcome * Database * State :=
  if ComplaintStatus_eqb (status st) resolved
     && negb (Js.truthy (Js.trim (adminNote st)))
  then (Note_required, db, st)
  else if match complaint st with
          | Some c => ComplaintStatus_eqb (Complaint.status (row c)) resolved
          | None => false
          end
  then (Cannot_update, db, st)
  else
    match update_complaints uid now id
            (mkComplaintUpdate (status st) (Js.or_null (Js.trim (adminNote st)))) db with
    | Err e => (Update_failed e, db, st)
    | Ok (_, db') => (Updated_successfully, db', refresh db' uid id st)
    end.

End AdminComplaintDetail.

Module AdminDashboard.

(** [fetchComplaints]: every complaint the caller may read, joined with
    its student, newest first. *)
Definition fetchComplaints (db : Database) (uid : auth_uid) : list JoinedComplaint :=
  map (embed_student db uid)
    (order_descending Complaint.created_at (select_complaints db uid)).

(** [x?.toLowerCase().includes(term)] on an optional student column;
    [undefined] is falsy. *)
Definition student_field_includes (f : StudentRef -> string) (term : string)
  (c : JoinedComplaint) : bool :=
  match student c with
  | Some s => Js.includes (Js.toLowerCase (f s)) term
  | None => false
  end.

(** The predicate of the search filter. *)
Definition matches (term : string) (c : JoinedComplaint) : bool :=
  Js.includes (Js.toLowerCase (Complaint.title (row c))) term
  || Js.includes (Js.toLowerCase (Complaint.description (row c))) term
  || student_field_includes sr_email term c
  || student_field_includes sr_full_name term c.

(** [filterComplaints]: the value given to [setFilteredComplaints];
    [complaints] is the page's copy of the rows fetched earlier. *)
Definition filterComplaints (complaints : list JoinedComplaint)
  (searchTerm statusFilter categoryFilter : string) : list JoinedComplaint :=
  let filtered := complaints in
  let filtered :=
    if Js.truthy searchTerm then
      let term := Js.toLowerCase searchTerm in
      filter (matches term) filtered
    else filtered in
  let filtered :=
    if negb (String.eqb statusFilter "all") then
      filter (fun c => String.eqb (status_label (Complaint.status (row c))) statusFilter)
        filtered
    else filtered in
  let filtered :=
    if negb (String.eqb categoryFilter "all") then
      filter (fun c => String.eqb (category_label (Complaint.category (row c))) categoryFilter)
        filtered
    else filtered in
  filtered.

End AdminDashboard.

(* ================================================================== *)
(** ** Declared key constraints as a predicate on database states *)
(* ================================================================== *)

(** Primary key of [complaints]. *)
Definition complaints_pkey (db : Database) : Prop :=
  NoDup (map Complaint.id (complaints db)).

(** Primary key of [attachments]. *)
Definition attachments_pkey (db : Database) : Prop :=
  NoDup (map Attachment.id (attachments db)).

(** [complaint_status_history.complaint_id REFERENCES complaints(id)] *)
Definition history_complaint_fkey (db : Database) : Prop :=
  forall h, In h (complaint_status_history db) ->
            complaint_exists db (History.complaint_id h) = true.

(** Every stored complaint satisfies the table's CHECK constraints. *)
Definition complaints_checked (db : Database) : Prop :=
  forall c, In c (complaints db) -> complaint_checks c = true.

(** The declared constraints the properties below rely on. *)
Definition constraints_hold (db : Database) : Prop :=
  complaints_pkey db /\ attachments_pkey db
  /\ history_complaint_fkey db /\ complaints_checked db.

(** [true] on text in the form of a uuid: 36 characters, hexadecimal
    digits with hyphens at positions 8, 13, 18 and 23. *)
Definition is_hex (c : ascii) : bool :=
  let n := nat_of_ascii c in
  ((48 <=? n) && (n <=? 57)) || ((97 <=? n) && (n <=? 102)).

Fixpoint uuid_chars (pos : nat) (s : string) : bool :=
  match s with
  | EmptyString => pos =? 36
  | String c s' =>
      (if (pos =? 8) || (pos =? 13) || (pos =? 18) || (pos =? 23)
       then Ascii.eqb c "-" else is_hex c)
      && uuid_chars (S pos) s'
  end.

Definition is_uuid_text (s : string) : bool := uuid_chars 0 s.

(* ================================================================== *)
(** ** The write surface of the API *)
(* ================================================================== *)

(** The writes a client can send: one per table and command for which
    the migrations create a policy, with any columns and any filter.
    Row-level security is on for every table, so a command without a
    policy changes nothing: an INSERT (into [profiles] or [user_roles])
    is refused, an UPDATE or DELETE (any DELETE, UPDATE on [user_roles],
    on [attachments] or on the ledger, overwriting or removing a stored
    object) finds no row. *)
Inductive request :=
  | Insert_complaint (v : ComplaintRow)
  | Update_complaints (where_ : Complaint.t -> bool) (v : ComplaintPatch)
  | Insert_attachment (v : AttachmentRow)
  | Insert_history (v : HistoryRow)
  | Upload_object (bucket name : string) (f : File)
  | Update_profiles (where_ : Profile.t -> bool) (v : ProfileUpdate).

(** The database after the request of a caller with the given uid. *)
Definition perform (uid : auth_uid) (now : timestamptz) (r : request)
  (db : Database) : Database :=
  match r with
  | Insert_complaint v => commit (insert_complaint_row uid now v) db
  | Update_complaints where_ v => commit (update_complaint_rows uid now where_ v) db
  | Insert_attachment v => commit (insert_attachment_row uid now v) db
  | Insert_history v => commit (insert_history_row uid now v) db
  | Upload_object bucket name f => commit (storage_upload uid bucket name f) db
  | Update_profiles where_ v => commit (update_profiles uid now where_ v) db
  end.

(** Identity and role of every profile, in table order. *)
Definition profile_roles (db : Database) : list (uuid * AppRole) :=
  map (fun p => (Profile.id p, Profile.role p)) (profiles db).

(** Same identities and roles in [profiles], same [user_roles]. *)
Definition same_roles (db db' : Database) : Prop :=
  profile_roles db' = profile_roles db /\ user_roles db' = user_roles db.

(* ================================================================== *)
(** ** A small populated database used in examples *)
(* ================================================================== *)

Module Example.

Fixpoint zeros (n : nat) : string :=
  match n with
  | 0 => EmptyString
  | S k => String "0" (zeros k)
  end.

(** The n-th generated uuid: a fixed prefix and n in twelve digits. *)
Definition nth_uuid (n : nat) : uuid :=
  let d := Js.number_to_string n in
  ("00000000-0000-4000-8000-" ++ zeros (12 - String.length d) ++ d)%string.

Definition empty : Database := mkDatabase [] [] [] [] [] [] nth_uuid 0.

Definition alice : uuid := "11111111-1111-4111-8111-111111111111".
Definition bob : uuid := "22222222-2222-4222-8222-222222222222".
Definition carol : uuid := "aaaaaaaa-aaaa-4aaa-8aaa-aaaaaaaaaaaa".

(** Alice and Bob sign up as students, Carol as an admin. *)
Definition signed_up : Database :=
  commit (handle_new_user carol "carol@desk.example" (Some "Carol") (Some "admin") 1)
    (commit (handle_new_user bob "bob@desk.example" (Some "Bob") None 1)
       (commit (handle_new_user alice "alice@desk.example" (Some "Alice") None 1)
          empty)).

Definition receipt : File := mkFile "receipt.pdf" "application/pdf" 2048%Z.

Definition chair_form : NewComplaintForm :=
  mkNewComplaintForm " Broken chair " "working_hub"
    "The chair in hub 2 is broken" (Some receipt).

(** Alice submits a complaint with an attachment. *)
Definition submitted : Database :=
  snd (handleSubmit (Some alice) 1700 5 chair_form signed_up).

(** The ids the store generated for that submission. *)
Definition chair_attachment_id : uuid := nth_uuid 3.
Definition chair_id : uuid := nth_uuid 4.

(** Carol's detail page for the complaint, freshly loaded. *)
Definition blank_page : AdminComplaintDetail.State :=
  AdminComplaintDetail.mkState None [] open "".

Definition loaded_page : AdminComplaintDetail.State :=
  AdminComplaintDetail.refresh submitted (Some carol) chair_id blank_page.

Definition with_form (s : ComplaintStatus) (note : string)
  (st : AdminComplaintDetail.State) : AdminComplaintDetail.State :=
  AdminComplaintDetail.mkState (AdminComplaintDetail.complaint st)
    (AdminComplaintDetail.history st) s note.

(** Carol resolves it with a note. *)
Definition resolved_db : Database :=
  snd (fst (AdminComplaintDetail.handleSave (Some carol) 9 chair_id
              (with_form resolved "Refunded" loaded_page) submitted)).

Definition resolved_page : AdminComplaintDetail.State :=
  snd (AdminComplaintDetail.handleSave (Some carol) 9 chair_id
         (with_form resolved "Refunded" loaded_page) submitted).

(** A second complaint, filed by Bob after the dashboard was loaded. *)
Definition desk_form : NewComplaintForm :=
  mkNewComplaintForm "Wobbly desk" "working_hub" "Next to the broken chair" None.

Definition later : Database :=
  snd (handleSubmit (Some bob) 1800 7 desk_form submitted).

Definition desk_id : uuid := nth_uuid 6.

Definition photo : File := mkFile "photo.jpg" "image/jpg" 4096%Z.

Definition photo_form : NewComplaintForm :=
  mkNewComplaintForm "Wobbly desk" "working_hub" "Next to the broken chair"
    (Some photo).

(** The mime types the specification lists. *)
Definition listed_mime_types : list string :=
  ["application/pdf"; "image/jpeg"; "image/png"].

End Example.

(** Whether a character occurs in a string. *)
Fixpoint mentions (c : ascii) (s : string) : bool :=
  match s with
  | EmptyString => false
  | String a s' => Ascii.eqb a c || mentions c s'
  end.

(** *** Case-insensitive containment, said without the page's means

    The letters that come in two cases, capital and small side by side:
    A to Z with a to z, and the accented capitals U+00C0 to U+00DE
    (without the multiplication sign U+00D7) with the small letters
    U+00E0 to U+00FE (without the division sign U+00F7). *)
Definition capital_letters : list ascii :=
  list_ascii_of_string "ABCDEFGHIJKLMNOPQRSTUVWXYZ"
  ++ map ascii_of_nat (seq 192 23 ++ seq 216 7).

Definition small_letters : list ascii :=
  list_ascii_of_string "abcdefghijklmnopqrstuvwxyz"
  ++ map ascii_of_nat (seq 224 23 ++ seq 248 7).

Definition case_pairs : list (ascii * ascii) := combine capital_letters small_letters.

(** Two characters are the same letter when they are equal or are the
    capital and the small form of one letter. *)
Definition same_letter (a b : ascii) : bool :=
  Ascii.eqb a b
  || existsb (fun p => (Ascii.eqb a (fst p) && Ascii.eqb b (snd p))
                       || (Ascii.eqb a (snd p) && Ascii.eqb b (fst p)))
       case_pairs.

(** Two texts are the same up to case: equally long, the same letter
    at every position. *)
Fixpoint same_text (s t : string) : bool :=
  match s, t with
  | EmptyString, EmptyString => true
  | String a s', String b t' => same_letter a b && same_text s' t'
  | _, _ => false
  end.

(** The text contains the term case-insensitively: some stretch of the
    text is the term up to case. *)
Definition contains_ci (text term : string) : Prop :=
  exists a u b, text = (a ++ u ++ b)%string /\ same_text u term = true.

(** Every character of the model. *)
Definition all_ascii : list ascii := map ascii_of_nat (seq 0 256).

(** A complaint is a hit for a search term when its title, its
    description, or the e-mail or name of its joined student contains
    the term, case-insensitively. *)
Definition search_hit (searchTerm : string) (c : JoinedComplaint) : Prop :=
  contains_ci (Complaint.title (row c)) searchTerm
  \/ contains_ci (Complaint.description (row c)) searchTerm
  \/ exists s, student c = Some s
               /\ (contains_ci (sr_email s) searchTerm
                   \/ contains_ci (sr_full_name s) searchTerm).

(* ================================================================== *)
(** ** Route guards, the student dashboard, the save button *)
(* ================================================================== *)

(** The routes the guards navigate to: "/", "/auth", "/student",
    "/admin". *)
Inductive route := route_index | route_auth | route_student | route_admin.

(** What [useAuth()] hands to a page. *)
Record AuthState := mkAuthState {
  auth_loading : bool;
  auth_user : option uuid;
  auth_profile : option Profile.t
}.

(** [profile?.role === "admin"] *)
Definition role_is_admin (profile : option Profile.t) : bool :=
  match profile with
  | Some p => AppRole_eqb (Profile.role p) role_admin
  | None => false
  end.

Definition present {A} (x : option A) : bool :=
  match x with Some _ => true | None => false end.

Module Guard.

(** The effect of the landing page: where it navigates, if anywhere. *)
Definition Index (a : AuthState) : option route :=
  if negb (auth_loading a) && present (auth_user a) && present (auth_profile a)
  then if role_is_admin (auth_profile a) then Some route_admin
       else Some route_student
  else None.

(** The first effect of StudentDashboard. *)
Definition StudentDashboard (a : AuthState) : option route :=
  if negb (auth_loading a) then
    if negb (present (auth_user a)) then Some route_auth
    else if role_is_admin (auth_profile a) then Some route_admin
    else None
  else None.

(** The first effect of AdminDashboard. *)
Definition AdminDashboard (a : AuthState) : option route :=
  if negb (auth_loading a) then
    if negb (present (auth_user a)) then Some route_auth
    else if negb (role_is_admin (auth_profile a)) then Some route_student
    else None
  else None.

(** [checkUser] of the Auth page: [session] is the user of the
    provider's session; the role is read from [profiles] with
    [.eq("id", session.user.id).single()] under the caller's policies. *)
Definition Auth (db : Database) (session : option uuid) : option route :=
  match session with
  | Some uid =>
      let profile :=
        opt_of_result
          (single (filter (fun p => String.eqb (Profile.id p) uid)
                     (select_profiles db (Some uid)))) in
      if role_is_admin profile then Some route_admin else Some route_student
  | None => None
  end.

(** The guard of a page that reads [useAuth()]; the sign-in page has
    none of these (its redirect reads the provider's session). *)
Definition of_page (page : route) (a : AuthState) : option route :=
  match page with
  | route_index => Index a
  | route_student => StudentDashboard a
  | route_admin => AdminDashboard a
  | route_auth => None
  end.

(** Where the browser is after at most [hops] navigations. *)
Fixpoint settle (hops : nat) (page : route) (a : AuthState) : route :=
  match hops with
  | 0 => page
  | S k =>
      match of_page page a with
      | Some next => settle k next a
      | None => page
      end
  end.

End Guard.

Module StudentDashboard.

(** [fetchComplaints]: [select("*")] ordered by [created_at],
    newest first. *)
Definition fetchComplaints (db : Database) (uid : auth_uid) : list Complaint.t :=
  order_descending Complaint.created_at (select_complaints db uid).

End StudentDashboard.

Module SaveButton.

(** [hasChanges] of AdminComplaintDetail, for the loaded complaint. *)
Definition hasChanges (st : AdminComplaintDetail.State) (complaint : JoinedComplaint)
  : bool :=
  negb (ComplaintStatus_eqb (AdminComplaintDetail.status st)
          (Complaint.status (row complaint)))
  || negb (String.eqb (AdminComplaintDetail.adminNote st)
             (Js.or_empty (Complaint.admin_note (row complaint)))).

(** [isResolved] *)
Definition isResolved (complaint : JoinedComplaint) : bool :=
  ComplaintStatus_eqb (Complaint.status (row complaint)) resolved.

(** The [disabled] attribute of the save button. *)
Definition disabled (st : AdminComplaintDetail.State) (complaint : JoinedComplaint)
  (saving : bool) : bool :=
  negb (hasChanges st complaint) || isResolved complaint || saving.

End SaveButton.

(** [downloadAttachment] of AdminComplaintDetail: the same requests as
    on the student's page, for the joined complaint the page holds. *)
Definition admin_downloadAttachment (db : Database) (uid : auth_uid)
  (complaint : option JoinedComplaint) : option StorageObject.t :=
  StudentComplaintDetail.downloadAttachment db uid (option_map row complaint).

(* ================================================================== *)
(** ** States the application can reach *)
(* ================================================================== *)

(** One step: an account is created (the provider inserts the user and
    [handle_new_user] fires), or a caller sends one write of the API. *)
Inductive step : Database -> Database -> Prop :=
  | step_sign_up new_id new_email meta_full_name meta_role now db :
      step db (commit (handle_new_user new_id new_email meta_full_name meta_role now) db)
  | step_request uid now r db :
      step db (perform uid now r db).

(** The states reachable from the empty tables. *)
Inductive reachable : Database -> Prop :=
  | reachable_empty entropy0 :
      reachable (mkDatabase [] [] [] [] [] [] entropy0 0)
  | reachable_step db db' :
      reachable db -> step db db' -> reachable db'.

(** [profiles.role] and [user_roles] tell the same story: every role
    row has its profile with that role, every profile its role row, and
    profile ids are unique. *)
Definition roles_agree (db : Database) : Prop :=
  NoDup (map Profile.id (profiles db)) /\
  (forall r, In r (user_roles db) ->
             exists p, In p (profiles db) /\ Profile.id p = UserRole.user_id r
                       /\ Profile.role p = UserRole.role r) /\
  (forall p, In p (profiles db) ->
             exists r, In r (user_roles db) /\ UserRole.user_id r = Profile.id p
                       /\ UserRole.role r = Profile.role p).

(** Ordered by a key, largest first / smallest first. *)
Definition newest_first {A} (key : A -> nat) (l : list A) : Prop :=
  StronglySorted (fun x y => key y <= key x) l.

Definition oldest_first {A} (key : A -> nat) (l : list A) : Prop :=
  StronglySorted (fun x y => key x <= key y) l.

(** Nothing but the ledger differs, and the ledger only gained rows at
    its end. *)
Definition only_ledger_grew (db db' : Database) : Prop :=
  profiles db' = profiles db /\ user_roles db' = user_roles db /\
  complaints db' = complaints db /\ attachments db' = attachments db /\
  storage_objects db' = storage_objects db /\
  exists added, complaint_status_history db' = complaint_status_history db ++ added.

(** The columns of a complaint that AdminComplaintDetail's update does
    not name. *)
Definition fixed_columns (c : Complaint.t)
  : uuid * uuid * string * ComplaintCategory * string * option uuid * timestamptz :=
  (Complaint.id c, Complaint.student_id c, Complaint.title c, Complaint.category c,
   Complaint.description c, Complaint.attachment_id c, Complaint.created_at c).

(** No row is gone: the ledger, the attachments, the stored objects and
    the role rows of the second state begin with the rows of the first,
    and there are no fewer complaints and no fewer profiles. *)
Definition nothing_removed (db db' : Database) : Prop :=
  (exists l, complaint_status_history db' = complaint_status_history db ++ l) /\
  (exists l, attachments db' = attachments db ++ l) /\
  (exists l, storage_objects db' = storage_objects db ++ l) /\
  (exists l, user_roles db' = user_roles db ++ l) /\
  List.length (complaints db) <= List.length (complaints db') /\
  List.length (profiles db) <= List.length (profiles db').

(** The complaints of the second state begin with exactly the rows of
    the first. *)
Definition complaints_appended (db db' : Database) : Prop :=
  exists l, complaints db' = complaints db ++ l.

(** More of the populated example: characters outside ASCII, and a
    complaint that names somebody else's attachment. *)
Module Scenario.

(** NO-BREAK SPACE, capital and small e with acute accent. *)
Definition nbsp : ascii := ascii_of_nat 160.
Definition E_acute : ascii := ascii_of_nat 201.
Definition e_acute : ascii := ascii_of_nat 233.

Fixpoint copies (n : nat) (c : ascii) : string :=
  match n with
  | 0 => EmptyString
  | S k => String c (copies k c)
  end.

(** Bob files a complaint with a photo. *)
Definition bob_submitted : Database :=
  snd (handleSubmit (Some Example.bob) 1800 7 Example.photo_form Example.submitted).

Definition photo_attachment_id : uuid := Example.nth_uuid 6.

(** Alice then inserts, through the API, a complaint of her own that
    names Bob's attachment. *)
Definition shared : Database :=
  perform (Some Example.alice) 8
    (Insert_complaint
       (mkComplaintRow None Example.alice "Shared photo" "other" "See the photo"
          (Some photo_attachment_id) None None None None))
    bob_submitted.

Definition shared_id : uuid := Example.nth_uuid 9.

(** A complaint titled with a capital E acute. *)
Definition ecole : JoinedComplaint :=
  mkJoined
    (Complaint.mk shared_id Example.alice (String E_acute "cole") cat_other
       "Closed on Monday" None open None 8 8)
    None.

End Scenario.

(** The values of the category select of NewComplaint, and of the
    status and category selects of the admin dashboard besides "all". *)
Definition category_options : list string :=
  ["mentor"; "admin"; "academic_counsellor"; "working_hub"; "peer"; "other"].

Definition status_options : list string := ["open"; "in_progress"; "resolved"].

(** The name [handleSubmit] stores a file under. *)
Definition upload_name (uid : uuid) (date_now : nat) (file : File) : string :=
  (uid ++ "/" ++ Js.number_to_string date_now ++ "."
   ++ Js.render (Js.pop (Js.split "." (file_name file))))%string.

(* ================================================================== *)
(** * Facts about the string primitives *)
(* ================================================================== *)

Module JsFacts.

Lemma trimStart_all_space s :
  Js.all_space (Js.trimStart s) = Js.all_space s.
Proof.
  induction s as [|c s IH]; simpl; [reflexivity|].
  destruct (Js.is_space c) eqn:Hc; simpl.
  - exact IH.
  - rewrite Hc. reflexivity.
Qed.

Lemma trimEnd_empty_iff s :
  Js.trimEnd s = EmptyString <-> Js.all_space s = true.
Proof.
  induction s as [|c s IH]; simpl.
  - split; reflexivity.
  - destruct (Js.trimEnd s) eqn:Ht.
    + destruct (Js.is_space c); simpl.
      * split; intros _; [apply IH|]; reflexivity.
      * split; discriminate.
    + split; [discriminate|].
      intros H. apply andb_true_iff in H. destruct H as [_ H].
      apply IH in H. discriminate.
Qed.

(** [trim] leaves nothing exactly on the empty and white-space-only
    strings. *)
Lemma trim_empty_iff s :
  Js.trim s = EmptyString <-> Js.all_space s = true.
Proof.
  unfold Js.trim. rewrite trimEnd_empty_iff, trimStart_all_space. reflexivity.
Qed.

Lemma truthy_trim s :
  Js.truthy (Js.trim s) = negb (Js.all_space s).
Proof.
  destruct (Js.all_space s) eqn:H.
  - apply trim_empty_iff in H. rewrite H. reflexivity.
  - destruct (Js.trim s) eqn:Ht; [|reflexivity].
    apply trim_empty_iff in Ht. congruence.
Qed.

Lemma startsWith_spec s t :
  Js.startsWith s t = true <-> exists b, s = (t ++ b)%string.
Proof.
  revert s. induction t as [|c t IH]; intros s; simpl.
  - split; [intros _; exists s; reflexivity | intros _; destruct s; reflexivity].
  - destruct s as [|a s]; simpl.
    + split; [discriminate | intros [b Hb]; discriminate].
    + rewrite andb_true_iff, Ascii.eqb_eq, IH. split.
      * intros [-> [b ->]]. exists b. reflexivity.
      * intros [b Hb]. injection Hb as -> ->. split; [reflexivity | eauto].
Qed.

(** [includes] is the substring relation. *)
Lemma includes_spec s t :
  Js.includes s t = true <-> exists a b, s = (a ++ t ++ b)%string.
Proof.
  split.
  - induction s as [|c s IH]; cbn [Js.includes]; rewrite orb_true_iff.
    + intros [H|H]; [|discriminate].
      apply startsWith_spec in H. destruct H as [b Hb].
      exists EmptyString, b. exact Hb.
    + intros [H|H].
      * apply startsWith_spec in H. destruct H as [b Hb].
        exists EmptyString, b. exact Hb.
      * destruct (IH H) as (a & b & ->).
        exists (String c a), b. reflexivity.
  - intros (a & b & ->). induction a as [|c a IH].
    + assert (H : Js.startsWith (t ++ b) t = true)
        by (apply startsWith_spec; eauto).
      change (EmptyString ++ t ++ b)%string with (t ++ b)%string.
      destruct (t ++ b)%string; cbn [Js.includes]; rewrite H; reflexivity.
    + change (String c a ++ t ++ b)%string with (String c (a ++ t ++ b)).
      cbn [Js.includes]. rewrite IH. apply orb_true_r.
Qed.

Lemma includes_empty s : Js.includes s EmptyString = true.
Proof. apply includes_spec. exists EmptyString, s. reflexivity. Qed.

Lemma split_not_nil sep s : Js.split sep s <> [].
Proof.
  destruct s as [|c s]; simpl; [discriminate|].
  destruct (Ascii.eqb c sep); [discriminate|].
  destruct (Js.split sep s); discriminate.
Qed.

(** Splitting after a separator-free prefix cuts exactly there. *)
Lemma split_prefix sep u rest :
  mentions sep u = false ->
  Js.split sep (u ++ String sep rest) = u :: Js.split sep rest.
Proof.
  induction u as [|c u IH]; simpl; intros H.
  - rewrite Ascii.eqb_refl. reflexivity.
  - apply orb_false_iff in H. destruct H as [Hc Hu].
    rewrite Hc, (IH Hu). reflexivity.
Qed.

Lemma uuid_chars_no_slash s : forall pos,
  uuid_chars pos s = true -> mentions "/" s = false.
Proof.
  induction s as [|c s IH]; intros pos H; simpl in *; [reflexivity|].
  apply andb_true_iff in H. destruct H as [Hc Hs].
  rewrite (IH _ Hs), orb_false_r.
  destruct (Ascii.eqb c "/") eqn:E; [|reflexivity].
  apply Ascii.eqb_eq in E. subst c.
  destruct ((pos =? 8) || (pos =? 13) || (pos =? 18) || (pos =? 23));
    discriminate.
Qed.

Lemma uuid_text_no_slash u : is_uuid_text u = true -> mentions "/" u = false.
Proof. apply uuid_chars_no_slash. Qed.

(** The first folder of [u/rest] is [u] when [u] has no slash. *)
Lemma foldername_first u rest :
  mentions "/" u = false ->
  nth_error (foldername (u ++ String "/" rest)) 0 = Some u.
Proof.
  intros H. unfold foldername. rewrite (split_prefix _ _ _ H).
  destruct (Js.split "/" rest) eqn:E.
  - exfalso. exact (split_not_nil _ _ E).
  - reflexivity.
Qed.

End JsFacts.

(* ================================================================== *)
(** * Facts about transactions and statements *)
(* ================================================================== *)

Module TxFacts.

Lemma bind_ok {A B} (m : Tx A) (k : A -> Tx B) db r :
  bind m k db = Ok r <-> exists a db1, m db = Ok (a, db1) /\ k a db1 = Ok r.
Proof.
  unfold bind. split.
  - destruct (m db) as [[a db1]|e]; [|discriminate]. eauto.
  - intros (a & db1 & -> & H). exact H.
Qed.

Lemma ret_ok {A} (a b : A) db db' :
  ret a db = Ok (b, db') <-> b = a /\ db' = db.
Proof.
  unfold ret. split.
  - intros H. injection H as <- <-. auto.
  - intros [-> ->]. reflexivity.
Qed.

Lemma ensure_ok b e db u db' :
  ensure b e db = Ok (u, db') <-> b = true /\ db' = db.
Proof.
  unfold ensure, ret, raise. destruct b; split.
  - intros H. injection H as _ <-. auto.
  - intros [_ ->]. destruct u. reflexivity.
  - discriminate.
  - intros [H _]. discriminate.
Qed.

Lemma read_ok {A} (f : Database -> A) db a db' :
  read f db = Ok (a, db') <-> a = f db /\ db' = db.
Proof.
  unfold read. split.
  - intros H. injection H as <- <-. auto.
  - intros [-> ->]. reflexivity.
Qed.

Lemma lift_ok {A} (r : result A) db a db' :
  lift r db = Ok (a, db') <-> r = Ok a /\ db' = db.
Proof.
  unfold lift. destruct r; split.
  - intros H. injection H as <- <-. auto.
  - intros [H ->]. injection H as ->. reflexivity.
  - discriminate.
  - intros [H _]. discriminate.
Qed.

Lemma gen_random_uuid_ok db id db' :
  gen_random_uuid db = Ok (id, db') <->
  id = entropy db (drawn db) /\ db' = with_drawn (S (drawn db)) db.
Proof.
  unfold gen_random_uuid. split.
  - intros H. injection H as <- <-. auto.
  - intros [-> ->]. reflexivity.
Qed.

End TxFacts.

(** Takes a successful run of a statement apart, step by step. *)
Ltac tx_inv H :=
  repeat
    match type of H with
    | bind _ _ _ = Ok _ =>
        let a := fresh "a" in
        let d := fresh "db" in
        let Hm := fresh "Hstep" in
        apply TxFacts.bind_ok in H; destruct H as (a & d & Hm & H);
        first
          [ apply TxFacts.ensure_ok in Hm; destruct Hm as [Hm ->]
          | apply TxFacts.read_ok in Hm; destruct Hm as [-> ->]
          | apply TxFacts.gen_random_uuid_ok in Hm; destruct Hm as [-> ->]
          | apply TxFacts.lift_ok in Hm; destruct Hm as [Hm ->]
          | idtac ]
    | ret _ _ = Ok _ =>
        apply TxFacts.ret_ok in H; destruct H as [? ?]; subst
    end.

Module StoreFacts.

(** What a successful INSERT into the ledger did. *)
Lemma insert_history_ok who now v db h db' :
  insert_history who now v db = Ok (h, db') ->
  h = History.mk (entropy db (drawn db)) (hi_complaint_id v)
        (hi_changed_by_user_id v) (hi_from_status v) (hi_to_status v)
        (hi_note_snapshot v) now /\
  db' = with_history (complaint_status_history db ++ [h])
          (with_drawn (S (drawn db)) db) /\
  complaint_exists db (hi_complaint_id v) = true /\
  profile_exists db (hi_changed_by_user_id v) = true.
Proof.
  unfold insert_history. intros H. tx_inv H.
  cbn in *. injection H as <- <-. auto.
Qed.

(** The INSERT into the ledger succeeds once its constraints hold. *)
Lemma insert_history_succeeds who now v db :
  null_or_at_most 5000 (hi_note_snapshot v) = true ->
  history_exists db (entropy db (drawn db)) = false ->
  complaint_exists db (hi_complaint_id v) = true ->
  profile_exists db (hi_changed_by_user_id v) = true ->
  exists h db', insert_history who now v db = Ok (h, db').
Proof.
  intros Hn Hf Hc Hp. unfold insert_history, bind, gen_random_uuid, read.
  cbn. unfold history_checks. cbn. rewrite Hn. cbn.
  assert (E : ensure (match who with definer => true | client uid => true end)
                rls_violation (with_drawn (S (drawn db)) db)
              = Ok (tt, with_drawn (S (drawn db)) db)) by (destruct who; reflexivity).
  unfold Policy.history_insert_check. rewrite E.
  unfold history_exists, complaint_exists, profile_exists in *. cbn.
  rewrite Hf. cbn. rewrite Hc. cbn. rewrite Hp. cbn. eauto.
Qed.

Lemma ComplaintStatus_eqb_eq a b : ComplaintStatus_eqb a b = true <-> a = b.
Proof. destruct a, b; simpl; split; intro; (reflexivity || discriminate). Qed.

Lemma ComplaintStatus_eqb_refl a : ComplaintStatus_eqb a a = true.
Proof. destruct a; reflexivity. Qed.

Lemma is_distinct_from_iff a b : is_distinct_from a b = true <-> a <> b.
Proof.
  destruct a, b; simpl; split; intro H;
    try reflexivity; try discriminate; try (exfalso; apply H; reflexivity).
Qed.

Lemma uid_is_true uid x : uid_is uid x = true <-> uid = Some x.
Proof.
  destruct uid as [u|]; simpl.
  - rewrite String.eqb_eq. split; congruence.
  - split; discriminate.
Qed.

Lemma existsb_id_false {A} (key : A -> string) x l :
  existsb (fun r => String.eqb (key r) x) l = false <-> ~ In x (map key l).
Proof.
  induction l as [|r l IH]; simpl.
  - tauto.
  - rewrite orb_false_iff, IH, String.eqb_neq. tauto.
Qed.

Lemma existsb_id_true {A} (key : A -> string) x l :
  existsb (fun r => String.eqb (key r) x) l = true <-> In x (map key l).
Proof.
  induction l as [|r l IH]; simpl.
  - split; [discriminate | tauto].
  - rewrite orb_true_iff, IH, String.eqb_eq. tauto.
Qed.

(** Under a key constraint a row is found by its key alone. *)
Lemma filter_key_unique {A} (key : A -> string) (l : list A) (c : A) :
  NoDup (map key l) -> In c l ->
  filter (fun r => String.eqb (key r) (key c)) l = [c].
Proof.
  induction l as [|r l IH]; simpl; intros Hnd Hin; [contradiction|].
  inversion Hnd as [|? ? Hnotin Hnd']; subst.
  destruct Hin as [->|Hin].
  - rewrite String.eqb_refl. f_equal.
    clear IH Hnd Hnd'. induction l as [|r l IH]; simpl; [reflexivity|].
    simpl in Hnotin.
    destruct (String.eqb (key r) (key c)) eqn:E.
    + apply String.eqb_eq in E. exfalso. apply Hnotin. left. exact E.
    + apply IH. intros H. apply Hnotin. right. exact H.
  - destruct (String.eqb (key r) (key c)) eqn:E.
    + apply String.eqb_eq in E. exfalso. apply Hnotin. rewrite E.
      apply in_map. exact Hin.
    + apply IH; assumption.
Qed.

Lemma key_unique_inj {A} (key : A -> string) (l : list A) (r c : A) :
  NoDup (map key l) -> In r l -> In c l -> key r = key c -> r = c.
Proof.
  intros Hnd Hr Hc E.
  assert (H : In r (filter (fun x => String.eqb (key x) (key c)) l)).
  { apply filter_In. split; [exact Hr|]. apply String.eqb_eq. exact E. }
  rewrite (filter_key_unique key l c Hnd Hc) in H.
  destruct H as [H|[]]. congruence.
Qed.

(** The new version of a row an UPDATE writes. *)
Lemma update_rows_ok selected now v rows rows' fired :
  update_rows selected now v rows = Ok (rows', fired) ->
  rows' = map (fun r => if selected r
                        then update_updated_at_column now (set_columns v r)
                        else r) rows /\
  fired = map (fun r => (r, update_updated_at_column now (set_columns v r)))
            (filter selected rows).
Proof.
  revert rows' fired. induction rows as [|r rows IH]; simpl; intros rows' fired H.
  - injection H as <- <-. auto.
  - destruct (selected r).
    + destruct (complaint_checks _); [|discriminate].
      destruct (update_rows selected now v rows) as [[l f]|]; [|discriminate].
      injection H as <- <-. destruct (IH _ _ eq_refl) as [-> ->]. auto.
    + destruct (update_rows selected now v rows) as [[l f]|]; [|discriminate].
      injection H as <- <-. destruct (IH _ _ eq_refl) as [-> ->]. auto.
Qed.

Lemma update_rows_succeeds selected now v rows :
  (forall r, In r rows -> selected r = true ->
             complaint_checks (update_updated_at_column now (set_columns v r)) = true) ->
  exists rows' fired, update_rows selected now v rows = Ok (rows', fired).
Proof.
  induction rows as [|r rows IH]; simpl; intros H; [eauto|].
  destruct IH as (l & f & ->); [intros; apply H; auto|].
  destruct (selected r) eqn:E; [|eauto].
  rewrite (H r (or_introl eq_refl) E). eauto.
Qed.

(** The trigger on an UPDATE that leaves the status as it was. *)
Lemma log_unchanged_status OLD NEW uid now db :
  Complaint.status OLD = Complaint.status NEW ->
  log_complaint_status_change UPDATE (Some OLD) NEW uid now db = Ok (tt, db).
Proof.
  intros E. unfold log_complaint_status_change. cbn. rewrite E.
  unfold is_distinct_from. rewrite ComplaintStatus_eqb_refl. reflexivity.
Qed.

(** The trigger on an UPDATE that changes the status. *)
Lemma log_changed_status OLD NEW uid now db :
  Complaint.status OLD <> Complaint.status NEW ->
  log_complaint_status_change UPDATE (Some OLD) NEW uid now db =
  (insert_history definer now
     (mkHistoryInsert (Complaint.id NEW)
        (coalesce_uid uid (Complaint.student_id NEW))
        (Some (Complaint.status OLD)) (Complaint.status NEW)
        (Complaint.admin_note NEW)) ;;; ret tt) db.
Proof.
  intros E. unfold log_complaint_status_change. cbn.
  apply is_distinct_from_iff in E. rewrite E. reflexivity.
Qed.

End StoreFacts.

(* ================================================================== *)
(** * The admin update and the ledger *)
(* ================================================================== *)

Module UpdateFacts.

Import StoreFacts.

(** An admin's UPDATE by id selects exactly the row with that id. *)
Lemma admin_selects_one db uid c :
  complaints_pkey db -> In c (complaints db) ->
  has_role db uid role_admin = true ->
  filter (fun r => String.eqb (Complaint.id r) (Complaint.id c)
                   && Policy.complaints_update_using db uid r)
         (complaints db) = [c].
Proof.
  intros Hpk Hin Hadm.
  rewrite <- (filter_key_unique Complaint.id (complaints db) c Hpk Hin).
  apply filter_ext. intros r. unfold Policy.complaints_update_using.
  rewrite Hadm. apply andb_true_r.
Qed.

Lemma admin_rewrites_one db uid c (f : Complaint.t -> Complaint.t) :
  complaints_pkey db -> In c (complaints db) ->
  has_role db uid role_admin = true ->
  map (fun r => if String.eqb (Complaint.id r) (Complaint.id c)
                   && Policy.complaints_update_using db uid r
                then f r else r) (complaints db)
  = map (fun r => if String.eqb (Complaint.id r) (Complaint.id c)
                  then f c else r) (complaints db).
Proof.
  intros Hpk Hin Hadm. apply map_ext_in. intros r Hr.
  unfold Policy.complaints_update_using. rewrite Hadm, andb_true_r.
  destruct (String.eqb (Complaint.id r) (Complaint.id c)) eqn:E; [|reflexivity].
  apply String.eqb_eq in E.
  rewrite (key_unique_inj Complaint.id (complaints db) r c Hpk Hr Hin E).
  reflexivity.
Qed.

(** A non-admin's UPDATE selects nothing and changes nothing, without
    an error. *)
Lemma non_admin_update_is_void db uid now target v :
  has_role db uid role_admin = false ->
  update_complaints uid now target v db = Ok (0, with_complaints (complaints db) db).
Proof.
  intros Hadm. unfold update_complaints, Policy.complaints_update_using.
  rewrite Hadm.
  assert (E : forall rows,
             update_rows (fun c => String.eqb (Complaint.id c) target && false)
               now v rows = Ok (rows, [])).
  { induction rows as [|r rows IH]; simpl; [reflexivity|].
    rewrite andb_false_r, IH. reflexivity. }
  rewrite E. reflexivity.
Qed.

End UpdateFacts.

(* ================================================================== *)
(** * Properties of the specification *)
(* ================================================================== *)

(** C10. An admin's update that leaves the status as it is (a note-only
    edit) succeeds on the one row with that id, writes the new
    [admin_note] and sets [updated_at] to the statement's time, and
    appends nothing to the status history: the ledger afterwards is the
    ledger before. *)
Theorem note_only_update_is_not_logged db uid now c note :
  complaints_pkey db ->
  In c (complaints db) ->
  complaint_checks c = true ->
  has_role db uid role_admin = true ->
  null_or_at_most 5000 note = true ->
  let c' := update_updated_at_column now
              (set_columns (mkComplaintUpdate (Complaint.status c) note) c) in
  exists db',
    update_complaints uid now (Complaint.id c)
      (mkComplaintUpdate (Complaint.status c) note) db = Ok (1, db') /\
    complaint_status_history db' = complaint_status_history db /\
    complaints db' =
      map (fun r => if String.eqb (Complaint.id r) (Complaint.id c) then c' else r)
          (complaints db) /\
    Complaint.admin_note c' = note /\
    Complaint.updated_at c' = now /\
    Complaint.status c' = Complaint.status c.
Proof.
  intros Hpk Hin Hck Hadm Hnote c'.
  set (v := mkComplaintUpdate (Complaint.status c) note).
  set (sel := fun r => String.eqb (Complaint.id r) (Complaint.id c)
                       && Policy.complaints_update_using db uid r).
  assert (Hsel : filter sel (complaints db) = [c])
    by (apply UpdateFacts.admin_selects_one; assumption).
  destruct (StoreFacts.update_rows_succeeds sel now v (complaints db))
    as (rows' & fired & Hupd).
  { intros r Hr Hs.
    assert (Hrc : In r (filter sel (complaints db)))
      by (apply filter_In; auto).
    rewrite Hsel in Hrc. destruct Hrc as [<-|[]].
    unfold complaint_checks in *. cbn.
    apply andb_true_iff in Hck. destruct Hck as [Hck _].
    rewrite Hck, Hnote. reflexivity. }
  destruct (StoreFacts.update_rows_ok _ _ _ _ _ _ Hupd) as [Hrows Hfired].
  rewrite Hsel in Hfired. cbn in Hfired.
  exists (with_complaints rows' db).
  unfold update_complaints. fold sel. rewrite Hupd. subst fired.
  cbn [fire_log_complaint_status]. unfold bind.
  rewrite StoreFacts.log_unchanged_status by reflexivity.
  cbn. repeat split; try reflexivity.
  subst rows'. apply UpdateFacts.admin_rewrites_one; assumption.
Qed.

(** The theorem at the populated example: Carol edits only the note of
    Alice's open complaint. *)
Lemma note_only_update_is_not_logged_witness :
  exists c db',
    In c (complaints Example.submitted) /\
    update_complaints (Some Example.carol) 9 (Complaint.id c)
      (mkComplaintUpdate (Complaint.status c) (Some "Looking into it"))
      Example.submitted = Ok (1, db') /\
    complaint_status_history db' = complaint_status_history Example.submitted.
Proof.
  pose (c := Complaint.mk Example.chair_id Example.alice "Broken chair"
               cat_working_hub "The chair in hub 2 is broken"
               (Some Example.chair_attachment_id) open None 5 5).
  assert (Hin : In c (complaints Example.submitted))
    by (vm_compute; left; reflexivity).
  destruct (note_only_update_is_not_logged Example.submitted (Some Example.carol) 9 c
              (Some "Looking into it")) as (db' & H1 & H2 & _).
  - vm_compute. repeat constructor. intros [].
  - exact Hin.
  - vm_compute. reflexivity.
  - vm_compute. reflexivity.
  - vm_compute. reflexivity.
  - exists c, db'. repeat split; assumption.
Defined.

(** C10, counterexample to the claim as stated. Carol edits only the
    note of Alice's open complaint, with a note of 5001 characters: the
    CHECK constraint on [admin_note] refuses the new row, the update
    fails and nothing is written. *)
Lemma overlong_note_only_update_fails :
  map Complaint.status (complaints Example.submitted) = [open] /\
  has_role Example.submitted (Some Example.carol) role_admin = true /\
  update_complaints (Some Example.carol) 9 Example.chair_id
    (mkComplaintUpdate open (Some (Example.zeros (S (50 * 100)))))
    Example.submitted
  = Err check_violation /\
  perform (Some Example.carol) 9
    (Update_complaints (fun c => String.eqb (Complaint.id c) Example.chair_id)
       (patch_of (mkComplaintUpdate open (Some (Example.zeros (S (50 * 100)))))))
    Example.submitted
  = Example.submitted.
Proof.
  vm_compute. repeat split.
Qed.

(** What a successful INSERT of a complaint did: the new row has the
    column defaults, was not in the table before, and the trigger has
    appended one ledger entry for it. *)
Lemma insert_complaint_ok uid now v db c db' :
  insert_complaint uid now v db = Ok (c, db') ->
  exists h,
    complaints db' = complaints db ++ [c] /\
    complaint_status_history db' = complaint_status_history db ++ [h] /\
    profiles db' = profiles db /\
    user_roles db' = user_roles db /\
    attachments db' = attachments db /\
    storage_objects db' = storage_objects db /\
    Complaint.id c = entropy db (drawn db) /\
    ~ In (Complaint.id c) (map Complaint.id (complaints db)) /\
    Complaint.student_id c = ci_student_id v /\
    uid = Some (Complaint.student_id c) /\
    Complaint.status c = open /\
    Complaint.admin_note c = None /\
    Complaint.attachment_id c = ci_attachment_id v /\
    h = History.mk (entropy db (S (drawn db))) (Complaint.id c)
          (coalesce_uid uid (Complaint.student_id c)) None open None now.
Proof.
  unfold insert_complaint. intros H. tx_inv H.
  match goal with
  | Hs : ?f _ = Ok (_, _), Hl : log_complaint_status_change _ _ _ _ _ _ = Ok _ |- _ =>
      injection Hs as <- <-;
      unfold log_complaint_status_change in Hl; cbn in Hl; tx_inv Hl;
      match goal with
      | Hi : insert_history _ _ _ _ = Ok _ |- _ =>
          apply StoreFacts.insert_history_ok in Hi;
          destruct Hi as (Hh & Hdb & _ & _)
      end
  end.
  subst. cbn in *.
  eexists. repeat split; try reflexivity.
  - apply StoreFacts.existsb_id_false. unfold complaint_exists in *.
    match goal with
    | Hn : negb _ = true |- _ => apply negb_true_iff in Hn; exact Hn
    end.
  - match goal with
    | Hp : Policy.complaints_insert_check _ _ = true |- _ =>
        unfold Policy.complaints_insert_check in Hp; cbn in Hp;
        apply StoreFacts.uid_is_true in Hp; exact Hp
    end.
Qed.

(** What a successful status-changing UPDATE by an admin did to the
    ledger. *)
Lemma status_update_ok db uid now c v n db' :
  complaints_pkey db ->
  In c (complaints db) ->
  has_role db uid role_admin = true ->
  Complaint.status c <> cu_status v ->
  update_complaints uid now (Complaint.id c) v db = Ok (n, db') ->
  n = 1 /\
  complaint_status_history db' =
    complaint_status_history db ++
    [History.mk (entropy db (drawn db)) (Complaint.id c)
       (coalesce_uid uid (Complaint.student_id c))
       (Some (Complaint.status c)) (cu_status v) (cu_admin_note v) now] /\
  complaints db' =
    map (fun r => if String.eqb (Complaint.id r) (Complaint.id c)
                  then update_updated_at_column now (set_columns v c) else r)
        (complaints db).
Proof.
  intros Hpk Hin Hadm Hne H.
  unfold update_complaints in H.
  set (sel := fun r => String.eqb (Complaint.id r) (Complaint.id c)
                       && Policy.complaints_update_using db uid r) in H.
  destruct (update_rows sel now v (complaints db)) as [[rows' fired]|] eqn:Hupd;
    [|discriminate].
  destruct (StoreFacts.update_rows_ok _ _ _ _ _ _ Hupd) as [Hrows Hfired].
  unfold sel in Hfired.
  rewrite (UpdateFacts.admin_selects_one db uid c Hpk Hin Hadm) in Hfired.
  cbn in Hfired. subst fired.
  cbn [fire_log_complaint_status List.length] in H.
  apply TxFacts.bind_ok in H. destruct H as (u1 & db1 & Hfire & Hret).
  apply TxFacts.ret_ok in Hret. destruct Hret as [-> ->].
  apply TxFacts.bind_ok in Hfire. destruct Hfire as (u2 & db2 & Hlog & Hret).
  apply TxFacts.ret_ok in Hret. destruct Hret as [_ ->].
  rewrite (StoreFacts.log_changed_status c
             (update_updated_at_column now (set_columns v c)) uid now _ Hne)
    in Hlog.
  apply TxFacts.bind_ok in Hlog. destruct Hlog as (h & db3 & Hins & Hret).
  apply TxFacts.ret_ok in Hret. destruct Hret as [_ ->].
  apply StoreFacts.insert_history_ok in Hins.
  destruct Hins as (Hh & Hdb & _ & _). subst h db3. cbn.
  repeat split.
  subst rows'. unfold sel.
  apply (UpdateFacts.admin_rewrites_one db uid c
           (fun r => update_updated_at_column now (set_columns v r)));
    assumption.
Qed.

(** What a successful status-keeping UPDATE by an admin did: the
    ledger is untouched. *)
Lemma status_keeping_update_ok db uid now c v n db' :
  complaints_pkey db ->
  In c (complaints db) ->
  has_role db uid role_admin = true ->
  Complaint.status c = cu_status v ->
  update_complaints uid now (Complaint.id c) v db = Ok (n, db') ->
  n = 1 /\
  complaint_status_history db' = complaint_status_history db.
Proof.
  intros Hpk Hin Hadm Heq H.
  unfold update_complaints in H.
  set (sel := fun r => String.eqb (Complaint.id r) (Complaint.id c)
                       && Policy.complaints_update_using db uid r) in H.
  destruct (update_rows sel now v (complaints db)) as [[rows' fired]|] eqn:Hupd;
    [|discriminate].
  destruct (StoreFacts.update_rows_ok _ _ _ _ _ _ Hupd) as [Hrows Hfired].
  unfold sel in Hfired.
  rewrite (UpdateFacts.admin_selects_one db uid c Hpk Hin Hadm) in Hfired.
  cbn in Hfired. subst fired.
  cbn [fire_log_complaint_status List.length] in H.
  apply TxFacts.bind_ok in H. destruct H as (u1 & db1 & Hfire & Hret).
  apply TxFacts.ret_ok in Hret. destruct Hret as [-> ->].
  apply TxFacts.bind_ok in Hfire. destruct Hfire as (u2 & db2 & Hlog & Hret).
  apply TxFacts.ret_ok in Hret. destruct Hret as [_ ->].
  rewrite (StoreFacts.log_unchanged_status c
             (update_updated_at_column now (set_columns v c)) uid now _ Heq)
    in Hlog.
  injection Hlog as _ <-. split; reflexivity.
Qed.

(** C2 (as the code has it). A successful update by an admin that
    changes the status appends exactly one entry to the status history,
    with [from_status] the status before the call, [to_status] the new
    status and [note_snapshot] the note the update recorded; every
    successful update by an admin that keeps the status appends none;
    every successful insert of a complaint appends exactly one entry
    with [from_status] NULL and [to_status] the new row's status. *)
Theorem status_change_logs_one_entry :
  (forall db uid now c v n db',
     complaints_pkey db ->
     In c (complaints db) ->
     has_role db uid role_admin = true ->
     Complaint.status c <> cu_status v ->
     update_complaints uid now (Complaint.id c) v db = Ok (n, db') ->
     exists h,
       complaint_status_history db' = complaint_status_history db ++ [h] /\
       History.complaint_id h = Complaint.id c /\
       History.from_status h = Some (Complaint.status c) /\
       History.to_status h = cu_status v /\
       History.note_snapshot h = cu_admin_note v)
  /\
  (forall db uid now c v n db',
     complaints_pkey db ->
     In c (complaints db) ->
     has_role db uid role_admin = true ->
     Complaint.status c = cu_status v ->
     update_complaints uid now (Complaint.id c) v db = Ok (n, db') ->
     complaint_status_history db' = complaint_status_history db)
  /\
  (forall db uid now v c db',
     insert_complaint uid now v db = Ok (c, db') ->
     exists h,
       complaint_status_history db' = complaint_status_history db ++ [h] /\
       History.complaint_id h = Complaint.id c /\
       History.from_status h = None /\
       History.to_status h = Complaint.status c /\
       History.note_snapshot h = Complaint.admin_note c).
Proof.
  split; [|split].
  - intros db uid now c v n db' Hpk Hin Hadm Hne H.
    destruct (status_update_ok db uid now c v n db' Hpk Hin Hadm Hne H)
      as (_ & Hh & _).
    eexists. split; [exact Hh|]. cbn. auto.
  - intros db uid now c v n db' Hpk Hin Hadm Heq H.
    exact (proj2 (status_keeping_update_ok db uid now c v n db' Hpk Hin Hadm Heq H)).
  - intros db uid now v c db' H.
    destruct (insert_complaint_ok uid now v db c db' H)
      as (h & _ & Hh & _ & _ & _ & _ & _ & _ & _ & _ & Hs & Hn & _ & ->).
    eexists. split; [exact Hh|]. cbn. rewrite Hs, Hn. auto.
Qed.

(** The theorem at the populated example: Carol's resolving update and
    Bob's later submission each add one entry. *)
Lemma status_change_logs_one_entry_witness :
  (exists h,
     complaint_status_history Example.resolved_db =
       complaint_status_history Example.submitted ++ [h] /\
     History.from_status h = Some open /\ History.to_status h = resolved) /\
  (exists h,
     complaint_status_history Example.later =
       complaint_status_history Example.submitted ++ [h] /\
     History.from_status h = None /\ History.to_status h = open).
Proof.
  split.
  - pose (c := Complaint.mk Example.chair_id Example.alice "Broken chair"
                 cat_working_hub "The chair in hub 2 is broken"
                 (Some Example.chair_attachment_id) open None 5 5).
    destruct (proj1 status_change_logs_one_entry Example.submitted
                (Some Example.carol) 9 c
                (mkComplaintUpdate resolved (Some "Refunded")) 1
                Example.resolved_db)
      as (h & H1 & _ & H2 & H3 & _).
    + vm_compute. repeat constructor. intros [].
    + vm_compute. left. reflexivity.
    + vm_compute. reflexivity.
    + discriminate.
    + vm_compute. reflexivity.
    + exists h. auto.
  - destruct (proj2 (proj2 status_change_logs_one_entry) Example.submitted
                (Some Example.bob) 7
                (mkComplaintInsert Example.bob "Wobbly desk" "working_hub"
                   "Next to the broken chair" None)
                (Complaint.mk Example.desk_id Example.bob "Wobbly desk"
                   cat_working_hub "Next to the broken chair" None open None 7 7)
                Example.later)
      as (h & H1 & _ & H2 & H3 & _).
    + vm_compute. reflexivity.
    + exists h. auto.
Defined.

(** C2, counterexample to the claim as stated. Carol saves Alice's open
    complaint with the status left at [open] and a new note: the update
    succeeds and the note is written, and no ledger entry is added. *)
Lemma unchanged_status_update_logs_nothing :
  let r := AdminComplaintDetail.handleSave (Some Example.carol) 9 Example.chair_id
             (Example.with_form open "Looking into it" Example.loaded_page)
             Example.submitted in
  fst (fst r) = AdminComplaintDetail.Updated_successfully /\
  map Complaint.admin_note (complaints (snd (fst r))) = [Some "Looking into it"] /\
  complaint_status_history (snd (fst r)) = complaint_status_history Example.submitted /\
  ~ exists h, complaint_status_history (snd (fst r)) =
              complaint_status_history Example.submitted ++ [h].
Proof.
  cbv zeta. repeat split; try (vm_compute; reflexivity).
  intros [h H]. apply (f_equal (@List.length _)) in H.
  rewrite length_app in H. vm_compute in H. discriminate.
Qed.

(** C3. A save that sets the status to [resolved] with an empty or
    white-space-only note stops at the "Note required" validation
    error: the database (complaint and ledger alike) and the page are
    what they were. *)
Theorem resolving_requires_a_note uid now id st db :
  AdminComplaintDetail.status st = resolved ->
  Js.all_space (AdminComplaintDetail.adminNote st) = true ->
  AdminComplaintDetail.handleSave uid now id st db =
    (AdminComplaintDetail.Note_required, db, st).
Proof.
  intros Hs Hn. unfold AdminComplaintDetail.handleSave.
  rewrite Hs, JsFacts.truthy_trim, Hn. reflexivity.
Qed.

Lemma resolving_requires_a_note_witness :
  AdminComplaintDetail.handleSave (Some Example.carol) 9 Example.chair_id
    (Example.with_form resolved "  " Example.loaded_page) Example.submitted =
  (AdminComplaintDetail.Note_required, Example.submitted,
   Example.with_form resolved "  " Example.loaded_page).
Proof.
  apply (resolving_requires_a_note (Some Example.carol) 9 Example.chair_id
           (Example.with_form resolved "  " Example.loaded_page) Example.submitted).
  - reflexivity.
  - reflexivity.
Defined.

(** The same for a note made of no-break spaces (U+00A0), which
    [trim] removes like any other white space. *)
Lemma no_break_spaces_are_no_note :
  AdminComplaintDetail.handleSave (Some Example.carol) 9 Example.chair_id
    (Example.with_form resolved (Scenario.copies 3 Scenario.nbsp) Example.loaded_page)
    Example.submitted =
  (AdminComplaintDetail.Note_required, Example.submitted,
   Example.with_form resolved (Scenario.copies 3 Scenario.nbsp) Example.loaded_page).
Proof. reflexivity. Qed.

(** The guard of the page (part_004:85-93). When the complaint the admin
    page has loaded is resolved, [handleSave] sends nothing, whoever
    calls it and whatever status and note the form holds: database and
    page are unchanged. It stops with "Cannot update", except that a
    form asking for [resolved] with a blank note stops at the earlier
    "Note required" check. *)
Theorem resolved_page_refuses_save uid now id st db c :
  AdminComplaintDetail.complaint st = Some c ->
  Complaint.status (row c) = resolved ->
  AdminComplaintDetail.handleSave uid now id st db =
    (if ComplaintStatus_eqb (AdminComplaintDetail.status st) resolved
        && Js.all_space (AdminComplaintDetail.adminNote st)
     then AdminComplaintDetail.Note_required
     else AdminComplaintDetail.Cannot_update,
     db, st).
Proof.
  intros Hc Hs. unfold AdminComplaintDetail.handleSave.
  rewrite Hc, Hs, JsFacts.truthy_trim, negb_involutive.
  destruct (ComplaintStatus_eqb (AdminComplaintDetail.status st) resolved
            && Js.all_space (AdminComplaintDetail.adminNote st)); reflexivity.
Qed.

Lemma resolved_page_refuses_save_witness :
  AdminComplaintDetail.handleSave (Some Example.carol) 11 Example.chair_id
    (Example.with_form in_progress "Reopen" Example.resolved_page)
    Example.resolved_db =
  (AdminComplaintDetail.Cannot_update, Example.resolved_db,
   Example.with_form in_progress "Reopen" Example.resolved_page).
Proof.
  apply (resolved_page_refuses_save (Some Example.carol) 11 Example.chair_id
           (Example.with_form in_progress "Reopen" Example.resolved_page)
           Example.resolved_db
           (mkJoined
              (Complaint.mk Example.chair_id Example.alice "Broken chair"
                 cat_working_hub "The chair in hub 2 is broken"
                 (Some Example.chair_attachment_id) resolved (Some "Refunded") 5 9)
              (Some (mkStudentRef Example.alice "Alice" "alice@desk.example")))).
  - vm_compute. reflexivity.
  - reflexivity.
Defined.

(** C1, the code at the failing input. The guard reads the page's
    copy of the complaint, and the store has none: the UPDATE policy
    does not look at the status. Carol's page loaded Alice's complaint
    while it was open; the complaint has been resolved since. The page
    still shows it open and its save button is enabled; the save is
    answered "Updated successfully", the resolved complaint is back
    [in_progress] and the ledger records a transition out of
    [resolved]. The same UPDATE sent to the API without any page
    reopens it as well. *)
Theorem resolved_complaint_is_reopened :
  map (fun c => (Complaint.id c, Complaint.status c)) (complaints Example.resolved_db)
  = [(Example.chair_id, resolved)] /\
  has_role Example.resolved_db (Some Example.carol) role_admin = true /\
  option_map
    (fun jc => (Complaint.status (row jc),
                SaveButton.disabled
                  (Example.with_form in_progress "Reopened" Example.loaded_page)
                  jc false))
    (AdminComplaintDetail.complaint Example.loaded_page)
  = Some (open, false) /\
  (let r := AdminComplaintDetail.handleSave (Some Example.carol) 11 Example.chair_id
              (Example.with_form in_progress "Reopened" Example.loaded_page)
              Example.resolved_db in
   fst (fst r) = AdminComplaintDetail.Updated_successfully /\
   map (fun c => (Complaint.id c, Complaint.status c)) (complaints (snd (fst r)))
   = [(Example.chair_id, in_progress)] /\
   map (fun h => (History.from_status h, History.to_status h))
     (complaint_status_history (snd (fst r)))
   = [(None, open); (Some open, resolved); (Some resolved, in_progress)]) /\
  map (fun c => (Complaint.id c, Complaint.status c))
    (complaints
       (perform (Some Example.carol) 11
          (Update_complaints (fun c => String.eqb (Complaint.id c) Example.chair_id)
             (mkComplaintPatch None None None None None None (Some open) None
                None None))
          Example.resolved_db))
  = [(Example.chair_id, open)].
Proof.
  vm_compute. repeat split.
Qed.

(** C4, the store at the failing input. Bob, a student who does not own
    Alice's complaint, inserts a history row for it through the API,
    naming Carol as the author of a transition to [resolved]: the
    INSERT policy of the ledger lets it through and the forged row is
    appended like a trigger-written one. *)
Theorem client_can_insert_history_row :
  has_role Example.submitted (Some Example.bob) role_admin = false /\
  exists h db',
    insert_history (client (Some Example.bob)) 9
      (mkHistoryInsert Example.chair_id Example.carol (Some open) resolved
         (Some "forged")) Example.submitted = Ok (h, db') /\
    complaint_status_history db' =
      complaint_status_history Example.submitted ++ [h] /\
    complaints db' = complaints Example.submitted /\
    History.changed_by_user_id h = Example.carol /\
    History.to_status h = resolved.
Proof.
  split; [vm_compute; reflexivity|].
  do 2 eexists. split; [vm_compute; reflexivity|].
  vm_compute. repeat split.
Qed.

(* ================================================================== *)
(** * The statements of the API in full: what a successful one did *)
(* ================================================================== *)

Module ApiFacts.

(** The statements the pages send are instances of the general ones. *)
Lemma insert_complaint_is_row uid now v db :
  insert_complaint uid now v db = insert_complaint_row uid now (complaint_row_of v) db.
Proof. reflexivity. Qed.

Lemma insert_attachment_is_row uid now v db :
  insert_attachment uid now v db
  = insert_attachment_row uid now (attachment_row_of v) db.
Proof.
  unfold insert_attachment, insert_attachment_row, attachment_row_of,
    bind, ensure, read, ret, raise, gen_random_uuid.
  cbn -[attachment_checks attachment_exists profile_exists
        Policy.attachments_insert_check].
  repeat match goal with
         | |- context [if ?b then _ else _] => destruct b
         end; reflexivity.
Qed.

Lemma insert_history_is_row uid now v db :
  insert_history (client uid) now v db
  = insert_history_row uid now (history_row_of v) db.
Proof. reflexivity. Qed.

Lemma patch_rows_ok selected now v rows rows' fired :
  patch_rows selected now v rows = Ok (rows', fired) ->
  rows' = map (fun r => if selected r
                        then update_updated_at_column now (set_patch v r)
                        else r) rows /\
  fired = map (fun r => (r, update_updated_at_column now (set_patch v r)))
            (filter selected rows).
Proof.
  revert rows' fired. induction rows as [|r rows IH]; simpl; intros rows' fired H.
  - injection H as <- <-. auto.
  - destruct (selected r).
    + destruct (complaint_checks _); [|discriminate].
      destruct (patch_rows selected now v rows) as [[l f]|]; [|discriminate].
      injection H as <- <-. destruct (IH _ _ eq_refl) as [-> ->]. auto.
    + destruct (patch_rows selected now v rows) as [[l f]|]; [|discriminate].
      injection H as <- <-. destruct (IH _ _ eq_refl) as [-> ->]. auto.
Qed.

Lemma patch_rows_page selected now v rows :
  patch_rows selected now (patch_of v) rows = update_rows selected now v rows.
Proof.
  induction rows as [|r rows IH]; [reflexivity|].
  cbn [patch_rows update_rows]. rewrite IH. reflexivity.
Qed.

Lemma page_update_keeps_keys now v rows :
  id_changed (map (fun r => (r, update_updated_at_column now (set_columns v r))) rows)
  = false /\
  forall db,
    forallb (fun p => references_kept db (fst p) (snd p))
      (map (fun r => (r, update_updated_at_column now (set_columns v r))) rows) = true.
Proof.
  induction rows as [|r rows [IH1 IH2]]; [split; reflexivity|]. split.
  - cbn. rewrite String.eqb_refl. exact IH1.
  - intros db. cbn. unfold references_kept at 1. cbn.
    rewrite String.eqb_refl. cbn.
    assert (E : opt_uuid_eqb (Complaint.attachment_id r) (Complaint.attachment_id r)
                = true)
      by (destruct (Complaint.attachment_id r); cbn;
          [apply String.eqb_refl | reflexivity]).
    rewrite E. cbn. apply IH2.
Qed.

Lemma update_complaints_is_rows uid now target v db :
  update_complaints uid now target v db
  = update_complaint_rows uid now (fun c => String.eqb (Complaint.id c) target)
      (patch_of v) db.
Proof.
  unfold update_complaints, update_complaint_rows.
  rewrite patch_rows_page.
  destruct (update_rows _ now v (complaints db)) as [[rows' fired]|] eqn:E;
    [|reflexivity].
  apply StoreFacts.update_rows_ok in E. destruct E as [_ ->].
  destruct (page_update_keeps_keys now v
              (filter (fun c => String.eqb (Complaint.id c) target
                                && Policy.complaints_update_using db uid c)
                 (complaints db))) as [H1 H2].
  rewrite H1, (H2 db). reflexivity.
Qed.

Lemma nodup_by_NoDup {A} (key : A -> string) l :
  nodup_by key l = true -> NoDup (map key l).
Proof.
  unfold nodup_by.
  destruct (list_eq_dec string_dec (nodup string_dec (map key l)) (map key l)) as [E|];
    [|discriminate].
  intros _. rewrite <- E. apply NoDup_nodup.
Qed.

Lemma insert_complaint_row_ok uid now v db c db' :
  insert_complaint_row uid now v db = Ok (c, db') ->
  exists h,
    complaints db' = complaints db ++ [c] /\
    complaint_status_history db' = complaint_status_history db ++ [h] /\
    profiles db' = profiles db /\
    user_roles db' = user_roles db /\
    attachments db' = attachments db /\
    storage_objects db' = storage_objects db /\
    ~ In (Complaint.id c) (map Complaint.id (complaints db)) /\
    uid = Some (Complaint.student_id c) /\
    complaint_checks c = true /\
    History.complaint_id h = Complaint.id c /\
    History.from_status h = None /\
    History.to_status h = Complaint.status c.
Proof.
  unfold insert_complaint_row. intros H.
  apply TxFacts.bind_ok in H. destruct H as (cat & d0 & Hcat & H).
  apply TxFacts.lift_ok in Hcat. destruct Hcat as [_ ->].
  apply TxFacts.bind_ok in H. destruct H as (id & d1 & Hid & H).
  assert (Ht : profiles d1 = profiles db /\ user_roles d1 = user_roles db
               /\ complaints d1 = complaints db /\ attachments d1 = attachments db
               /\ complaint_status_history d1 = complaint_status_history db
               /\ storage_objects d1 = storage_objects db).
  { destruct (cr_id v).
    - apply TxFacts.ret_ok in Hid. destruct Hid as [_ ->]. repeat split.
    - apply TxFacts.gen_random_uuid_ok in Hid. destruct Hid as [_ ->]. repeat split. }
  clear Hid. destruct Ht as (Tp & Tu & Tc & Ta & Th & To).
  tx_inv H.
  match goal with
  | Hs : ?f _ = Ok (_, _), Hl : log_complaint_status_change _ _ _ _ _ _ = Ok _ |- _ =>
      injection Hs as <- <-;
      unfold log_complaint_status_change in Hl; cbn in Hl; tx_inv Hl;
      match goal with
      | Hi : insert_history _ _ _ _ = Ok _ |- _ =>
          apply StoreFacts.insert_history_ok in Hi;
          destruct Hi as (Hh & Hdb & _ & _)
      end
  end.
  subst. cbn in *. rewrite Tp, Tu, Tc, Ta, Th, To.
  eexists. repeat split; try reflexivity; try assumption.
  - apply StoreFacts.existsb_id_false. unfold complaint_exists in *.
    rewrite <- Tc.
    match goal with
    | Hn : negb _ = true |- _ => apply negb_true_iff in Hn; exact Hn
    end.
  - match goal with
    | Hp : Policy.complaints_insert_check _ _ = true |- _ =>
        unfold Policy.complaints_insert_check in Hp; cbn in Hp;
        apply StoreFacts.uid_is_true in Hp; exact Hp
    end.
Qed.

Lemma insert_attachment_row_ok uid now v db a db' :
  insert_attachment_row uid now v db = Ok (a, db') ->
  attachments db' = attachments db ++ [a] /\
  profiles db' = profiles db /\ user_roles db' = user_roles db /\
  complaints db' = complaints db /\
  complaint_status_history db' = complaint_status_history db /\
  storage_objects db' = storage_objects db /\
  uid = Some (Attachment.owner_user_id a) /\
  ~ In (Attachment.id a) (map Attachment.id (attachments db)).
Proof.
  unfold insert_attachment_row. intros H.
  apply TxFacts.bind_ok in H. destruct H as (id & d1 & Hid & H).
  assert (Ht : profiles d1 = profiles db /\ user_roles d1 = user_roles db
               /\ complaints d1 = complaints db /\ attachments d1 = attachments db
               /\ complaint_status_history d1 = complaint_status_history db
               /\ storage_objects d1 = storage_objects db).
  { destruct (ar_id v).
    - apply TxFacts.ret_ok in Hid. destruct Hid as [_ ->]. repeat split.
    - apply TxFacts.gen_random_uuid_ok in Hid. destruct Hid as [_ ->]. repeat split. }
  clear Hid. destruct Ht as (Tp & Tu & Tc & Ta & Th & To).
  tx_inv H. injection H as <- <-. cbn. rewrite Tp, Tu, Tc, Ta, Th, To.
  repeat split.
  - match goal with
    | Hp : Policy.attachments_insert_check _ _ = true |- _ =>
        unfold Policy.attachments_insert_check in Hp; cbn in Hp;
        apply StoreFacts.uid_is_true in Hp; exact Hp
    end.
  - apply StoreFacts.existsb_id_false. unfold attachment_exists in *. rewrite <- Ta.
    match goal with
    | Hn : negb _ = true |- _ => apply negb_true_iff in Hn; exact Hn
    end.
Qed.

Lemma insert_history_row_ok uid now v db h db' :
  insert_history_row uid now v db = Ok (h, db') ->
  complaint_status_history db' = complaint_status_history db ++ [h] /\
  profiles db' = profiles db /\ user_roles db' = user_roles db /\
  complaints db' = complaints db /\ attachments db' = attachments db /\
  storage_objects db' = storage_objects db /\
  complaint_exists db (History.complaint_id h) = true.
Proof.
  unfold insert_history_row. intros H.
  apply TxFacts.bind_ok in H. destruct H as (id & d1 & Hid & H).
  assert (Ht : profiles d1 = profiles db /\ user_roles d1 = user_roles db
               /\ complaints d1 = complaints db /\ attachments d1 = attachments db
               /\ complaint_status_history d1 = complaint_status_history db
               /\ storage_objects d1 = storage_objects db).
  { destruct (hr_id v).
    - apply TxFacts.ret_ok in Hid. destruct Hid as [_ ->]. repeat split.
    - apply TxFacts.gen_random_uuid_ok in Hid. destruct Hid as [_ ->]. repeat split. }
  clear Hid. destruct Ht as (Tp & Tu & Tc & Ta & Th & To).
  tx_inv H. injection H as <- <-. cbn. rewrite Tp, Tu, Tc, Ta, Th, To.
  repeat split.
  unfold complaint_exists in *. rewrite <- Tc. cbn in *. assumption.
Qed.

(** What a successful UPDATE of complaints did. *)
Lemma update_complaint_rows_ok uid now where_ v db n db' :
  update_complaint_rows uid now where_ v db = Ok (n, db') ->
  exists rows' fired,
    rows' = map (fun r => if where_ r && Policy.complaints_update_using db uid r
                          then update_updated_at_column now (set_patch v r) else r)
              (complaints db) /\
    fired = map (fun r => (r, update_updated_at_column now (set_patch v r)))
              (filter (fun r => where_ r && Policy.complaints_update_using db uid r)
                 (complaints db)) /\
    patch_rows (fun r => where_ r && Policy.complaints_update_using db uid r) now v
      (complaints db) = Ok (rows', fired) /\
    (id_changed fired = false \/ nodup_by Complaint.id rows' = true) /\
    (id_changed fired = false \/ referenced_ids_kept db rows' = true) /\
    fire_log_complaint_status fired uid now (with_complaints rows' db) = Ok (tt, db') /\
    n = List.length fired.
Proof.
  unfold update_complaint_rows. intros H.
  destruct (patch_rows _ now v (complaints db)) as [[rows' fired]|] eqn:E;
    [|discriminate].
  exists rows', fired.
  destruct (patch_rows_ok _ _ _ _ _ _ E) as [Hr Hfi].
  split; [exact Hr|]. split; [exact Hfi|]. split; [reflexivity|].
  destruct (id_changed fired) eqn:Hid; cbn [andb] in H.
  - destruct (nodup_by Complaint.id rows') eqn:Hnd; cbn [negb] in H; [|discriminate].
    destruct (forallb _ fired); cbn [negb] in H; [|discriminate].
    destruct (referenced_ids_kept db rows') eqn:Hk; cbn [negb] in H; [|discriminate].
    apply TxFacts.bind_ok in H. destruct H as ([] & db1 & Hf & Hret).
    apply TxFacts.ret_ok in Hret. destruct Hret as [-> ->]. auto 10.
  - destruct (forallb _ fired); cbn [negb] in H; [|discriminate].
    apply TxFacts.bind_ok in H. destruct H as ([] & db1 & Hf & Hret).
    apply TxFacts.ret_ok in Hret. destruct Hret as [-> ->]. auto 10.
Qed.

Lemma ids_unchanged (selected : Complaint.t -> bool) (upd : Complaint.t -> Complaint.t) rows :
  id_changed (map (fun r => (r, upd r)) (filter selected rows)) = false ->
  map Complaint.id (map (fun r => if selected r then upd r else r) rows)
  = map Complaint.id rows.
Proof.
  induction rows as [|r rows IH]; cbn; [reflexivity|].
  destruct (selected r) eqn:E; cbn.
  - intros H. apply orb_false_iff in H. destruct H as [H1 H2].
    apply negb_false_iff, String.eqb_eq in H1. rewrite H1, (IH H2). reflexivity.
  - intros H. rewrite (IH H). reflexivity.
Qed.

Lemma patch_rows_checked selected now v rows : forall rows' fired,
  (forall r, In r rows -> complaint_checks r = true) ->
  patch_rows selected now v rows = Ok (rows', fired) ->
  forall r, In r rows' -> complaint_checks r = true.
Proof.
  induction rows as [|OLD rows IH]; cbn; intros rows' fired Hck H.
  - injection H as <- _. intros r [].
  - destruct (selected OLD).
    + destruct (complaint_checks (update_updated_at_column now (set_patch v OLD)))
        eqn:E; [|discriminate].
      destruct (patch_rows selected now v rows) as [[l f]|] eqn:Hr; [|discriminate].
      injection H as <- _. intros r [<-|Hr']; [exact E|].
      apply (IH l f); auto.
    + destruct (patch_rows selected now v rows) as [[l f]|] eqn:Hr; [|discriminate].
      injection H as <- _. intros r [<-|Hr']; [apply Hck; auto|].
      apply (IH l f); auto.
Qed.

End ApiFacts.

(* ================================================================== *)
(** * Roles cannot be changed through the API *)
(* ================================================================== *)

Module RoleFacts.

Lemma same_roles_refl db : same_roles db db.
Proof. split; reflexivity. Qed.

Lemma same_roles_trans a b c : same_roles a b -> same_roles b c -> same_roles a c.
Proof. intros [H1 H2] [H3 H4]. split; congruence. Qed.

Lemma commit_same_roles {A} (m : Tx A) db :
  (forall a db', m db = Ok (a, db') -> same_roles db db') ->
  same_roles db (commit m db).
Proof.
  intros H. unfold commit. destruct (m db) as [[a db']|e] eqn:E.
  - exact (H a db' eq_refl).
  - apply same_roles_refl.
Qed.

Lemma insert_history_same_roles who now v db h db' :
  insert_history who now v db = Ok (h, db') -> same_roles db db'.
Proof.
  intros H. apply StoreFacts.insert_history_ok in H.
  destruct H as (_ & -> & _). split; reflexivity.
Qed.

Lemma log_same_roles op OLD NEW uid now db u db' :
  log_complaint_status_change op OLD NEW uid now db = Ok (u, db') ->
  same_roles db db'.
Proof.
  unfold log_complaint_status_change.
  destruct (tg_op_eqb op INSERT || _); intros H.
  - apply TxFacts.bind_ok in H. destruct H as (h & db1 & Hi & Hr).
    apply TxFacts.ret_ok in Hr. destruct Hr as [_ ->].
    exact (insert_history_same_roles _ _ _ _ _ _ Hi).
  - apply TxFacts.ret_ok in H. destruct H as [_ ->]. apply same_roles_refl.
Qed.

Lemma fire_same_roles fired uid now : forall db u db',
  fire_log_complaint_status fired uid now db = Ok (u, db') -> same_roles db db'.
Proof.
  induction fired as [|[OLD NEW] fired IH]; intros db u db' H; cbn in H.
  - apply TxFacts.ret_ok in H. destruct H as [_ ->]. apply same_roles_refl.
  - apply TxFacts.bind_ok in H. destruct H as (u1 & db1 & Hl & Hf).
    eapply same_roles_trans;
      [exact (log_same_roles _ _ _ _ _ _ _ _ Hl) | exact (IH _ _ _ Hf)].
Qed.

Lemma update_complaints_same_roles uid now target v db n db' :
  update_complaints uid now target v db = Ok (n, db') -> same_roles db db'.
Proof.
  unfold update_complaints.
  destruct (update_rows _ now v (complaints db)) as [[rows' fired]|];
    [|discriminate].
  intros H. apply TxFacts.bind_ok in H. destruct H as (u & db1 & Hf & Hr).
  apply TxFacts.ret_ok in Hr. destruct Hr as [_ ->].
  apply fire_same_roles in Hf. destruct Hf as [H1 H2]. split; assumption.
Qed.

Lemma insert_complaint_same_roles uid now v db c db' :
  insert_complaint uid now v db = Ok (c, db') -> same_roles db db'.
Proof.
  intros H. destruct (insert_complaint_ok _ _ _ _ _ _ H) as (h & _ & _ & Hp & Hu & _).
  split; [unfold profile_roles; rewrite Hp; reflexivity | exact Hu].
Qed.

Lemma insert_attachment_same_roles uid now v db a db' :
  insert_attachment uid now v db = Ok (a, db') -> same_roles db db'.
Proof.
  unfold insert_attachment. intros H. tx_inv H.
  injection H as _ <-. split; reflexivity.
Qed.

Lemma storage_upload_same_roles uid bucket name f db u db' :
  storage_upload uid bucket name f db = Ok (u, db') -> same_roles db db'.
Proof.
  unfold storage_upload. intros H. tx_inv H.
  injection H as _ <-. split; reflexivity.
Qed.

Lemma insert_complaint_row_same_roles uid now v db c db' :
  insert_complaint_row uid now v db = Ok (c, db') -> same_roles db db'.
Proof.
  intros H. destruct (ApiFacts.insert_complaint_row_ok _ _ _ _ _ _ H)
    as (h & _ & _ & Hp & Hu & _).
  split; [unfold profile_roles; rewrite Hp; reflexivity | exact Hu].
Qed.

Lemma update_complaint_rows_same_roles uid now where_ v db n db' :
  update_complaint_rows uid now where_ v db = Ok (n, db') -> same_roles db db'.
Proof.
  intros H. destruct (ApiFacts.update_complaint_rows_ok _ _ _ _ _ _ _ H)
    as (rows' & fired & _ & _ & _ & _ & _ & Hf & _).
  apply fire_same_roles in Hf. destruct Hf as [H1 H2]. split; assumption.
Qed.

Lemma insert_attachment_row_same_roles uid now v db a db' :
  insert_attachment_row uid now v db = Ok (a, db') -> same_roles db db'.
Proof.
  intros H. destruct (ApiFacts.insert_attachment_row_ok _ _ _ _ _ _ H)
    as (_ & Hp & Hu & _).
  split; [unfold profile_roles; rewrite Hp; reflexivity | exact Hu].
Qed.

Lemma insert_history_row_same_roles uid now v db h db' :
  insert_history_row uid now v db = Ok (h, db') -> same_roles db db'.
Proof.
  intros H. destruct (ApiFacts.insert_history_row_ok _ _ _ _ _ _ H)
    as (_ & Hp & Hu & _).
  split; [unfold profile_roles; rewrite Hp; reflexivity | exact Hu].
Qed.

(** The scalar subquery of the WITH CHECK, on a row the caller owns,
    can only return that row's current role. *)
Lemma own_role_subquery db uid OLD r :
  In OLD (profiles db) ->
  uid_is uid (Profile.id OLD) = true ->
  scalar_subquery
    (map Profile.role
       (filter (fun p => uid_is uid (Profile.id p)) (select_profiles db uid)))
  = Ok (Some r) ->
  r = Profile.role OLD.
Proof.
  intros Hin Hown Hq.
  assert (Hmem : In (Profile.role OLD)
                   (map Profile.role
                      (filter (fun p => uid_is uid (Profile.id p))
                         (select_profiles db uid)))).
  { apply in_map. apply filter_In. split; [|exact Hown].
    apply filter_In. split; [exact Hin|].
    unfold Policy.profiles_select. rewrite Hown. reflexivity. }
  destruct (map Profile.role _) as [|x [|y l]]; cbn in Hq; try discriminate.
  injection Hq as ->. destruct Hmem as [H|[]]. exact H.
Qed.

Lemma update_profile_rows_roles db uid now where_ v rows : forall rows',
  (forall p, In p rows -> In p (profiles db)) ->
  update_profile_rows db uid now where_ v rows = Ok rows' ->
  map (fun p => (Profile.id p, Profile.role p)) rows'
  = map (fun p => (Profile.id p, Profile.role p)) rows.
Proof.
  induction rows as [|OLD rows IH]; intros rows' Hsub H; cbn in H.
  - injection H as <-. reflexivity.
  - destruct (where_ OLD && Policy.profiles_update_using uid OLD) eqn:Hsel.
    + destruct (profile_checks _); [|discriminate].
      destruct (profiles_update_check db uid (profile_new_row now v OLD))
        as [[|]|] eqn:Hchk; try discriminate.
      destruct (update_profile_rows db uid now where_ v rows) as [l|] eqn:Hrest;
        [|discriminate].
      injection H as <-. cbn. f_equal.
      * apply andb_true_iff in Hsel. destruct Hsel as [_ Hown].
        unfold Policy.profiles_update_using in Hown.
        unfold profiles_update_check in Hchk.
        destruct (scalar_subquery _) as [[r|]|] eqn:Hq; try discriminate.
        injection Hchk as Hchk. apply andb_true_iff in Hchk.
        destruct Hchk as [Hid Hrole].
        apply (own_role_subquery db uid OLD r (Hsub OLD (or_introl eq_refl)) Hown)
          in Hq. subst r.
        apply StoreFacts.uid_is_true in Hown, Hid.
        assert (E1 : or_old (pu_id v) (Profile.id OLD) = Profile.id OLD)
          by congruence.
        assert (E2 : or_old (pu_role v) (Profile.role OLD) = Profile.role OLD)
          by (destruct (or_old (pu_role v) (Profile.role OLD)),
                (Profile.role OLD); (reflexivity || discriminate)).
        rewrite E1, E2. reflexivity.
      * apply IH; [intros; apply Hsub; right; assumption | reflexivity].
    + destruct (update_profile_rows db uid now where_ v rows) as [l|] eqn:Hrest;
        [|discriminate].
      injection H as <-. cbn. f_equal.
      apply IH; [intros; apply Hsub; right; assumption | reflexivity].
Qed.

Lemma update_profiles_same_roles uid now where_ v db u db' :
  update_profiles uid now where_ v db = Ok (u, db') -> same_roles db db'.
Proof.
  unfold update_profiles.
  destruct (update_profile_rows db uid now where_ v (profiles db)) as [rows'|] eqn:E;
    [|discriminate].
  destruct (nodup_by Profile.id rows' && nodup_by Profile.email rows');
    [|discriminate].
  intros H. injection H as _ <-. split; [|reflexivity].
  unfold profile_roles. cbn.
  apply (update_profile_rows_roles db uid now where_ v (profiles db));
    [auto | exact E].
Qed.

End RoleFacts.

(** C9. Whatever write a principal sends through the API, the role of
    every profile is afterwards what it was: an update of one's own
    profile (new name, e-mail, active flag) passes only with the role
    column at its stored value, no other statement writes [profiles],
    and nothing writes [user_roles]. *)
Theorem role_is_fixed_after_creation uid now (r : request) db :
  profile_roles (perform uid now r db) = profile_roles db /\
  user_roles (perform uid now r db) = user_roles db.
Proof.
  change (same_roles db (perform uid now r db)).
  destruct r; cbn [perform]; apply RoleFacts.commit_same_roles; intros a db' H.
  - exact (RoleFacts.insert_complaint_row_same_roles _ _ _ _ _ _ H).
  - exact (RoleFacts.update_complaint_rows_same_roles _ _ _ _ _ _ _ H).
  - exact (RoleFacts.insert_attachment_row_same_roles _ _ _ _ _ _ H).
  - exact (RoleFacts.insert_history_row_same_roles _ _ _ _ _ _ H).
  - exact (RoleFacts.storage_upload_same_roles _ _ _ _ _ _ _ H).
  - exact (RoleFacts.update_profiles_same_roles _ _ _ _ _ _ _ H).
Qed.

(* ================================================================== *)
(** * Uploads *)
(* ================================================================== *)

Lemma array_includes_In l x : Js.array_includes l x = true <-> In x l.
Proof.
  unfold Js.array_includes. rewrite existsb_exists. split.
  - intros (y & Hy & E). apply String.eqb_eq in E. subst. exact Hy.
  - intros H. exists x. split; [exact H | apply String.eqb_refl].
Qed.

(** The bucket refuses a file the page would refuse. *)
Lemma bucket_refuses_invalid_file uid name f db :
  Js.array_includes validTypes (file_type f) = false
  \/ (file_size f >? maxSize)%Z = true ->
  exists e, storage_upload uid "complaint-attachments" name f db = Err e.
Proof.
  intros H.
  assert (Hexp : forall b, Js.array_includes validTypes (file_type f) = b ->
            ((file_type f =? "application/pdf")%string
             || ((file_type f =? "image/jpeg")%string
                 || ((file_type f =? "image/png")%string
                     || ((file_type f =? "image/jpg")%string || false)))) = b)
    by (intros b Hb; exact Hb).
  unfold storage_upload, bind. cbn.
  destruct (file_size f <=? 10485760)%Z eqn:Hsz; cbn; [|eauto].
  destruct (Js.array_includes validTypes (file_type f)) eqn:Hty;
    rewrite (Hexp _ eq_refl); cbn; [|eauto].
  exfalso. destruct H as [H|H]; [discriminate|].
  apply Z.leb_le in Hsz. apply Z.gtb_lt in H. unfold maxSize in H. lia.
Qed.

(** C7 (as the code has it). A file whose mime type is outside
    {application/pdf, image/jpeg, image/png, image/jpg} or whose size
    exceeds 10,485,760 bytes is refused when chosen (the page keeps the
    file it had and shows the type or the size error), and a submission
    carrying such a file never succeeds and leaves the whole database
    as it was: no blob, no attachment record. *)
Theorem invalid_file_is_never_stored f :
  ~ In (file_type f) validTypes \/ (10485760 < file_size f)%Z ->
  (forall file,
     handleFileChange (Some f) file =
       (file, Some (if Js.array_includes validTypes (file_type f)
                    then File_too_large else Invalid_file_type))) /\
  (forall user date_now now form db,
     form_file form = Some f ->
     fst (handleSubmit user date_now now form db) <> Complaint_submitted /\
     snd (handleSubmit user date_now now form db) = db).
Proof.
  intros H.
  assert (Hbad : Js.array_includes validTypes (file_type f) = false
                 \/ (file_size f >? maxSize)%Z = true).
  { destruct H as [H|H].
    - left. destruct (Js.array_includes validTypes (file_type f)) eqn:E;
        [|reflexivity]. apply array_includes_In in E. contradiction.
    - right. apply Z.gtb_lt. exact H. }
  split.
  - intros file. unfold handleFileChange.
    destruct (Js.array_includes validTypes (file_type f)) eqn:E; cbn [negb];
      [|reflexivity].
    destruct Hbad as [Hbad|Hbad]; [discriminate|]. rewrite Hbad. reflexivity.
  - intros user date_now now form db Hf. unfold handleSubmit. rewrite Hf.
    destruct (negb (validateField (form_title form) titleSchema)
              || negb (validateField (form_description form) descriptionSchema)
              || negb (Js.truthy (form_category form)));
      [split; [discriminate | reflexivity]|].
    destruct user as [uid|]; [|split; [discriminate | reflexivity]].
    unfold upload_step.
    destruct (bucket_refuses_invalid_file (Some uid)
                (uid ++ "/" ++ Js.number_to_string date_now ++ "."
                 ++ Js.render (Js.pop (Js.split "." (file_name f))))%string
                f db Hbad) as [e ->].
    split; [discriminate | reflexivity].
Qed.

Lemma invalid_file_is_never_stored_witness :
  handleFileChange (Some (mkFile "notes.txt" "text/plain" 120%Z)) (Some Example.receipt)
  = (Some Example.receipt, Some Invalid_file_type) /\
  snd (handleSubmit (Some Example.bob) 1800 7
         (mkNewComplaintForm "Wobbly desk" "working_hub" "Next to the broken chair"
            (Some (mkFile "notes.txt" "text/plain" 120%Z)))
         Example.submitted) = Example.submitted.
Proof.
  destruct (invalid_file_is_never_stored (mkFile "notes.txt" "text/plain" 120%Z))
    as [H1 H2].
  - left. cbn. intros [H|[H|[H|[H|[]]]]]; discriminate.
  - split.
    + exact (H1 (Some Example.receipt)).
    + apply H2. reflexivity.
Defined.

(** C7, counterexample to the claim as stated. [image/jpg] is not one
    of the three listed types, yet the page accepts a file of that type
    and the submission stores its blob and its attachment record. *)
Lemma image_jpg_is_accepted :
  ~ In (file_type Example.photo) Example.listed_mime_types /\
  handleFileChange (Some Example.photo) None = (Some Example.photo, None) /\
  let r := handleSubmit (Some Example.bob) 1800 7 Example.photo_form
             Example.submitted in
  fst r = Complaint_submitted /\
  map Attachment.mime_type (attachments (snd r)) = ["application/pdf"; "image/jpg"] /\
  map StorageObject.content_type (storage_objects (snd r))
  = ["application/pdf"; "image/jpg"].
Proof.
  split.
  - cbn. intros [H|[H|[H|[]]]]; discriminate.
  - vm_compute. repeat split.
Qed.

(* ================================================================== *)
(** * The dashboard search *)
(* ================================================================== *)

Module SearchFacts.

Lemma In_insert_by {A} (key : A -> nat) (x y : A) l :
  In y (insert_by key x l) <-> y = x \/ In y l.
Proof.
  induction l as [|z l IH]; simpl.
  - split; intros [H|H]; auto.
  - destruct (key z <=? key x); simpl; [rewrite IH|]; intuition auto.
Qed.

Lemma In_order_ascending {A} (key : A -> nat) (y : A) l :
  In y (order_ascending key l) <-> In y l.
Proof.
  unfold order_ascending. induction l as [|x l IH]; simpl; [tauto|].
  rewrite In_insert_by, IH. intuition auto.
Qed.

Lemma In_order_descending {A} (key : A -> nat) (y : A) l :
  In y (order_descending key l) <-> In y l.
Proof.
  unfold order_descending. rewrite <- in_rev. apply In_order_ascending.
Qed.

Lemma In_all_ascii a : In a all_ascii.
Proof.
  unfold all_ascii. rewrite <- (ascii_nat_embedding a). apply in_map.
  apply in_seq. pose proof (nat_ascii_bounded a). lia.
Qed.

(** Lower-casing identifies exactly the characters that are the same
    letter: checked on all 256 x 256 pairs. *)
Lemma same_letter_lower a b :
  same_letter a b = Ascii.eqb (Js.lower_char a) (Js.lower_char b).
Proof.
  assert (H : forallb (fun a => forallb (fun b =>
                Bool.eqb (same_letter a b)
                  (Ascii.eqb (Js.lower_char a) (Js.lower_char b))) all_ascii)
                all_ascii = true) by (vm_compute; reflexivity).
  rewrite forallb_forall in H. specialize (H a (In_all_ascii a)).
  rewrite forallb_forall in H. specialize (H b (In_all_ascii b)).
  apply Bool.eqb_prop in H. exact H.
Qed.

Lemma same_text_lower s : forall t,
  same_text s t = String.eqb (Js.toLowerCase s) (Js.toLowerCase t).
Proof.
  induction s as [|a s IH]; intros [|b t]; cbn; try reflexivity.
  rewrite same_letter_lower, IH. reflexivity.
Qed.

Lemma toLowerCase_app s t :
  Js.toLowerCase (s ++ t) = (Js.toLowerCase s ++ Js.toLowerCase t)%string.
Proof. induction s as [|a s IH]; cbn; [reflexivity | rewrite IH; reflexivity]. Qed.

Lemma toLowerCase_split x : forall s y,
  Js.toLowerCase s = (x ++ y)%string ->
  exists s1 s2, s = (s1 ++ s2)%string /\ Js.toLowerCase s1 = x /\ Js.toLowerCase s2 = y.
Proof.
  induction x as [|c x IH]; intros s y H.
  - exists EmptyString, s. auto.
  - destruct s as [|a s]; cbn in H; [discriminate|].
    injection H as Hc H. destruct (IH s y H) as (s1 & s2 & -> & <- & <-).
    exists (String a s1), s2. cbn. rewrite Hc. auto.
Qed.

(** What the page computes, [text.toLowerCase().includes(term)] with the
    lower-cased search term, decides case-insensitive containment. *)
Lemma includes_lower text searchTerm :
  Js.includes (Js.toLowerCase text) (Js.toLowerCase searchTerm) = true
  <-> contains_ci text searchTerm.
Proof.
  rewrite JsFacts.includes_spec. split.
  - intros (x & y & H).
    destruct (toLowerCase_split x text _ H) as (a & rest & -> & <- & H1).
    destruct (toLowerCase_split _ rest y H1) as (u & b & -> & Hu & <-).
    exists a, u, b. split; [reflexivity|].
    rewrite same_text_lower. apply String.eqb_eq. exact Hu.
  - intros (a & u & b & -> & Hu).
    rewrite same_text_lower in Hu. apply String.eqb_eq in Hu.
    exists (Js.toLowerCase a), (Js.toLowerCase b).
    rewrite !toLowerCase_app, Hu. reflexivity.
Qed.

(** The search predicate of the page decides [search_hit]. *)
Lemma matches_iff searchTerm c :
  AdminDashboard.matches (Js.toLowerCase searchTerm) c = true
  <-> search_hit searchTerm c.
Proof.
  unfold AdminDashboard.matches, search_hit, AdminDashboard.student_field_includes.
  rewrite !orb_true_iff, !includes_lower.
  destruct (student c) as [s|].
  - rewrite !includes_lower. split.
    + intros [[[H|H]|H]|H]; auto.
      * right. right. exists s. auto.
      * right. right. exists s. auto.
    + intros [H|[H|(s' & E & [H|H])]]; auto; injection E as <-; auto.
  - split.
    + intros [[[H|H]|H]|H]; auto; discriminate.
    + intros [H|[H|(s' & E & _)]]; auto; discriminate.
Qed.

(** Every complaint is a hit for the empty term. *)
Lemma empty_term_hits_all c : search_hit EmptyString c.
Proof.
  left. exists EmptyString, EmptyString, (Complaint.title (row c)).
  split; reflexivity.
Qed.

(** An admin reads every complaint and every profile. *)
Lemma admin_selects_all_complaints db uid :
  has_role db uid role_admin = true -> select_complaints db uid = complaints db.
Proof.
  intros H. unfold select_complaints, Policy.complaints_select. rewrite H.
  induction (complaints db) as [|c l IH]; simpl; [reflexivity|].
  rewrite orb_true_r, IH. reflexivity.
Qed.

Lemma admin_selects_all_profiles db uid :
  has_role db uid role_admin = true -> select_profiles db uid = profiles db.
Proof.
  intros H. unfold select_profiles, Policy.profiles_select. rewrite H.
  induction (profiles db) as [|c l IH]; simpl; [reflexivity|].
  rewrite orb_true_r, IH. reflexivity.
Qed.

End SearchFacts.

(** C8 (as the code has it). With both select filters at "all", the
    rows the dashboard shows for a search term are exactly those rows
    of the page's fetched copy that are a hit for the term (title,
    description, or joined student's e-mail or name contains it,
    case-insensitively): the matching is a filter over the rows held by
    the page. The join is what the store does in the fetch: for an
    admin the fetched copy holds every complaint of the table, each
    with the name and e-mail of the profile its [student_id] names. *)
Theorem search_filters_the_fetched_rows :
  (forall (complaints : list JoinedComplaint) searchTerm,
     AdminDashboard.filterComplaints complaints searchTerm "all" "all"
     = (if Js.truthy searchTerm
        then filter (AdminDashboard.matches (Js.toLowerCase searchTerm)) complaints
        else complaints)
     /\ forall jc,
          In jc (AdminDashboard.filterComplaints complaints searchTerm "all" "all")
          <-> In jc complaints /\ search_hit searchTerm jc)
  /\
  (forall db uid,
     has_role db uid role_admin = true ->
     forall jc,
       In jc (AdminDashboard.fetchComplaints db uid)
       <-> exists c,
             In c (complaints db) /\
             jc = mkJoined c
                    (option_map
                       (fun p => mkStudentRef (Profile.id p) (Profile.full_name p)
                                   (Profile.email p))
                       (find (fun p => String.eqb (Profile.id p) (Complaint.student_id c))
                          (profiles db)))).
Proof.
  split.
  - intros complaints searchTerm.
    assert (E : AdminDashboard.filterComplaints complaints searchTerm "all" "all"
                = if Js.truthy searchTerm
                  then filter (AdminDashboard.matches (Js.toLowerCase searchTerm))
                         complaints
                  else complaints).
    { unfold AdminDashboard.filterComplaints. cbn.
      destruct (Js.truthy searchTerm); reflexivity. }
    split; [exact E|]. intros jc. rewrite E.
    destruct searchTerm as [|a s]; cbn [Js.truthy].
    + split; [intros H; split; [exact H | apply SearchFacts.empty_term_hits_all]
             | intros [H _]; exact H].
    + rewrite filter_In, SearchFacts.matches_iff. reflexivity.
  - intros db uid Hadm jc. unfold AdminDashboard.fetchComplaints.
    rewrite in_map_iff. unfold embed_student.
    rewrite (SearchFacts.admin_selects_all_complaints db uid Hadm).
    rewrite (SearchFacts.admin_selects_all_profiles db uid Hadm).
    split.
    + intros (c & <- & Hc). apply SearchFacts.In_order_descending in Hc. eauto.
    + intros (c & Hc & ->). exists c. split; [reflexivity|].
      apply SearchFacts.In_order_descending. exact Hc.
Qed.

Lemma search_filters_the_fetched_rows_witness :
  has_role Example.later (Some Example.carol) role_admin = true /\
  In (mkJoined
        (Complaint.mk Example.desk_id Example.bob "Wobbly desk" cat_working_hub
           "Next to the broken chair" None open None 7 7)
        (Some (mkStudentRef Example.bob "Bob" "bob@desk.example")))
     (AdminDashboard.fetchComplaints Example.later (Some Example.carol)).
Proof.
  split; [vm_compute; reflexivity|].
  apply (proj2 search_filters_the_fetched_rows Example.later (Some Example.carol)).
  - vm_compute. reflexivity.
  - exists (Complaint.mk Example.desk_id Example.bob "Wobbly desk" cat_working_hub
              "Next to the broken chair" None open None 7 7).
    split; [vm_compute; right; left; reflexivity | vm_compute; reflexivity].
Defined.

(** C8, counterexample to the claim as stated. Carol's dashboard
    fetched the complaints before Bob filed his; both complaints now in
    the table mention "chair", yet the search for "CHAIR" shows only
    the one the page had fetched: the term is matched against the
    page's rows, not by the store. *)
Lemma search_misses_rows_added_after_fetch :
  let fetched := AdminDashboard.fetchComplaints Example.submitted (Some Example.carol) in
  map Complaint.title
    (filter (fun c => Js.includes (Js.toLowerCase (Complaint.title c)) "chair"
                      || Js.includes (Js.toLowerCase (Complaint.description c)) "chair")
       (complaints Example.later))
  = ["Broken chair"; "Wobbly desk"] /\
  map (fun jc => Complaint.title (row jc))
    (AdminDashboard.filterComplaints fetched "CHAIR" "all" "all")
  = ["Broken chair"].
Proof.
  vm_compute. split; reflexivity.
Qed.

(** The search folds accented capitals like any other: a title
    beginning with a capital E acute is found for the term written
    with the small letter, and the other way round. *)
Lemma search_folds_accented_capitals :
  AdminDashboard.filterComplaints [Scenario.ecole]
    (String Scenario.e_acute "COLE") "all" "all" = [Scenario.ecole] /\
  search_hit (String Scenario.e_acute "COLE") Scenario.ecole.
Proof.
  split; [vm_compute; reflexivity|].
  left. exists EmptyString, (String Scenario.E_acute "cole"), EmptyString.
  split; vm_compute; reflexivity.
Qed.

(* ================================================================== *)
(** * Reading: owners, admins and everybody else *)
(* ================================================================== *)

Module ReadFacts.

Lemma filter_nil {A} (f : A -> bool) l :
  (forall x, In x l -> f x = false) -> filter f l = [].
Proof.
  induction l as [|x l IH]; simpl; intros H; [reflexivity|].
  rewrite (H x (or_introl eq_refl)). apply IH. intros y Hy. apply H. auto.
Qed.

Lemma find_nothing {A} (f : A -> bool) l :
  (forall x, In x l -> f x = false) -> find f l = None.
Proof.
  induction l as [|x l IH]; simpl; intros H; [reflexivity|].
  rewrite (H x (or_introl eq_refl)). apply IH. intros y Hy. apply H. auto.
Qed.

Lemma uid_is_other u x : u <> x -> uid_is (Some u) x = false.
Proof. intros H. simpl. apply String.eqb_neq. exact H. Qed.

(** The SELECT policies of [complaints] on a row of somebody else. *)
Lemma complaint_hidden db u c :
  u <> Complaint.student_id c ->
  has_role db (Some u) role_admin = false ->
  Policy.complaints_select db (Some u) c = false.
Proof.
  intros Hu Hadm. unfold Policy.complaints_select.
  rewrite (uid_is_other _ _ Hu), Hadm. reflexivity.
Qed.

(** A folder belongs to one uid. *)
Lemma folder_of_another owner u path :
  uid_owns_folder (Some owner) path = true ->
  u <> owner ->
  uid_owns_folder (Some u) path = false.
Proof.
  unfold uid_owns_folder. destruct (nth_error (foldername path) 0) as [seg|];
    [|reflexivity].
  intros H Hu. apply String.eqb_eq in H. subst seg.
  apply String.eqb_neq. exact Hu.
Qed.

Lemma get_denied db u c :
  complaints_pkey db -> In c (complaints db) ->
  u <> Complaint.student_id c ->
  has_role db (Some u) role_admin = false ->
  StudentComplaintDetail.fetchComplaint db (Some u) (Complaint.id c) = None.
Proof.
  intros Hpk Hin Hu Hadm. unfold StudentComplaintDetail.fetchComplaint.
  rewrite filter_nil; [reflexivity|].
  intros r Hr. apply filter_In in Hr. destruct Hr as [Hr Hsel].
  destruct (String.eqb (Complaint.id r) (Complaint.id c)) eqn:E; [|reflexivity].
  apply String.eqb_eq in E.
  rewrite (StoreFacts.key_unique_inj Complaint.id _ r c Hpk Hr Hin E) in Hsel.
  rewrite (complaint_hidden db u c Hu Hadm) in Hsel. discriminate.
Qed.

Lemma history_denied db u c :
  complaints_pkey db -> In c (complaints db) ->
  u <> Complaint.student_id c ->
  has_role db (Some u) role_admin = false ->
  StudentComplaintDetail.fetchHistory db (Some u) (Complaint.id c) = [].
Proof.
  intros Hpk Hin Hu Hadm. unfold StudentComplaintDetail.fetchHistory.
  rewrite filter_nil; [reflexivity|].
  intros h Hh. apply filter_In in Hh. destruct Hh as [_ Hsel].
  destruct (String.eqb (History.complaint_id h) (Complaint.id c)) eqn:E;
    [|reflexivity].
  apply String.eqb_eq in E. exfalso.
  unfold Policy.history_select, is_admin in Hsel.
  rewrite Hadm, orb_false_r in Hsel.
  apply existsb_exists in Hsel. destruct Hsel as (r & Hr & Hm).
  apply filter_In in Hr. destruct Hr as [Hr _].
  apply andb_true_iff in Hm. destruct Hm as [Hid Hown].
  apply String.eqb_eq in Hid. rewrite E in Hid.
  rewrite (StoreFacts.key_unique_inj Complaint.id _ r c Hpk Hr Hin Hid) in Hown.
  rewrite (uid_is_other _ _ Hu) in Hown. discriminate.
Qed.

Lemma attachment_denied db u a :
  attachments_pkey db -> In a (attachments db) ->
  u <> Attachment.owner_user_id a ->
  has_role db (Some u) role_admin = false ->
  StudentComplaintDetail.fetchAttachment db (Some u) (Attachment.id a) = None.
Proof.
  intros Hpk Hin Hu Hadm. unfold StudentComplaintDetail.fetchAttachment.
  rewrite filter_nil; [reflexivity|].
  intros r Hr. apply filter_In in Hr. destruct Hr as [Hr Hsel].
  destruct (String.eqb (Attachment.id r) (Attachment.id a)) eqn:E; [|reflexivity].
  apply String.eqb_eq in E.
  rewrite (StoreFacts.key_unique_inj Attachment.id _ r a Hpk Hr Hin E) in Hsel.
  unfold Policy.attachments_select, is_admin in Hsel.
  rewrite (uid_is_other _ _ Hu), Hadm in Hsel. discriminate.
Qed.

Lemma blob_denied db u owner path :
  uid_owns_folder (Some owner) path = true ->
  u <> owner ->
  has_role db (Some u) role_admin = false ->
  storage_download db (Some u) "complaint-attachments" path = Err object_not_found.
Proof.
  intros Hown Hu Hadm. unfold storage_download.
  rewrite find_nothing; [reflexivity|].
  intros o _. unfold same_object, Policy.objects_select, is_admin.
  rewrite Hadm, andb_false_r, orb_false_r, orb_false_r.
  destruct (String.eqb (StorageObject.name o) path) eqn:E;
    [|rewrite andb_false_r; reflexivity].
  apply String.eqb_eq in E. rewrite E.
  rewrite (folder_of_another owner u path Hown Hu).
  rewrite !andb_false_r. reflexivity.
Qed.

(** A blob outside the caller's own folder is not handed out. *)
Lemma blob_hidden db u path :
  uid_owns_folder (Some u) path = false ->
  has_role db (Some u) role_admin = false ->
  storage_download db (Some u) "complaint-attachments" path = Err object_not_found.
Proof.
  intros Hown Hadm. unfold storage_download.
  rewrite find_nothing; [reflexivity|].
  intros o _. unfold same_object, Policy.objects_select, is_admin.
  rewrite Hadm, andb_false_r, orb_false_r, orb_false_r.
  destruct (String.eqb (StorageObject.name o) path) eqn:E;
    [|rewrite andb_false_r; reflexivity].
  apply String.eqb_eq in E. rewrite E, Hown.
  rewrite !andb_false_r. reflexivity.
Qed.

Lemma NoDup_map_filter {A} (key : A -> string) (f : A -> bool) l :
  NoDup (map key l) -> NoDup (map key (filter f l)).
Proof.
  induction l as [|r l IH]; simpl; intros H; [constructor|].
  inversion H as [|? ? Hn Hnd]; subst.
  destruct (f r); [|exact (IH Hnd)].
  simpl. constructor; [|exact (IH Hnd)].
  intros Hr. apply Hn. apply in_map_iff in Hr. destruct Hr as (x & Ex & Hx).
  apply filter_In in Hx. rewrite <- Ex. apply in_map. tauto.
Qed.

(** The same request by the owner is answered. *)
Lemma get_by_owner db c :
  complaints_pkey db -> In c (complaints db) ->
  StudentComplaintDetail.fetchComplaint db (Some (Complaint.student_id c))
    (Complaint.id c) = Some c.
Proof.
  intros Hpk Hin. unfold StudentComplaintDetail.fetchComplaint, select_complaints.
  rewrite (StoreFacts.filter_key_unique Complaint.id _ c); [reflexivity | |].
  - apply NoDup_map_filter. exact Hpk.
  - apply filter_In. split; [exact Hin|]. unfold Policy.complaints_select.
    simpl. rewrite String.eqb_refl. reflexivity.
Qed.

End ReadFacts.

(** C5 (as the code has it). A student who is not the complaint's
    [student_id] and holds no admin role gets nothing of the complaint:
    its SELECT policy is false for that caller (it is true exactly for
    the owning student and for admins), so the get finds no row and is
    answered as for a complaint that does not exist ("no single row"),
    the listing of its status history succeeds with no entry, and the
    page's download, which starts from the fetched complaint, hands out
    nothing. Attachment rows and blobs are guarded by their own owner,
    not through the complaint: the attachment the complaint names is
    hidden from the caller when the caller is not its [owner_user_id],
    and a blob is hidden when it lies outside the caller's own
    folder. *)
Theorem other_student_is_denied db u c :
  complaints_pkey db ->
  In c (complaints db) ->
  u <> Complaint.student_id c ->
  has_role db (Some u) role_admin = false ->
  (forall uid, Policy.complaints_select db uid c = true
               <-> uid = Some (Complaint.student_id c)
                   \/ has_role db uid role_admin = true) /\
  Policy.complaints_select db (Some u) c = false /\
  single (filter (fun r => String.eqb (Complaint.id r) (Complaint.id c))
            (select_complaints db (Some u))) = Err no_single_row /\
  StudentComplaintDetail.fetchComplaint db (Some u) (Complaint.id c) = None /\
  StudentComplaintDetail.fetchHistory db (Some u) (Complaint.id c) = [] /\
  StudentComplaintDetail.downloadAttachment db (Some u)
    (StudentComplaintDetail.fetchComplaint db (Some u) (Complaint.id c)) = None /\
  (forall a,
     attachments_pkey db ->
     In a (attachments db) ->
     Complaint.attachment_id c = Some (Attachment.id a) ->
     u <> Attachment.owner_user_id a ->
     StudentComplaintDetail.fetchAttachment db (Some u) (Attachment.id a) = None /\
     StudentComplaintDetail.downloadAttachment db (Some u) (Some c) = None) /\
  (forall path,
     uid_owns_folder (Some u) path = false ->
     storage_download db (Some u) "complaint-attachments" path
     = Err object_not_found).
Proof.
  intros Hpk Hin Hu Hadm.
  assert (Hget : StudentComplaintDetail.fetchComplaint db (Some u) (Complaint.id c)
                 = None) by (apply ReadFacts.get_denied; assumption).
  split; [|split; [|split; [|split; [|split; [|split; [|split]]]]]].
  - intros uid. unfold Policy.complaints_select.
    rewrite orb_true_iff, StoreFacts.uid_is_true. reflexivity.
  - apply ReadFacts.complaint_hidden; assumption.
  - unfold StudentComplaintDetail.fetchComplaint in Hget.
    destruct (single _) as [r|e] eqn:E; [discriminate|].
    destruct (filter _ (select_complaints db (Some u))) as [|x [|y l]];
      cbn in E; congruence.
  - exact Hget.
  - apply ReadFacts.history_denied; assumption.
  - rewrite Hget. reflexivity.
  - intros a Hapk Ha Hlink Hu'.
    assert (Hrow : StudentComplaintDetail.fetchAttachment db (Some u) (Attachment.id a)
                   = None) by (apply ReadFacts.attachment_denied; assumption).
    split; [exact Hrow|].
    unfold StudentComplaintDetail.downloadAttachment.
    rewrite Hlink, Hrow. reflexivity.
  - intros path Hown. exact (ReadFacts.blob_hidden db u path Hown Hadm).
Qed.

(** The theorem at the populated example: Bob asks for Alice's
    complaint, its history and its receipt. *)
Lemma other_student_is_denied_witness :
  StudentComplaintDetail.fetchComplaint Example.later (Some Example.bob)
    Example.chair_id = None /\
  StudentComplaintDetail.fetchHistory Example.later (Some Example.bob)
    Example.chair_id = [] /\
  StudentComplaintDetail.fetchAttachment Example.later (Some Example.bob)
    Example.chair_attachment_id = None /\
  storage_download Example.later (Some Example.bob) "complaint-attachments"
    "11111111-1111-4111-8111-111111111111/1700.pdf" = Err object_not_found.
Proof.
  pose (c := Complaint.mk Example.chair_id Example.alice "Broken chair"
               cat_working_hub "The chair in hub 2 is broken"
               (Some Example.chair_attachment_id) open None 5 5).
  pose (a := Attachment.mk Example.chair_attachment_id Example.alice None
               "receipt.pdf" "11111111-1111-4111-8111-111111111111/1700.pdf"
               "application/pdf" 2048%Z 5).
  destruct (other_student_is_denied Example.later Example.bob c)
    as (_ & _ & _ & H1 & H2 & _ & H3 & H4).
  - vm_compute. repeat constructor; simpl; intuition discriminate.
  - vm_compute. left. reflexivity.
  - discriminate.
  - vm_compute. reflexivity.
  - destruct (H3 a) as (H5 & _).
    + vm_compute. repeat constructor. intros [].
    + vm_compute. left. reflexivity.
    + reflexivity.
    + discriminate.
    + split; [exact H1|]. split; [exact H2|]. split; [exact H5|].
      apply H4. vm_compute. reflexivity.
Defined.

(* ================================================================== *)
(** * Submitting a complaint *)
(* ================================================================== *)

Module SubmitFacts.

Lemma storage_upload_ok uid bucket name f db u db' :
  storage_upload uid bucket name f db = Ok (u, db') ->
  db' = with_objects
          (storage_objects db ++
           [StorageObject.mk bucket name (file_type f) (file_size f)]) db /\
  uid_owns_folder uid name = true.
Proof.
  unfold storage_upload. intros H. tx_inv H. injection H as _ <-.
  split; [reflexivity|].
  match goal with
  | Hp : Policy.objects_insert_check _ _ = true |- _ =>
      unfold Policy.objects_insert_check in Hp; cbn in Hp;
      apply andb_true_iff in Hp; exact (proj2 Hp)
  end.
Qed.

Lemma insert_attachment_ok uid now v db a db' :
  insert_attachment uid now v db = Ok (a, db') ->
  db' = with_attachments (attachments db ++ [a]) (with_drawn (S (drawn db)) db) /\
  a = Attachment.mk (entropy db (drawn db)) (ai_owner_user_id v) None
        (ai_original_filename v) (ai_stored_path v) (ai_mime_type v)
        (ai_byte_size v) now /\
  uid = Some (ai_owner_user_id v) /\
  ~ In (Attachment.id a) (map Attachment.id (attachments db)).
Proof.
  unfold insert_attachment. intros H. tx_inv H. injection H as <- <-.
  repeat split.
  - match goal with
    | Hp : Policy.attachments_insert_check _ _ = true |- _ =>
        unfold Policy.attachments_insert_check in Hp; cbn in Hp;
        apply StoreFacts.uid_is_true in Hp; exact Hp
    end.
  - cbn. apply StoreFacts.existsb_id_false.
    match goal with
    | Hn : negb _ = true |- _ => apply negb_true_iff in Hn; exact Hn
    end.
Qed.

(** What the upload step leaves behind when it succeeds: one blob in
    the uploader's folder and one attachment row owned by the uploader
    pointing at it; complaints and ledger untouched. *)
Lemma upload_step_ok uid date_now now file db aid db' :
  upload_step uid date_now now file db = (Ok aid, db') ->
  exists a,
    attachments db' = attachments db ++ [a] /\
    Attachment.id a = aid /\
    Attachment.owner_user_id a = uid /\
    uid_owns_folder (Some uid) (Attachment.stored_path a) = true /\
    ~ In aid (map Attachment.id (attachments db)) /\
    complaints db' = complaints db /\
    complaint_status_history db' = complaint_status_history db.
Proof.
  unfold upload_step.
  destruct (storage_upload _ _ _ _ db) as [[u db1]|e] eqn:Hup;
    [|intros H; discriminate].
  destruct (insert_attachment _ _ _ db1) as [[a db2]|e] eqn:Hins;
    intros H; [|discriminate].
  injection H as <- <-.
  apply storage_upload_ok in Hup. destruct Hup as [-> Hfolder].
  apply insert_attachment_ok in Hins. destruct Hins as (-> & Ha & _ & Hfresh).
  exists a. rewrite Ha in *. cbn in *. repeat split; assumption.
Qed.

(** A submission that succeeds ends with the INSERT of the complaint,
    on a database whose complaints and ledger are still the initial
    ones. *)
Lemma handleSubmit_ok user date_now now form db db' :
  handleSubmit (Some user) date_now now form db = (Complaint_submitted, db') ->
  exists db1 attachmentId c,
    complaints db1 = complaints db /\
    complaint_status_history db1 = complaint_status_history db /\
    insert_complaint (Some user) now
      (mkComplaintInsert user (Js.trim (form_title form)) (form_category form)
         (Js.trim (form_description form)) attachmentId) db1 = Ok (c, db').
Proof.
  unfold handleSubmit.
  destruct (negb (validateField (form_title form) titleSchema) || _ || _);
    [discriminate|].
  destruct (form_file form) as [file|].
  - destruct (upload_step user date_now now file db) as [[aid|e] db1] eqn:Hup;
      [|discriminate].
    destruct (insert_complaint _ _ _ db1) as [[c db2]|e] eqn:Hins;
      intros H; [|discriminate].
    injection H as <-.
    destruct (upload_step_ok _ _ _ _ _ _ _ Hup) as (a & _ & _ & _ & _ & _ & Hc & Hh).
    exists db1, (Some aid), c. auto.
  - destruct (insert_complaint _ _ _ db) as [[c db2]|e] eqn:Hins;
      intros H; [|discriminate].
    injection H as <-. exists db, None, c. auto.
Qed.

End SubmitFacts.

(** C6. After a submission that succeeded, the submitting student's get
    of the new complaint returns it with [status = open] and
    [admin_note] NULL, and the listing of its history returns exactly
    one entry, from NULL to [open]. *)
Theorem create_then_get user date_now now form db db' :
  history_complaint_fkey db ->
  handleSubmit (Some user) date_now now form db = (Complaint_submitted, db') ->
  exists c h,
    complaints db' = complaints db ++ [c] /\
    Complaint.student_id c = user /\
    StudentComplaintDetail.fetchComplaint db' (Some user) (Complaint.id c) = Some c /\
    Complaint.status c = open /\
    Complaint.admin_note c = None /\
    StudentComplaintDetail.fetchHistory db' (Some user) (Complaint.id c) = [h] /\
    History.from_status h = None /\
    History.to_status h = open.
Proof.
  intros Hfk H.
  destruct (SubmitFacts.handleSubmit_ok _ _ _ _ _ _ H)
    as (db1 & att & c & Hc1 & Hh1 & Hins).
  destruct (insert_complaint_ok _ _ _ _ _ _ Hins)
    as (h & Hc & Hh & _ & _ & _ & _ & _ & Hfresh & Hsid & _ & Hst & Hnote & _ & Hhrow).
  cbn in Hsid. rewrite Hc1 in Hc, Hfresh. rewrite Hh1 in Hh.
  assert (Hvis : Policy.complaints_select db' (Some user) c = true).
  { unfold Policy.complaints_select. rewrite Hsid. simpl.
    rewrite String.eqb_refl. reflexivity. }
  assert (Hold : forall r, In r (complaints db) ->
                           String.eqb (Complaint.id r) (Complaint.id c) = false).
  { intros r Hr. apply String.eqb_neq. intros E. apply Hfresh. rewrite <- E.
    apply in_map. exact Hr. }
  exists c, h. repeat split; try assumption.
  - unfold StudentComplaintDetail.fetchComplaint, select_complaints.
    rewrite Hc, !filter_app. cbn [filter]. rewrite Hvis. cbn [filter].
    rewrite String.eqb_refl.
    rewrite (ReadFacts.filter_nil (fun r => String.eqb (Complaint.id r) (Complaint.id c))).
    + reflexivity.
    + intros r Hr. apply filter_In in Hr. apply Hold. tauto.
  - unfold StudentComplaintDetail.fetchHistory, select_history.
    rewrite Hh, !filter_app. cbn [filter].
    assert (Hhv : Policy.history_select db' (Some user) h = true).
    { unfold Policy.history_select. apply orb_true_iff. left.
      apply existsb_exists. exists c. split.
      - apply filter_In. split; [rewrite Hc; apply in_or_app; right; left; reflexivity
                               | exact Hvis].
      - rewrite Hhrow. cbn. rewrite String.eqb_refl, Hsid. simpl.
        apply String.eqb_refl. }
    rewrite Hhv. cbn [filter].
    assert (Hhid : String.eqb (History.complaint_id h) (Complaint.id c) = true)
      by (rewrite Hhrow; cbn; apply String.eqb_refl).
    rewrite Hhid.
    rewrite (ReadFacts.filter_nil
               (fun x => String.eqb (History.complaint_id x) (Complaint.id c))).
    + reflexivity.
    + intros x Hx. apply filter_In in Hx. destruct Hx as [Hx _].
      apply String.eqb_neq. intros E. apply Hfresh. rewrite <- E.
      apply StoreFacts.existsb_id_true. exact (Hfk x Hx).
  - rewrite Hhrow. reflexivity.
  - rewrite Hhrow. reflexivity.
Qed.

(** The theorem at the populated example: Bob's submission. *)
Lemma create_then_get_witness :
  exists c h,
    complaints Example.later = complaints Example.submitted ++ [c] /\
    StudentComplaintDetail.fetchComplaint Example.later (Some Example.bob)
      (Complaint.id c) = Some c /\
    Complaint.status c = open /\
    Complaint.admin_note c = None /\
    StudentComplaintDetail.fetchHistory Example.later (Some Example.bob)
      (Complaint.id c) = [h] /\
    History.from_status h = None /\
    History.to_status h = open.
Proof.
  destruct (create_then_get Example.bob 1800 7 Example.desk_form
              Example.submitted Example.later)
    as (c & h & H1 & _ & H2 & H3 & H4 & H5 & H6 & H7).
  - intros x Hx. vm_compute in Hx. destruct Hx as [<-|[]]. vm_compute. reflexivity.
  - vm_compute. reflexivity.
  - exists c, h. repeat split; assumption.
Defined.

(* ================================================================== *)
(** * The declared constraints are invariants of the write surface *)
(* ================================================================== *)

Module ConstraintFacts.

Lemma NoDup_snoc {A} (l : list A) x : NoDup l -> ~ In x l -> NoDup (l ++ [x]).
Proof.
  induction l as [|a l IH]; cbn; intros Hl Hx.
  - constructor; [intros [] | constructor].
  - inversion Hl as [|? ? Ha Hl']; subst. constructor.
    + intros H. apply in_app_or in H. destruct H as [H|[H|[]]].
      * exact (Ha H).
      * apply Hx. left. symmetry. exact H.
    + apply IH; [exact Hl' | intros H; apply Hx; right; exact H].
Qed.

Lemma empty_holds entropy0 :
  constraints_hold (mkDatabase [] [] [] [] [] [] entropy0 0).
Proof.
  repeat split; try constructor; intros x [].
Qed.

Lemma insert_history_holds who now v db h db' :
  constraints_hold db ->
  insert_history who now v db = Ok (h, db') -> constraints_hold db'.
Proof.
  intros (H1 & H2 & H3 & H4) H. apply StoreFacts.insert_history_ok in H.
  destruct H as (Hh & -> & Hc & _).
  repeat split; try assumption.
  intros x Hx. cbn in Hx. apply in_app_or in Hx. destruct Hx as [Hx|[<-|[]]].
  - exact (H3 x Hx).
  - rewrite Hh. exact Hc.
Qed.

Lemma log_holds op OLD NEW uid now db u db' :
  constraints_hold db ->
  log_complaint_status_change op OLD NEW uid now db = Ok (u, db') ->
  constraints_hold db'.
Proof.
  intros Hk. unfold log_complaint_status_change.
  destruct (tg_op_eqb op INSERT || _); intros H.
  - apply TxFacts.bind_ok in H. destruct H as (h & db1 & Hi & Hr).
    apply TxFacts.ret_ok in Hr. destruct Hr as [_ ->].
    exact (insert_history_holds _ _ _ _ _ _ Hk Hi).
  - apply TxFacts.ret_ok in H. destruct H as [_ ->]. exact Hk.
Qed.

Lemma fire_holds fired uid now : forall db u db',
  constraints_hold db ->
  fire_log_complaint_status fired uid now db = Ok (u, db') -> constraints_hold db'.
Proof.
  induction fired as [|[OLD NEW] fired IH]; intros db u db' Hk H; cbn in H.
  - apply TxFacts.ret_ok in H. destruct H as [_ ->]. exact Hk.
  - apply TxFacts.bind_ok in H. destruct H as (u1 & db1 & Hl & Hf).
    exact (IH _ _ _ (log_holds _ _ _ _ _ _ _ _ Hk Hl) Hf).
Qed.

Lemma update_rows_ids selected now v rows rows' fired :
  update_rows selected now v rows = Ok (rows', fired) ->
  map Complaint.id rows' = map Complaint.id rows.
Proof.
  intros H. apply StoreFacts.update_rows_ok in H. destruct H as [-> _].
  rewrite map_map. apply map_ext. intros r. destruct (selected r); reflexivity.
Qed.

Lemma update_rows_checked selected now v rows : forall rows' fired,
  (forall r, In r rows -> complaint_checks r = true) ->
  update_rows selected now v rows = Ok (rows', fired) ->
  forall r, In r rows' -> complaint_checks r = true.
Proof.
  induction rows as [|OLD rows IH]; cbn; intros rows' fired Hck H.
  - injection H as <- _. intros r [].
  - destruct (selected OLD).
    + destruct (complaint_checks (update_updated_at_column now (set_columns v OLD)))
        eqn:E; [|discriminate].
      destruct (update_rows selected now v rows) as [[l f]|] eqn:Hr; [|discriminate].
      injection H as <- _. intros r [<-|Hr']; [exact E|].
      apply (IH l f); auto.
    + destruct (update_rows selected now v rows) as [[l f]|] eqn:Hr; [|discriminate].
      injection H as <- _. intros r [<-|Hr']; [apply Hck; auto|].
      apply (IH l f); auto.
Qed.

Lemma update_complaints_holds uid now target v db n db' :
  constraints_hold db ->
  update_complaints uid now target v db = Ok (n, db') -> constraints_hold db'.
Proof.
  intros (H1 & H2 & H3 & H4). unfold update_complaints.
  destruct (update_rows _ now v (complaints db)) as [[rows' fired]|] eqn:Hupd;
    [|discriminate].
  intros H. apply TxFacts.bind_ok in H. destruct H as (u & db1 & Hf & Hr).
  apply TxFacts.ret_ok in Hr. destruct Hr as [_ ->].
  apply (fire_holds _ _ _ _ _ _) in Hf; [exact Hf|].
  pose proof (update_rows_ids _ _ _ _ _ _ Hupd) as Hids.
  repeat split.
  - unfold complaints_pkey. cbn. rewrite Hids. exact H1.
  - exact H2.
  - intros x Hx. cbn in Hx. pose proof (H3 x Hx) as Hex.
    unfold complaint_exists in *. cbn.
    apply (StoreFacts.existsb_id_true Complaint.id) in Hex.
    assert (Hex' : In (History.complaint_id x) (map Complaint.id rows'))
      by (rewrite Hids; exact Hex).
    apply (StoreFacts.existsb_id_true Complaint.id). exact Hex'.
  - intros r Hr. cbn in Hr.
    exact (update_rows_checked _ _ _ _ _ _ H4 Hupd r Hr).
Qed.

Lemma insert_complaint_holds uid now v db c db' :
  constraints_hold db ->
  insert_complaint uid now v db = Ok (c, db') -> constraints_hold db'.
Proof.
  intros (H1 & H2 & H3 & H4) H.
  assert (Hck : complaint_checks c = true).
  { unfold insert_complaint in H. tx_inv H.
    match goal with
    | Hs : ?f _ = Ok (_, _), Hc : complaint_checks _ = true |- _ => exact Hc
    end. }
  destruct (insert_complaint_ok _ _ _ _ _ _ H)
    as (h & Hc & Hh & _ & _ & Ha & _ & _ & Hfresh & _ & _ & _ & _ & _ & Hhrow).
  repeat split.
  - unfold complaints_pkey. rewrite Hc, map_app. cbn.
    apply NoDup_snoc; assumption.
  - unfold attachments_pkey. rewrite Ha. exact H2.
  - intros x Hx. rewrite Hh in Hx. unfold complaint_exists. rewrite Hc.
    rewrite existsb_app. apply in_app_or in Hx. destruct Hx as [Hx|[<-|[]]].
    + apply orb_true_iff. left. exact (H3 x Hx).
    + apply orb_true_iff. right. rewrite Hhrow. cbn.
      rewrite String.eqb_refl. reflexivity.
  - intros r Hr. rewrite Hc in Hr. apply in_app_or in Hr.
    destruct Hr as [Hr|[<-|[]]]; [exact (H4 r Hr) | exact Hck].
Qed.

Lemma insert_attachment_holds uid now v db a db' :
  constraints_hold db ->
  insert_attachment uid now v db = Ok (a, db') -> constraints_hold db'.
Proof.
  intros (H1 & H2 & H3 & H4) H. apply SubmitFacts.insert_attachment_ok in H.
  destruct H as (-> & _ & _ & Hfresh). repeat split; try assumption.
  unfold attachments_pkey. cbn. rewrite map_app. cbn.
  apply NoDup_snoc; assumption.
Qed.

Lemma insert_complaint_row_holds uid now v db c db' :
  constraints_hold db ->
  insert_complaint_row uid now v db = Ok (c, db') -> constraints_hold db'.
Proof.
  intros (H1 & H2 & H3 & H4) H.
  destruct (ApiFacts.insert_complaint_row_ok _ _ _ _ _ _ H)
    as (h & Hc & Hh & _ & _ & Ha & _ & Hfresh & _ & Hck & Hhrow & _).
  repeat split.
  - unfold complaints_pkey. rewrite Hc, map_app. cbn.
    apply NoDup_snoc; assumption.
  - unfold attachments_pkey. rewrite Ha. exact H2.
  - intros x Hx. rewrite Hh in Hx. unfold complaint_exists. rewrite Hc.
    rewrite existsb_app. apply in_app_or in Hx. destruct Hx as [Hx|[<-|[]]].
    + apply orb_true_iff. left. exact (H3 x Hx).
    + apply orb_true_iff. right. rewrite Hhrow. cbn.
      rewrite String.eqb_refl. reflexivity.
  - intros r Hr. rewrite Hc in Hr. apply in_app_or in Hr.
    destruct Hr as [Hr|[<-|[]]]; [exact (H4 r Hr) | exact Hck].
Qed.

Lemma update_complaint_rows_holds uid now where_ v db n db' :
  constraints_hold db ->
  update_complaint_rows uid now where_ v db = Ok (n, db') -> constraints_hold db'.
Proof.
  intros (H1 & H2 & H3 & H4) H.
  destruct (ApiFacts.update_complaint_rows_ok _ _ _ _ _ _ _ H)
    as (rows' & fired & Hrows & Hfired & Hp & Hnd & Hk & Hf & _).
  apply (fire_holds _ _ _ _ _ _) in Hf; [exact Hf|].
  assert (Hids : id_changed fired = false ->
                 map Complaint.id rows' = map Complaint.id (complaints db)).
  { intros Hid. rewrite Hfired in Hid. rewrite Hrows.
    exact (ApiFacts.ids_unchanged _ _ _ Hid). }
  repeat split.
  - unfold complaints_pkey. cbn.
    destruct Hnd as [Hid|Hnd].
    + change (NoDup (map Complaint.id rows')). rewrite (Hids Hid). exact H1.
    + apply ApiFacts.nodup_by_NoDup. exact Hnd.
  - exact H2.
  - intros x Hx. cbn in Hx. unfold complaint_exists. cbn.
    destruct Hk as [Hid|Hk].
    + apply (StoreFacts.existsb_id_true Complaint.id).
      change (In (History.complaint_id x) (map Complaint.id rows')).
      rewrite (Hids Hid).
      apply (StoreFacts.existsb_id_true Complaint.id). exact (H3 x Hx).
    + unfold referenced_ids_kept in Hk. apply andb_true_iff in Hk.
      destruct Hk as [Hk _]. rewrite forallb_forall in Hk. exact (Hk x Hx).
  - intros r Hr. cbn in Hr.
    exact (ApiFacts.patch_rows_checked _ _ _ _ _ _ H4 Hp r Hr).
Qed.

Lemma insert_attachment_row_holds uid now v db a db' :
  constraints_hold db ->
  insert_attachment_row uid now v db = Ok (a, db') -> constraints_hold db'.
Proof.
  intros (H1 & H2 & H3 & H4) H.
  destruct (ApiFacts.insert_attachment_row_ok _ _ _ _ _ _ H)
    as (Ha & _ & _ & Hc & Hh & _ & _ & Hfresh).
  unfold constraints_hold, complaints_pkey, attachments_pkey, history_complaint_fkey,
    complaints_checked, complaint_exists in *.
  rewrite Ha, Hc, Hh, map_app. cbn.
  repeat split; try assumption. apply NoDup_snoc; assumption.
Qed.

Lemma insert_history_row_holds uid now v db h db' :
  constraints_hold db ->
  insert_history_row uid now v db = Ok (h, db') -> constraints_hold db'.
Proof.
  intros (H1 & H2 & H3 & H4) H.
  destruct (ApiFacts.insert_history_row_ok _ _ _ _ _ _ H)
    as (Hh & _ & _ & Hc & Ha & _ & Hex).
  unfold constraints_hold, complaints_pkey, attachments_pkey, history_complaint_fkey,
    complaints_checked, complaint_exists in *.
  rewrite Ha, Hc, Hh.
  repeat split; try assumption.
  intros x Hx. apply in_app_or in Hx. destruct Hx as [Hx|[<-|[]]];
    [exact (H3 x Hx) | exact Hex].
Qed.

(** Every write of the API keeps the declared constraints. *)
Lemma perform_holds uid now r db :
  constraints_hold db -> constraints_hold (perform uid now r db).
Proof.
  intros Hk. destruct r; cbn [perform]; unfold commit.
  - destruct (insert_complaint_row uid now v db) as [[c db']|] eqn:E; [|exact Hk].
    exact (insert_complaint_row_holds _ _ _ _ _ _ Hk E).
  - destruct (update_complaint_rows uid now where_ v db) as [[n db']|] eqn:E;
      [|exact Hk].
    exact (update_complaint_rows_holds _ _ _ _ _ _ _ Hk E).
  - destruct (insert_attachment_row uid now v db) as [[a db']|] eqn:E; [|exact Hk].
    exact (insert_attachment_row_holds _ _ _ _ _ _ Hk E).
  - destruct (insert_history_row uid now v db) as [[h db']|] eqn:E; [|exact Hk].
    exact (insert_history_row_holds _ _ _ _ _ _ Hk E).
  - destruct (storage_upload uid bucket name f db) as [[u db']|] eqn:E; [|exact Hk].
    apply SubmitFacts.storage_upload_ok in E. destruct E as [-> _]. exact Hk.
  - destruct (update_profiles uid now where_ v db) as [[u db']|] eqn:E; [|exact Hk].
    unfold update_profiles in E.
    destruct (update_profile_rows db uid now where_ v (profiles db)) as [rows'|];
      [|discriminate].
    destruct (nodup_by Profile.id rows' && nodup_by Profile.email rows');
      [|discriminate].
    injection E as _ <-. exact Hk.
Qed.

End ConstraintFacts.

(* ================================================================== *)
(** * Further facts about the handlers *)
(* ================================================================== *)

Module HandlerFacts.

Lemma zod_accepts lo hi value :
  validateField value (zod_trim_min_max lo hi) = true ->
  (lo <= char_length (Js.trim value) <= hi)%Z.
Proof.
  unfold validateField, zod_trim_min_max.
  destruct ((lo <=? char_length (Js.trim value))%Z
            && (char_length (Js.trim value) <=? hi)%Z) eqn:E; [|discriminate].
  intros _. apply andb_true_iff in E. destruct E as [E1 E2].
  apply Z.leb_le in E1, E2. lia.
Qed.

(** A submission without a file goes through once the form validates,
    the category is one of the enum's labels, the user has a profile
    and the two generated ids are new. *)
Lemma handleSubmit_succeeds user date_now now form db cat :
  validateField (form_title form) titleSchema = true ->
  validateField (form_description form) descriptionSchema = true ->
  category_of_label (form_category form) = Some cat ->
  form_file form = None ->
  profile_exists db user = true ->
  complaint_exists db (entropy db (drawn db)) = false ->
  history_exists db (entropy db (S (drawn db))) = false ->
  exists db', handleSubmit (Some user) date_now now form db = (Complaint_submitted, db').
Proof.
  intros Ht Hd Hcat Hfile Hprof Hfresh Hhfresh.
  pose proof (zod_accepts _ _ _ Ht) as Ht'.
  pose proof (zod_accepts _ _ _ Hd) as Hd'.
  assert (Htruthy : Js.truthy (form_category form) = true).
  { destruct (form_category form); [discriminate | reflexivity]. }
  unfold handleSubmit. rewrite Ht, Hd, Htruthy, Hfile. cbn [negb orb].
  assert (Hck : complaint_checks
                  (Complaint.mk (entropy db (drawn db)) user
                     (Js.trim (form_title form)) cat
                     (Js.trim (form_description form)) None open None now now) = true).
  { unfold complaint_checks. cbn.
    repeat (apply andb_true_iff; split); try reflexivity;
      first [apply Z.ltb_lt | apply Z.leb_le]; lia. }
  unfold insert_complaint, bind, lift.
  cbn -[complaint_checks Js.trim String.eqb existsb log_complaint_status_change category_of_label].
  rewrite Hcat.
  cbn -[complaint_checks Js.trim String.eqb existsb log_complaint_status_change category_of_label].
  rewrite Hck.
  cbn -[complaint_checks Js.trim String.eqb existsb log_complaint_status_change category_of_label].
  rewrite String.eqb_refl.
  unfold complaint_exists, profile_exists in *.
  cbn -[complaint_checks Js.trim String.eqb existsb log_complaint_status_change category_of_label].
  rewrite Hfresh.
  cbn -[complaint_checks Js.trim String.eqb existsb log_complaint_status_change category_of_label].
  rewrite Hprof.
  cbn -[complaint_checks Js.trim String.eqb existsb log_complaint_status_change category_of_label].
  match goal with
  | |- context [log_complaint_status_change INSERT None ?N ?u ?t ?d] =>
      destruct (StoreFacts.insert_history_succeeds definer t
                  (mkHistoryInsert (Complaint.id N)
                     (coalesce_uid u (Complaint.student_id N)) None
                     (Complaint.status N) (Complaint.admin_note N)) d)
        as (h & db' & Hins);
      [ reflexivity
      | exact Hhfresh
      | unfold complaint_exists; cbn -[String.eqb];
        rewrite existsb_app; cbn -[String.eqb];
        rewrite String.eqb_refl, orb_true_r; reflexivity
      | exact Hprof
      | assert (Hlog : log_complaint_status_change INSERT None N u t d = Ok (tt, db'))
          by (unfold log_complaint_status_change, bind;
              cbn [tg_op_eqb orb]; rewrite Hins; reflexivity);
        rewrite Hlog ]
  end.
  cbn. eauto.
Qed.

(** A submission with a file links the new complaint to an attachment
    row of the same student, whose blob lies in that student's folder. *)
Lemma submission_links_own_attachment user date_now now form file db db' :
  form_file form = Some file ->
  handleSubmit (Some user) date_now now form db = (Complaint_submitted, db') ->
  exists c a,
    In c (complaints db') /\ In a (attachments db') /\
    Complaint.attachment_id c = Some (Attachment.id a) /\
    Complaint.student_id c = user /\
    Attachment.owner_user_id a = Complaint.student_id c /\
    uid_owns_folder (Some (Attachment.owner_user_id a)) (Attachment.stored_path a)
      = true.
Proof.
  intros Hfile. unfold handleSubmit. rewrite Hfile.
  destruct (negb (validateField (form_title form) titleSchema) || _ || _);
    [discriminate|].
  destruct (upload_step user date_now now file db) as [[aid|e] db1] eqn:Hup;
    [|discriminate].
  destruct (insert_complaint _ _ _ db1) as [[c db2]|e] eqn:Hins;
    intros H; [|discriminate].
  injection H as <-.
  destruct (SubmitFacts.upload_step_ok _ _ _ _ _ _ _ Hup)
    as (a & Ha & Hid & Hown & Hfolder & _).
  destruct (insert_complaint_ok _ _ _ _ _ _ Hins)
    as (h & Hc & _ & _ & _ & Hatt & _ & _ & _ & Hsid & _ & _ & _ & Hlink & _).
  cbn in Hsid, Hlink. exists c, a. repeat split.
  - rewrite Hc. apply in_or_app. right. left. reflexivity.
  - rewrite Hatt, Ha. apply in_or_app. right. left. reflexivity.
  - rewrite Hlink, Hid. reflexivity.
  - exact Hsid.
  - rewrite Hown, Hsid. reflexivity.
  - rewrite Hown. exact Hfolder.
Qed.

(** The path [handleSubmit] builds lies in the folder of a uid in uuid
    form, whatever the file is called. *)
Lemma upload_path_in_own_folder uid rest :
  is_uuid_text uid = true ->
  uid_owns_folder (Some uid) (uid ++ "/" ++ rest) = true.
Proof.
  intros H. unfold uid_owns_folder.
  change (uid ++ "/" ++ rest)%string with (uid ++ String "/" rest)%string.
  rewrite (JsFacts.foldername_first uid rest (JsFacts.uuid_text_no_slash uid H)).
  apply String.eqb_refl.
Qed.

(** An admin's page that has just loaded a resolved complaint leaves
    the database alone, whatever the form is changed to. *)
Lemma loaded_resolved_complaint_is_frozen db uid c st now s note :
  complaints_pkey db ->
  In c (complaints db) ->
  has_role db uid role_admin = true ->
  Complaint.status c = resolved ->
  let page := AdminComplaintDetail.refresh db uid (Complaint.id c) st in
  snd (fst (AdminComplaintDetail.handleSave uid now (Complaint.id c)
              (AdminComplaintDetail.mkState (AdminComplaintDetail.complaint page)
                 (AdminComplaintDetail.history page) s note) db)) = db.
Proof.
  intros Hpk Hin Hadm Hres page.
  assert (Hload : AdminComplaintDetail.fetchComplaint db uid (Complaint.id c)
                  = Some (embed_student db uid c)).
  { unfold AdminComplaintDetail.fetchComplaint.
    rewrite (SearchFacts.admin_selects_all_complaints db uid Hadm).
    rewrite (StoreFacts.filter_key_unique Complaint.id _ c Hpk Hin). reflexivity. }
  assert (Hpage : AdminComplaintDetail.complaint page = Some (embed_student db uid c)).
  { unfold page, AdminComplaintDetail.refresh. rewrite Hload. reflexivity. }
  unfold AdminComplaintDetail.handleSave. cbn [AdminComplaintDetail.status
    AdminComplaintDetail.adminNote AdminComplaintDetail.complaint].
  rewrite Hpage. cbn [row embed_student]. rewrite Hres.
  destruct (ComplaintStatus_eqb s resolved && negb (Js.truthy (Js.trim note)));
    reflexivity.
Qed.

(** Alice may rename herself; asking for the admin role in the same
    statement is refused by the policy's check. *)
Lemma own_profile_update_example :
  (exists db',
     update_profiles (Some Example.alice) 9 (fun _ => true)
       (mkProfileUpdate None None (Some "Alice B.") None None None None) Example.submitted
     = Ok (tt, db') /\
     map Profile.full_name (profiles db') = ["Alice B."; "Bob"; "Carol"]) /\
  update_profiles (Some Example.alice) 9 (fun _ => true)
    (mkProfileUpdate None (Some role_admin) (Some "Alice B.") None None None None)
    Example.submitted = Err rls_violation.
Proof.
  split; [eexists; split|]; vm_compute; reflexivity.
Qed.

End HandlerFacts.

(* ================================================================== *)
(** * Ordering of fetched rows *)
(* ================================================================== *)

Module OrderFacts.

Lemma insert_by_perm {A} (key : A -> nat) x l :
  Permutation (insert_by key x l) (x :: l).
Proof.
  induction l as [|y l IH]; simpl; [reflexivity|].
  destruct (key y <=? key x); [|reflexivity].
  rewrite IH. apply perm_swap.
Qed.

Lemma order_ascending_perm {A} (key : A -> nat) l :
  Permutation (order_ascending key l) l.
Proof.
  unfold order_ascending. induction l as [|x l IH]; simpl; [reflexivity|].
  rewrite insert_by_perm. constructor. exact IH.
Qed.

Lemma order_descending_perm {A} (key : A -> nat) l :
  Permutation (order_descending key l) l.
Proof.
  unfold order_descending. rewrite <- Permutation_rev. apply order_ascending_perm.
Qed.

Lemma insert_by_sorted {A} (key : A -> nat) x l :
  oldest_first key l -> oldest_first key (insert_by key x l).
Proof.
  unfold oldest_first. induction l as [|y l IH]; simpl; intros H.
  - repeat constructor.
  - inversion H as [|? ? Hs Hf]; subst.
    destruct (key y <=? key x) eqn:E.
    + apply Nat.leb_le in E. constructor; [exact (IH Hs)|].
      apply Forall_forall. intros z Hz.
      apply (Permutation_in _ (insert_by_perm key x l)) in Hz.
      destruct Hz as [<-|Hz]; [exact E|].
      rewrite Forall_forall in Hf. exact (Hf z Hz).
    + apply Nat.leb_gt in E. constructor; [exact H|].
      constructor; [lia|].
      rewrite Forall_forall in Hf |- *. intros z Hz.
      specialize (Hf z Hz). lia.
Qed.

Lemma order_ascending_sorted {A} (key : A -> nat) l :
  oldest_first key (order_ascending key l).
Proof.
  unfold order_ascending. induction l as [|x l IH]; simpl.
  - constructor.
  - apply insert_by_sorted. exact IH.
Qed.

Lemma sorted_snoc {A} (R : A -> A -> Prop) l x :
  StronglySorted R l -> Forall (fun y => R y x) l -> StronglySorted R (l ++ [x]).
Proof.
  induction l as [|y l IH]; simpl; intros Hs Hf.
  - repeat constructor.
  - inversion Hs as [|? ? Hs' Hy]; subst.
    inversion Hf as [|? ? Hyx Hf']; subst.
    constructor; [exact (IH Hs' Hf')|].
    apply Forall_app. split; [exact Hy | repeat constructor; exact Hyx].
Qed.

Lemma sorted_rev {A} (R : A -> A -> Prop) l :
  StronglySorted R l -> StronglySorted (fun x y => R y x) (rev l).
Proof.
  induction l as [|x l IH]; simpl; intros H; [constructor|].
  inversion H as [|? ? Hs Hf]; subst.
  apply sorted_snoc; [exact (IH Hs)|].
  apply Forall_rev. exact Hf.
Qed.

Lemma order_descending_sorted {A} (key : A -> nat) l :
  newest_first key (order_descending key l).
Proof.
  unfold newest_first, order_descending.
  apply (sorted_rev (fun x y => key x <= key y)).
  apply order_ascending_sorted.
Qed.

End OrderFacts.

(* ================================================================== *)
(** * What the dashboards and the history listing show *)
(* ================================================================== *)

Module ListingFacts.

Lemma student_selects_own db u :
  has_role db (Some u) role_admin = false ->
  select_complaints db (Some u)
  = filter (fun c => String.eqb (Complaint.student_id c) u) (complaints db).
Proof.
  intros H. unfold select_complaints. apply filter_ext. intros c.
  unfold Policy.complaints_select. rewrite H, orb_false_r. simpl.
  apply String.eqb_sym.
Qed.

Lemma map_row_embed db uid l : map row (map (embed_student db uid) l) = l.
Proof.
  rewrite map_map. cbn. apply map_id.
Qed.

Lemma sorted_perm_in {A} (l l' : list A) x : Permutation l l' -> In x l <-> In x l'.
Proof.
  intros H. split; apply Permutation_in; [exact H | symmetry; exact H].
Qed.

(** The ledger rows the owner of a complaint, or an admin, may read are
    all of that complaint's rows. *)
Lemma history_visible db u c h :
  In c (complaints db) ->
  u = Complaint.student_id c \/ has_role db (Some u) role_admin = true ->
  History.complaint_id h = Complaint.id c ->
  Policy.history_select db (Some u) h = true.
Proof.
  intros Hin Hwho Hid. unfold Policy.history_select, is_admin.
  destruct Hwho as [->|Hadm]; [|rewrite Hadm; apply orb_true_r].
  apply orb_true_iff. left. apply existsb_exists. exists c. split.
  - apply filter_In. split; [exact Hin|]. unfold Policy.complaints_select.
    simpl. rewrite String.eqb_refl. reflexivity.
  - rewrite Hid, String.eqb_refl. simpl. apply String.eqb_refl.
Qed.

End ListingFacts.

(** X1. The student dashboard shows a student exactly the complaints
    filed under their own id, each once, newest first. *)
Theorem student_dashboard_lists_own_complaints db u :
  has_role db (Some u) role_admin = false ->
  Permutation (StudentDashboard.fetchComplaints db (Some u))
    (filter (fun c => String.eqb (Complaint.student_id c) u) (complaints db)) /\
  (forall c, In c (StudentDashboard.fetchComplaints db (Some u))
             <-> In c (complaints db) /\ Complaint.student_id c = u) /\
  newest_first Complaint.created_at (StudentDashboard.fetchComplaints db (Some u)).
Proof.
  intros Hadm. unfold StudentDashboard.fetchComplaints.
  rewrite (ListingFacts.student_selects_own db u Hadm).
  split; [apply OrderFacts.order_descending_perm|]. split.
  - intros c.
    rewrite (ListingFacts.sorted_perm_in _ _ c
               (OrderFacts.order_descending_perm Complaint.created_at _)).
    rewrite filter_In, String.eqb_eq. reflexivity.
  - apply OrderFacts.order_descending_sorted.
Qed.

Lemma student_dashboard_lists_own_complaints_witness :
  map Complaint.title (StudentDashboard.fetchComplaints Example.later (Some Example.bob))
  = ["Wobbly desk"] /\
  Permutation (StudentDashboard.fetchComplaints Example.later (Some Example.bob))
    (filter (fun c => String.eqb (Complaint.student_id c) Example.bob)
       (complaints Example.later)).
Proof.
  destruct (student_dashboard_lists_own_complaints Example.later Example.bob)
    as (H & _).
  - vm_compute. reflexivity.
  - split; [vm_compute; reflexivity | exact H].
Defined.

(** X2. The admin dashboard's fetch holds every complaint of the table
    exactly once, newest first. *)
Theorem admin_dashboard_lists_all_complaints db uid :
  has_role db uid role_admin = true ->
  Permutation (map row (AdminDashboard.fetchComplaints db uid)) (complaints db) /\
  newest_first Complaint.created_at (map row (AdminDashboard.fetchComplaints db uid)).
Proof.
  intros Hadm. unfold AdminDashboard.fetchComplaints.
  rewrite ListingFacts.map_row_embed.
  rewrite (SearchFacts.admin_selects_all_complaints db uid Hadm).
  split; [apply OrderFacts.order_descending_perm
         | apply OrderFacts.order_descending_sorted].
Qed.

Lemma admin_dashboard_lists_all_complaints_witness :
  map (fun jc => Complaint.title (row jc))
    (AdminDashboard.fetchComplaints Example.later (Some Example.carol))
  = ["Wobbly desk"; "Broken chair"] /\
  Permutation
    (map row (AdminDashboard.fetchComplaints Example.later (Some Example.carol)))
    (complaints Example.later).
Proof.
  destruct (admin_dashboard_lists_all_complaints Example.later (Some Example.carol))
    as (H & _).
  - vm_compute. reflexivity.
  - split; [vm_compute; reflexivity | exact H].
Defined.

(** X3. The history listing of a complaint, asked for by its student or
    by an admin, holds every ledger row of that complaint exactly once,
    oldest first. *)
Theorem history_listing_is_complete db u c :
  In c (complaints db) ->
  u = Complaint.student_id c \/ has_role db (Some u) role_admin = true ->
  Permutation (StudentComplaintDetail.fetchHistory db (Some u) (Complaint.id c))
    (filter (fun h => String.eqb (History.complaint_id h) (Complaint.id c))
       (complaint_status_history db)) /\
  oldest_first History.changed_at
    (StudentComplaintDetail.fetchHistory db (Some u) (Complaint.id c)).
Proof.
  intros Hin Hwho. unfold StudentComplaintDetail.fetchHistory. split.
  - rewrite OrderFacts.order_ascending_perm. unfold select_history.
    assert (E : forall l,
               filter (fun h => String.eqb (History.complaint_id h) (Complaint.id c))
                 (filter (Policy.history_select db (Some u)) l)
               = filter (fun h => String.eqb (History.complaint_id h) (Complaint.id c)) l).
    { induction l as [|h l IH]; simpl; [reflexivity|].
      destruct (String.eqb (History.complaint_id h) (Complaint.id c)) eqn:E.
      - apply String.eqb_eq in E.
        rewrite (ListingFacts.history_visible db u c h Hin Hwho E).
        simpl. apply String.eqb_eq in E. rewrite E, IH. reflexivity.
      - destruct (Policy.history_select db (Some u) h); simpl;
          [rewrite E|]; exact IH. }
    rewrite E. reflexivity.
  - apply OrderFacts.order_ascending_sorted.
Qed.

Lemma history_listing_is_complete_witness :
  map History.to_status
    (StudentComplaintDetail.fetchHistory Example.resolved_db (Some Example.alice)
       Example.chair_id)
  = [open; resolved] /\
  oldest_first History.changed_at
    (StudentComplaintDetail.fetchHistory Example.resolved_db (Some Example.alice)
       Example.chair_id).
Proof.
  destruct (history_listing_is_complete Example.resolved_db Example.alice
              (Complaint.mk Example.chair_id Example.alice "Broken chair"
                 cat_working_hub "The chair in hub 2 is broken"
                 (Some Example.chair_attachment_id) resolved (Some "Refunded") 5 9))
    as (_ & H).
  - vm_compute. left. reflexivity.
  - left. reflexivity.
  - split; [vm_compute; reflexivity | exact H].
Defined.

(** X4. With any search term and any values of the two selects, the
    dashboard shows exactly the fetched rows that are a hit for the
    term and carry the selected status and category ("all" selecting
    every one), in the order they were fetched; a select value that is
    neither "all" nor a label of the enum leaves nothing to show. *)
Theorem dashboard_filters_combine complaints searchTerm statusFilter categoryFilter :
  (forall jc,
     In jc (AdminDashboard.filterComplaints complaints searchTerm statusFilter
              categoryFilter)
     <-> In jc complaints
         /\ search_hit searchTerm jc
         /\ (statusFilter = "all"
             \/ status_label (Complaint.status (row jc)) = statusFilter)
         /\ (categoryFilter = "all"
             \/ category_label (Complaint.category (row jc)) = categoryFilter)) /\
  (exists keep,
     AdminDashboard.filterComplaints complaints searchTerm statusFilter categoryFilter
     = filter keep complaints) /\
  (statusFilter <> "all" -> ~ In statusFilter status_options ->
   AdminDashboard.filterComplaints complaints searchTerm statusFilter categoryFilter
   = []).
Proof.
  set (hit := fun jc => negb (Js.truthy searchTerm)
                        || AdminDashboard.matches (Js.toLowerCase searchTerm) jc).
  set (st := fun jc : JoinedComplaint =>
               String.eqb statusFilter "all"
               || String.eqb (status_label (Complaint.status (row jc))) statusFilter).
  set (ct := fun jc : JoinedComplaint =>
               String.eqb categoryFilter "all"
               || String.eqb (category_label (Complaint.category (row jc)))
                    categoryFilter).
  assert (Hor : forall (b : bool) (f : JoinedComplaint -> bool) l,
             filter (fun x => b || f x) l = if negb b then filter f l else l).
  { intros b f l. destruct b; cbn [negb orb]; [|reflexivity].
    induction l as [|x l IH]; simpl; [reflexivity | rewrite IH; reflexivity]. }
  assert (E : AdminDashboard.filterComplaints complaints searchTerm statusFilter
                categoryFilter
              = filter ct (filter st (filter hit complaints))).
  { unfold AdminDashboard.filterComplaints, hit, st, ct.
    rewrite !Hor, negb_involutive. reflexivity. }
  assert (Hhit : forall jc, hit jc = true <-> search_hit searchTerm jc).
  { intros jc. unfold hit. destruct searchTerm as [|a s]; cbn [Js.truthy negb orb].
    - split; [intros _; apply SearchFacts.empty_term_hits_all | reflexivity].
    - apply SearchFacts.matches_iff. }
  split; [|split].
  - intros jc. rewrite E, !filter_In, Hhit. unfold st, ct.
    rewrite !orb_true_iff, !String.eqb_eq. tauto.
  - exists (fun jc => hit jc && st jc && ct jc). rewrite E.
    generalize complaints. intros l.
    induction l as [|x l IH]; simpl; [reflexivity|].
    destruct (hit x); simpl; [|exact IH].
    destruct (st x); simpl; [|exact IH].
    destruct (ct x); simpl; [rewrite IH; reflexivity | exact IH].
  - intros Hne Hnot. rewrite E.
    assert (Hst : forall jc, st jc = false).
    { intros jc. unfold st. apply String.eqb_neq in Hne. rewrite Hne. simpl.
      apply String.eqb_neq. intros Hl. apply Hnot. rewrite <- Hl.
      destruct (Complaint.status (row jc)); simpl; auto. }
    rewrite (ReadFacts.filter_nil st); [reflexivity|]. intros x _. apply Hst.
Qed.

Lemma dashboard_filters_combine_witness :
  "closed" <> "all" /\ ~ In "closed" status_options /\
  AdminDashboard.filterComplaints
    (AdminDashboard.fetchComplaints Example.later (Some Example.carol))
    "" "closed" "all" = [].
Proof.
  assert (H1 : "closed" <> "all") by discriminate.
  assert (H2 : ~ In "closed" status_options)
    by (cbn; intros [H|[H|[H|[]]]]; discriminate).
  destruct (dashboard_filters_combine
              (AdminDashboard.fetchComplaints Example.later (Some Example.carol))
              "" "closed" "all") as (_ & _ & H).
  split; [exact H1 | split; [exact H2 | exact (H H1 H2)]].
Defined.

(* ================================================================== *)
(** * What a statement leaves alone *)
(* ================================================================== *)

Module FrameFacts.

Lemma only_ledger_grew_refl db : only_ledger_grew db db.
Proof.
  repeat split. exists []. rewrite app_nil_r. reflexivity.
Qed.

Lemma only_ledger_grew_trans a b c :
  only_ledger_grew a b -> only_ledger_grew b c -> only_ledger_grew a c.
Proof.
  intros (H1 & H2 & H3 & H4 & H5 & l1 & H6) (G1 & G2 & G3 & G4 & G5 & l2 & G6).
  repeat split; try congruence.
  exists (l1 ++ l2). rewrite G6, H6, app_assoc. reflexivity.
Qed.

Lemma insert_history_frame who now v db h db' :
  insert_history who now v db = Ok (h, db') -> only_ledger_grew db db'.
Proof.
  intros H. apply StoreFacts.insert_history_ok in H.
  destruct H as (_ & -> & _). repeat split. exists [h]. reflexivity.
Qed.

Lemma log_frame op OLD NEW uid now db u db' :
  log_complaint_status_change op OLD NEW uid now db = Ok (u, db') ->
  only_ledger_grew db db'.
Proof.
  unfold log_complaint_status_change.
  destruct (tg_op_eqb op INSERT || _); intros H.
  - apply TxFacts.bind_ok in H. destruct H as (h & db1 & Hi & Hr).
    apply TxFacts.ret_ok in Hr. destruct Hr as [_ ->].
    exact (insert_history_frame _ _ _ _ _ _ Hi).
  - apply TxFacts.ret_ok in H. destruct H as [_ ->]. apply only_ledger_grew_refl.
Qed.

Lemma fire_frame fired uid now : forall db u db',
  fire_log_complaint_status fired uid now db = Ok (u, db') ->
  only_ledger_grew db db'.
Proof.
  induction fired as [|[OLD NEW] fired IH]; intros db u db' H; cbn in H.
  - apply TxFacts.ret_ok in H. destruct H as [_ ->]. apply only_ledger_grew_refl.
  - apply TxFacts.bind_ok in H. destruct H as (u1 & db1 & Hl & Hf).
    eapply only_ledger_grew_trans;
      [exact (log_frame _ _ _ _ _ _ _ _ Hl) | exact (IH _ _ _ Hf)].
Qed.

(** What any successful UPDATE of complaints did: the selected rows
    carry the new status, note and time; everything else but the ledger
    is as before, and the ledger kept its rows. *)
Lemma update_complaints_frame uid now target v db n db' :
  update_complaints uid now target v db = Ok (n, db') ->
  complaints db' =
    map (fun r => if String.eqb (Complaint.id r) target
                     && Policy.complaints_update_using db uid r
                  then update_updated_at_column now (set_columns v r) else r)
        (complaints db) /\
  profiles db' = profiles db /\ user_roles db' = user_roles db /\
  attachments db' = attachments db /\ storage_objects db' = storage_objects db /\
  exists added, complaint_status_history db' = complaint_status_history db ++ added.
Proof.
  unfold update_complaints.
  destruct (update_rows _ now v (complaints db)) as [[rows' fired]|] eqn:Hupd;
    [|discriminate].
  intros H. apply TxFacts.bind_ok in H. destruct H as (u & db1 & Hf & Hr).
  apply TxFacts.ret_ok in Hr. destruct Hr as [_ ->].
  apply fire_frame in Hf. destruct Hf as (H1 & H2 & H3 & H4 & H5 & l & H6).
  apply StoreFacts.update_rows_ok in Hupd. destruct Hupd as [-> _].
  cbn in *. repeat split; try assumption. exists l. exact H6.
Qed.

(** A row the UPDATE selects and whose new version breaks a CHECK
    aborts the statement. *)
Lemma update_rows_check_violation selected now v rows c :
  In c rows -> selected c = true ->
  complaint_checks (update_updated_at_column now (set_columns v c)) = false ->
  update_rows selected now v rows = Err check_violation.
Proof.
  induction rows as [|r rows IH]; simpl; intros Hin Hsel Hck; [contradiction|].
  destruct Hin as [->|Hin].
  - rewrite Hsel, Hck. reflexivity.
  - rewrite (IH Hin Hsel Hck).
    destruct (selected r); [|reflexivity].
    destruct (complaint_checks (update_updated_at_column now (set_columns v r)));
      reflexivity.
Qed.

Lemma upload_step_frame uid date_now now file db r db' :
  upload_step uid date_now now file db = (r, db') ->
  complaints db' = complaints db /\
  complaint_status_history db' = complaint_status_history db /\
  profiles db' = profiles db /\ user_roles db' = user_roles db /\
  (exists l, attachments db' = attachments db ++ l) /\
  (exists l, storage_objects db' = storage_objects db ++ l).
Proof.
  unfold upload_step.
  destruct (storage_upload _ _ _ _ db) as [[u db1]|e] eqn:Hup.
  - apply SubmitFacts.storage_upload_ok in Hup. destruct Hup as [-> _].
    destruct (insert_attachment _ _ _ _) as [[a db2]|e] eqn:Hins; intros H;
      injection H as _ <-.
    + apply SubmitFacts.insert_attachment_ok in Hins. destruct Hins as (-> & _).
      cbn. repeat split; eexists; reflexivity.
    + cbn. repeat split; [exists []; rewrite app_nil_r | eexists]; reflexivity.
  - intros H. injection H as _ <-.
    repeat split; exists []; rewrite app_nil_r; reflexivity.
Qed.

Lemma or_empty_or_null s : Js.or_empty (Js.or_null s) = s.
Proof. destruct s; reflexivity. Qed.

Lemma has_role_same_user_roles db db' uid r :
  user_roles db' = user_roles db -> has_role db' uid r = has_role db uid r.
Proof. intros H. unfold has_role. rewrite H. reflexivity. Qed.

End FrameFacts.

(* ================================================================== *)
(** * Saving on the admin page *)
(* ================================================================== *)

Module SaveFacts.

(** The table after an admin's UPDATE by id, and what the admin's
    reload of that id finds. *)
Lemma admin_update_then_fetch db uid now c v n db' :
  complaints_pkey db ->
  In c (complaints db) ->
  has_role db uid role_admin = true ->
  update_complaints uid now (Complaint.id c) v db = Ok (n, db') ->
  AdminComplaintDetail.fetchComplaint db' uid (Complaint.id c)
  = Some (embed_student db' uid (update_updated_at_column now (set_columns v c))).
Proof.
  intros Hpk Hin Hadm H.
  destruct (FrameFacts.update_complaints_frame _ _ _ _ _ _ _ H)
    as (Hc & _ & Hur & _).
  rewrite (UpdateFacts.admin_rewrites_one db uid c
             (fun r => update_updated_at_column now (set_columns v r))
             Hpk Hin Hadm) in Hc.
  assert (Hadm' : has_role db' uid role_admin = true)
    by (rewrite (FrameFacts.has_role_same_user_roles db db' uid _ Hur); exact Hadm).
  unfold AdminComplaintDetail.fetchComplaint.
  rewrite (SearchFacts.admin_selects_all_complaints db' uid Hadm').
  set (c' := update_updated_at_column now (set_columns v c)) in *.
  assert (Hid : Complaint.id c' = Complaint.id c) by reflexivity.
  assert (Hids : map Complaint.id (complaints db') = map Complaint.id (complaints db)).
  { rewrite Hc, map_map. apply map_ext. intros r.
    destruct (String.eqb (Complaint.id r) (Complaint.id c)) eqn:E; [|reflexivity].
    apply String.eqb_eq in E. rewrite Hid. symmetry. exact E. }
  assert (Hin' : In c' (complaints db')).
  { rewrite Hc. apply in_map_iff. exists c. split; [|exact Hin].
    rewrite String.eqb_refl. reflexivity. }
  rewrite <- Hid.
  rewrite (StoreFacts.filter_key_unique Complaint.id (complaints db') c');
    [reflexivity | | exact Hin'].
  unfold complaints_pkey in Hpk.
  change (NoDup (map Complaint.id (complaints db'))). rewrite Hids. exact Hpk.
Qed.

End SaveFacts.

(** X5. After an admin's save that succeeded, the reloaded page shows
    what was saved: the status of the form, the note with the white
    space around it removed (NULL shown as the empty note), and the
    time of the update; the form has no changes left and the save
    button is disabled again. *)
Theorem saved_form_is_what_the_page_shows db uid now c st db' st' :
  complaints_pkey db ->
  In c (complaints db) ->
  has_role db uid role_admin = true ->
  AdminComplaintDetail.handleSave uid now (Complaint.id c) st db
  = (AdminComplaintDetail.Updated_successfully, db', st') ->
  AdminComplaintDetail.status st' = AdminComplaintDetail.status st /\
  AdminComplaintDetail.adminNote st' = Js.trim (AdminComplaintDetail.adminNote st) /\
  exists jc,
    AdminComplaintDetail.complaint st' = Some jc /\
    Complaint.id (row jc) = Complaint.id c /\
    Complaint.status (row jc) = AdminComplaintDetail.status st /\
    Complaint.admin_note (row jc)
    = Js.or_null (Js.trim (AdminComplaintDetail.adminNote st)) /\
    Complaint.updated_at (row jc) = now /\
    SaveButton.hasChanges st' jc = false /\
    SaveButton.disabled st' jc false = true.
Proof.
  intros Hpk Hin Hadm H. unfold AdminComplaintDetail.handleSave in H.
  destruct (ComplaintStatus_eqb (AdminComplaintDetail.status st) resolved
            && negb (Js.truthy (Js.trim (AdminComplaintDetail.adminNote st))));
    [discriminate|].
  destruct (match AdminComplaintDetail.complaint st with
            | Some c0 => ComplaintStatus_eqb (Complaint.status (row c0)) resolved
            | None => false
            end); [discriminate|].
  destruct (update_complaints uid now (Complaint.id c) _ db) as [[n db1]|e] eqn:Hupd;
    [|discriminate].
  injection H as <- <-.
  pose proof (SaveFacts.admin_update_then_fetch _ _ _ _ _ _ _ Hpk Hin Hadm Hupd)
    as Hfetch.
  unfold AdminComplaintDetail.refresh. rewrite Hfetch.
  cbn [AdminComplaintDetail.status AdminComplaintDetail.adminNote
       AdminComplaintDetail.complaint row embed_student
       update_updated_at_column set_columns Complaint.status Complaint.admin_note
       cu_status cu_admin_note].
  rewrite FrameFacts.or_empty_or_null.
  split; [reflexivity|]. split; [reflexivity|].
  eexists. split; [reflexivity|].
  unfold SaveButton.disabled, SaveButton.hasChanges.
  cbn -[Js.trim Js.or_null Js.or_empty String.eqb ComplaintStatus_eqb
        find select_profiles].
  rewrite FrameFacts.or_empty_or_null, StoreFacts.ComplaintStatus_eqb_refl,
    String.eqb_refl.
  repeat split.
Qed.

Lemma saved_form_is_what_the_page_shows_witness :
  AdminComplaintDetail.status Example.resolved_page = resolved /\
  AdminComplaintDetail.adminNote Example.resolved_page = "Refunded" /\
  exists jc,
    AdminComplaintDetail.complaint Example.resolved_page = Some jc /\
    SaveButton.hasChanges Example.resolved_page jc = false.
Proof.
  destruct (saved_form_is_what_the_page_shows Example.submitted (Some Example.carol) 9
              (Complaint.mk Example.chair_id Example.alice "Broken chair"
                 cat_working_hub "The chair in hub 2 is broken"
                 (Some Example.chair_attachment_id) open None 5 5)
              (Example.with_form resolved "Refunded" Example.loaded_page)
              Example.resolved_db Example.resolved_page)
    as (H1 & H2 & jc & H3 & _ & _ & _ & _ & H4 & _).
  - vm_compute. repeat constructor. intros [].
  - vm_compute. left. reflexivity.
  - vm_compute. reflexivity.
  - vm_compute. reflexivity.
  - split; [exact H1|]. split; [exact H2|]. exists jc. split; assumption.
Defined.

(** X6. A save by a caller without the admin role (a student, or nobody
    signed in) that passes the page's two guards is answered "Updated
    successfully" although the UPDATE policy selected no row: no table
    has changed. *)
Theorem save_without_admin_role_is_void uid now id st db :
  has_role db uid role_admin = false ->
  AdminComplaintDetail.status st <> resolved
  \/ Js.all_space (AdminComplaintDetail.adminNote st) = false ->
  (forall jc, AdminComplaintDetail.complaint st = Some jc ->
              Complaint.status (row jc) <> resolved) ->
  exists db' st',
    AdminComplaintDetail.handleSave uid now id st db
    = (AdminComplaintDetail.Updated_successfully, db', st') /\
    complaints db' = complaints db /\
    complaint_status_history db' = complaint_status_history db /\
    profiles db' = profiles db /\ user_roles db' = user_roles db /\
    attachments db' = attachments db /\ storage_objects db' = storage_objects db.
Proof.
  intros Hadm Hform Hpage. unfold AdminComplaintDetail.handleSave.
  assert (G1 : ComplaintStatus_eqb (AdminComplaintDetail.status st) resolved
               && negb (Js.truthy (Js.trim (AdminComplaintDetail.adminNote st)))
               = false).
  { rewrite JsFacts.truthy_trim, negb_involutive.
    destruct Hform as [Hs|Hn]; [|rewrite Hn; apply andb_false_r].
    destruct (ComplaintStatus_eqb (AdminComplaintDetail.status st) resolved) eqn:E;
      [|reflexivity].
    apply StoreFacts.ComplaintStatus_eqb_eq in E. contradiction. }
  assert (G2 : match AdminComplaintDetail.complaint st with
               | Some c0 => ComplaintStatus_eqb (Complaint.status (row c0)) resolved
               | None => false
               end = false).
  { destruct (AdminComplaintDetail.complaint st) as [jc|] eqn:Ec; [|reflexivity].
    destruct (ComplaintStatus_eqb (Complaint.status (row jc)) resolved) eqn:E;
      [|reflexivity].
    apply StoreFacts.ComplaintStatus_eqb_eq in E. exfalso.
    exact (Hpage jc eq_refl E). }
  rewrite G1, G2, (UpdateFacts.non_admin_update_is_void db uid now id _ Hadm).
  do 2 eexists. split; [reflexivity|]. repeat split.
Qed.

Lemma save_without_admin_role_is_void_witness :
  exists db' st',
    AdminComplaintDetail.handleSave (Some Example.bob) 9 Example.chair_id
      (Example.with_form in_progress "mine now" Example.blank_page) Example.submitted
    = (AdminComplaintDetail.Updated_successfully, db', st') /\
    complaints db' = complaints Example.submitted.
Proof.
  destruct (save_without_admin_role_is_void (Some Example.bob) 9 Example.chair_id
              (Example.with_form in_progress "mine now" Example.blank_page)
              Example.submitted)
    as (db' & st' & H1 & H2 & _).
  - vm_compute. reflexivity.
  - left. discriminate.
  - intros jc H. discriminate.
  - exists db', st'. split; assumption.
Defined.

(** X7. A note that is still longer than 5000 characters after
    trimming passes the page's guards and is refused by the table's
    CHECK constraint: the admin's save ends in "Update failed" and
    nothing is written. *)
Theorem overlong_note_is_refused db uid now c st :
  In c (complaints db) ->
  has_role db uid role_admin = true ->
  (forall jc, AdminComplaintDetail.complaint st = Some jc ->
              Complaint.status (row jc) <> resolved) ->
  (5000 < char_length (Js.trim (AdminComplaintDetail.adminNote st)))%Z ->
  AdminComplaintDetail.handleSave uid now (Complaint.id c) st db
  = (AdminComplaintDetail.Update_failed check_violation, db, st).
Proof.
  intros Hin Hadm Hpage Hlen. unfold AdminComplaintDetail.handleSave.
  assert (Ht : Js.truthy (Js.trim (AdminComplaintDetail.adminNote st)) = true).
  { destruct (Js.trim (AdminComplaintDetail.adminNote st)); [|reflexivity].
    cbn in Hlen. lia. }
  rewrite Ht, andb_false_r.
  assert (G2 : match AdminComplaintDetail.complaint st with
               | Some c0 => ComplaintStatus_eqb (Complaint.status (row c0)) resolved
               | None => false
               end = false).
  { destruct (AdminComplaintDetail.complaint st) as [jc|] eqn:Ec; [|reflexivity].
    destruct (ComplaintStatus_eqb (Complaint.status (row jc)) resolved) eqn:E;
      [|reflexivity].
    apply StoreFacts.ComplaintStatus_eqb_eq in E. exfalso.
    exact (Hpage jc eq_refl E). }
  rewrite G2. unfold update_complaints.
  rewrite (FrameFacts.update_rows_check_violation _ now _ (complaints db) c Hin).
  - reflexivity.
  - rewrite String.eqb_refl. unfold Policy.complaints_update_using.
    rewrite Hadm. reflexivity.
  - unfold complaint_checks. cbn -[Js.trim char_length Z.ltb Z.leb].
    unfold Js.or_null. rewrite Ht.
    cbn -[Js.trim char_length Z.ltb Z.leb].
    assert (E : (char_length (Js.trim (AdminComplaintDetail.adminNote st)) <=? 5000)%Z
                = false) by (apply Z.leb_gt; exact Hlen).
    rewrite E. apply andb_false_r.
Qed.

Lemma overlong_note_is_refused_witness :
  fst (fst (AdminComplaintDetail.handleSave (Some Example.carol) 9 Example.chair_id
              (Example.with_form in_progress (Example.zeros (S (50 * 100)))
                 Example.loaded_page)
              Example.submitted))
  = AdminComplaintDetail.Update_failed check_violation.
Proof.
  pose proof (overlong_note_is_refused Example.submitted (Some Example.carol) 9
                (Complaint.mk Example.chair_id Example.alice "Broken chair"
                   cat_working_hub "The chair in hub 2 is broken"
                   (Some Example.chair_attachment_id) open None 5 5)
                (Example.with_form in_progress (Example.zeros (S (50 * 100)))
                   Example.loaded_page)) as H.
  cbn [Complaint.id] in H. rewrite H.
  - reflexivity.
  - vm_compute. left. reflexivity.
  - vm_compute. reflexivity.
  - intros jc Hjc. vm_compute in Hjc. injection Hjc as <-. discriminate.
  - vm_compute. reflexivity.
Defined.

(** X8. Whatever the caller and the form, a save leaves every complaint
    where it is with its id, student, title, category, description,
    attachment and creation time; complaints with another id are not
    touched at all; profiles, roles, attachments and blobs are as
    before, and the ledger has kept all its rows. *)
Theorem save_writes_only_status_note_and_time uid now id st db :
  let db' := snd (fst (AdminComplaintDetail.handleSave uid now id st db)) in
  map fixed_columns (complaints db') = map fixed_columns (complaints db) /\
  (forall c, In c (complaints db) -> Complaint.id c <> id -> In c (complaints db')) /\
  profiles db' = profiles db /\ user_roles db' = user_roles db /\
  attachments db' = attachments db /\ storage_objects db' = storage_objects db /\
  exists added, complaint_status_history db' = complaint_status_history db ++ added.
Proof.
  assert (Hsame : map fixed_columns (complaints db) = map fixed_columns (complaints db) /\
                  (forall c, In c (complaints db) -> Complaint.id c <> id ->
                             In c (complaints db)) /\
                  profiles db = profiles db /\ user_roles db = user_roles db /\
                  attachments db = attachments db /\
                  storage_objects db = storage_objects db /\
                  exists added, complaint_status_history db
                                = complaint_status_history db ++ added).
  { repeat split; auto. exists []. rewrite app_nil_r. reflexivity. }
  unfold AdminComplaintDetail.handleSave.
  destruct (ComplaintStatus_eqb (AdminComplaintDetail.status st) resolved && _);
    [exact Hsame|].
  destruct (match AdminComplaintDetail.complaint st with
            | Some c0 => ComplaintStatus_eqb (Complaint.status (row c0)) resolved
            | None => false
            end); [exact Hsame|].
  destruct (update_complaints uid now id _ db) as [[n db1]|e] eqn:Hupd;
    [|exact Hsame].
  cbn [fst snd].
  destruct (FrameFacts.update_complaints_frame _ _ _ _ _ _ _ Hupd)
    as (Hc & Hp & Hu & Ha & Ho & Hh).
  repeat split; try assumption.
  - rewrite Hc, map_map. apply map_ext. intros r.
    destruct (String.eqb (Complaint.id r) id && _); reflexivity.
  - intros c Hin Hne. rewrite Hc. apply in_map_iff. exists c. split; [|exact Hin].
    apply String.eqb_neq in Hne. rewrite Hne. reflexivity.
Qed.

(* ================================================================== *)
(** * Submitting: validation, stored rows, failures *)
(* ================================================================== *)

Module FormFacts.

Lemma validate_iff lo hi value :
  validateField value (zod_trim_min_max lo hi) = true
  <-> (lo <= char_length (Js.trim value) <= hi)%Z.
Proof.
  split; [apply HandlerFacts.zod_accepts|].
  intros [H1 H2]. unfold validateField, zod_trim_min_max.
  apply Z.leb_le in H1, H2. rewrite H1, H2. reflexivity.
Qed.

Lemma truthy_iff s : Js.truthy s = true <-> s <> EmptyString.
Proof. destruct s; simpl; split; congruence. Qed.

Lemma category_of_label_sound s c :
  category_of_label s = Some c -> category_label c = s.
Proof.
  unfold category_of_label. intros H. apply find_some in H.
  destruct H as [_ H]. apply String.eqb_eq. exact H.
Qed.

Lemma category_of_label_complete c : category_of_label (category_label c) = Some c.
Proof. destruct c; reflexivity. Qed.

(** The row a successful INSERT of a complaint stored. *)
Lemma insert_complaint_row uid now v db c db' :
  insert_complaint uid now v db = Ok (c, db') ->
  exists cat,
    category_of_label (ci_category v) = Some cat /\
    c = Complaint.mk (entropy db (drawn db)) (ci_student_id v) (ci_title v) cat
          (ci_description v) (ci_attachment_id v) open None now now /\
    complaint_checks c = true /\
    profile_exists db (ci_student_id v) = true /\
    null_or (attachment_exists db) (ci_attachment_id v) = true.
Proof.
  unfold insert_complaint. intros H. tx_inv H.
  match goal with
  | Hc : match category_of_label _ with _ => _ end = Ok ?a |- _ =>
      destruct (category_of_label (ci_category v)) as [cat|] eqn:Ecat;
        [injection Hc as <- | discriminate]
  end.
  exists cat. unfold profile_exists, attachment_exists in *. cbn in *.
  repeat split; assumption.
Qed.

End FormFacts.

(** X9. The form is sent exactly when the trimmed title has 1 to 120
    characters, the trimmed description 1 to 5000 and a category is
    chosen; otherwise the handler stops before any request, the
    database is untouched, and the "Category required" toast is shown
    exactly when no category is chosen. *)
Theorem submit_validation user date_now now form db :
  let valid :=
    (1 <= char_length (Js.trim (form_title form)) <= 120)%Z /\
    (1 <= char_length (Js.trim (form_description form)) <= 5000)%Z /\
    form_category form <> EmptyString in
  (valid -> forall b, fst (handleSubmit user date_now now form db) <> Not_submitted b) /\
  (~ valid ->
   handleSubmit user date_now now form db
   = (Not_submitted (negb (Js.truthy (form_category form))), db)).
Proof.
  cbv zeta. unfold handleSubmit, titleSchema, descriptionSchema.
  destruct (validateField (form_title form) (zod_trim_min_max 1 120)) eqn:Et;
    destruct (validateField (form_description form) (zod_trim_min_max 1 5000)) eqn:Ed;
    destruct (Js.truthy (form_category form)) eqn:Ec; cbn [negb orb];
    try (split; [intros (Ht & Hd & Hc) b;
                 apply FormFacts.validate_iff in Ht, Hd;
                 apply FormFacts.truthy_iff in Hc; congruence
                | intros _; reflexivity]).
  split.
  - intros _ b.
    destruct (form_file form) as [file|]; destruct user as [uid|];
      try destruct (upload_step uid date_now now file db) as [[aid|e] db1];
      try destruct (insert_complaint _ _ _ _) as [[c db2]|e'];
      discriminate.
  - intros Hn. exfalso. apply Hn.
    apply FormFacts.validate_iff in Et, Ed. apply FormFacts.truthy_iff in Ec. auto.
Qed.

Lemma submit_validation_witness :
  handleSubmit (Some Example.alice) 1700 5
    (mkNewComplaintForm "   " "" "The chair in hub 2 is broken" None) Example.signed_up
  = (Not_submitted true, Example.signed_up).
Proof.
  apply (proj2 (submit_validation (Some Example.alice) 1700 5
                  (mkNewComplaintForm "   " "" "The chair in hub 2 is broken" None)
                  Example.signed_up)).
  intros (H & _). vm_compute in H. destruct H as [H _]. apply H. reflexivity.
Defined.

(** The validation at characters outside ASCII: a title of no-break
    spaces is blank and stops the submission; accented letters count
    once each, so 120 of them pass and 121 do not. *)
Lemma validation_trims_and_counts_characters :
  handleSubmit (Some Example.alice) 1700 5
    (mkNewComplaintForm (Scenario.copies 3 Scenario.nbsp) "other"
       "The chair in hub 2 is broken" None) Example.signed_up
  = (Not_submitted false, Example.signed_up) /\
  validateField (Scenario.copies 61 Scenario.e_acute) titleSchema = true /\
  validateField (Scenario.copies 120 Scenario.e_acute) titleSchema = true /\
  validateField (Scenario.copies 121 Scenario.e_acute) titleSchema = false.
Proof.
  split; [reflexivity | vm_compute; repeat split].
Qed.

Module UploadFacts.

(** A submission that succeeded, taken apart: the form had passed the
    validation, the upload step (if a file was attached) had succeeded,
    and the INSERT of the complaint ran on what that step left. *)
Lemma handleSubmit_inv user date_now now form db db' :
  handleSubmit (Some user) date_now now form db = (Complaint_submitted, db') ->
  validateField (form_title form) titleSchema = true /\
  validateField (form_description form) descriptionSchema = true /\
  exists db1 attachmentId c,
    ((form_file form = None /\ db1 = db /\ attachmentId = None)
     \/ (exists file aid,
           form_file form = Some file /\ attachmentId = Some aid /\
           upload_step user date_now now file db = (Ok aid, db1))) /\
    insert_complaint (Some user) now
      (mkComplaintInsert user (Js.trim (form_title form)) (form_category form)
         (Js.trim (form_description form)) attachmentId) db1 = Ok (c, db').
Proof.
  unfold handleSubmit.
  destruct (validateField (form_title form) titleSchema);
    destruct (validateField (form_description form) descriptionSchema);
    destruct (Js.truthy (form_category form)); cbn [negb orb];
    try discriminate.
  destruct (form_file form) as [file|].
  - destruct (upload_step user date_now now file db) as [[aid|e] db1] eqn:Hup;
      [|discriminate].
    destruct (insert_complaint _ _ _ db1) as [[c db2]|e] eqn:Hins;
      intros H; [|discriminate].
    injection H as <-. repeat split. exists db1, (Some aid), c. split; [|exact Hins].
    right. exists file, aid. auto.
  - destruct (insert_complaint _ _ _ db) as [[c db2]|e] eqn:Hins;
      intros H; [|discriminate].
    injection H as <-. repeat split. exists db, None, c. split; [|exact Hins].
    left. auto.
Qed.

(** The head of a split: free of the separator, and followed by the
    separator whenever there is a second segment. *)
Lemma split_head sep s : forall x l,
  Js.split sep s = x :: l ->
  mentions sep x = false /\
  ((l = [] /\ s = x)
   \/ exists rest, s = (x ++ String sep rest)%string /\ l = Js.split sep rest).
Proof.
  induction s as [|c s IH]; intros x l H; cbn in H.
  - injection H as <- <-. split; [reflexivity | left; auto].
  - destruct (Ascii.eqb c sep) eqn:E.
    + injection H as <- <-. split; [reflexivity|]. right. exists s.
      apply Ascii.eqb_eq in E. subst c. auto.
    + destruct (Js.split sep s) as [|seg rest'] eqn:Es.
      * exfalso. exact (JsFacts.split_not_nil _ _ Es).
      * injection H as <- <-. destruct (IH seg rest' eq_refl) as [Hm Hcase].
        split; [cbn; rewrite E, Hm; reflexivity|].
        destruct Hcase as [[-> ->]|(rest & -> & ->)]; [left; auto|].
        right. exists rest. auto.
Qed.

(** The first folder of a name, read backwards. *)
Lemma first_folder_inv name seg :
  nth_error (foldername name) 0 = Some seg ->
  mentions "/" seg = false /\ exists rest, name = (seg ++ String "/" rest)%string.
Proof.
  unfold foldername. destruct (Js.split "/" name) as [|x l] eqn:E;
    [discriminate|].
  destruct (split_head _ _ _ _ E) as [Hm Hcase].
  destruct l as [|y l']; [discriminate|]. cbn. intros H. injection H as <-.
  split; [exact Hm|].
  destruct Hcase as [[H _]|(rest & -> & _)]; [discriminate | eauto].
Qed.

Lemma split_app sep a b :
  Js.split sep (a ++ String sep b) = Js.split sep a ++ Js.split sep b.
Proof.
  induction a as [|c a IH]; cbn.
  - rewrite Ascii.eqb_refl. reflexivity.
  - rewrite IH. destruct (Ascii.eqb c sep); [reflexivity|].
    destruct (Js.split sep a) as [|seg rest] eqn:E; [|reflexivity].
    exfalso. exact (JsFacts.split_not_nil _ _ E).
Qed.

Lemma split_plain sep s : mentions sep s = false -> Js.split sep s = [s].
Proof.
  induction s as [|c s IH]; cbn; intros H; [reflexivity|].
  apply orb_false_iff in H. destruct H as [Hc Hs].
  rewrite Hc, (IH Hs). reflexivity.
Qed.

Lemma pop_snoc l x : Js.pop (l ++ [x]) = Some x.
Proof. unfold Js.pop. rewrite rev_app_distr. reflexivity. Qed.

(** The extension [handleSubmit] takes from a file name. *)
Lemma extension_after_last_dot pre ext :
  mentions "." ext = false ->
  Js.pop (Js.split "." (pre ++ String "." ext)) = Some ext.
Proof.
  intros H. rewrite split_app, (split_plain _ _ H). apply pop_snoc.
Qed.

Lemma extension_without_dot name :
  mentions "." name = false -> Js.pop (Js.split "." name) = Some name.
Proof. intros H. rewrite (split_plain _ _ H). reflexivity. Qed.

Lemma find_app_new {A} (f : A -> bool) l x :
  (forall y, In y l -> f y = false) -> f x = true -> find f (l ++ [x]) = Some x.
Proof.
  induction l as [|y l IH]; cbn; intros Hl Hx; [rewrite Hx; reflexivity|].
  rewrite (Hl y (or_introl eq_refl)). apply IH; [|exact Hx].
  intros z Hz. apply Hl. right. exact Hz.
Qed.

End UploadFacts.

(** X10. The complaint a successful submission stores carries the
    trimmed title and description of the form (1 to 120 and 1 to 5000
    characters), the category whose label the form held, the server
    time as creation and update time, and the attachment of the upload
    step (none without a file); it is the last row of the table and the
    submitting user has a profile. *)
Theorem submitted_row_is_the_trimmed_form user date_now now form db db' :
  handleSubmit (Some user) date_now now form db = (Complaint_submitted, db') ->
  exists c,
    complaints db' = complaints db ++ [c] /\
    Complaint.student_id c = user /\
    Complaint.title c = Js.trim (form_title form) /\
    Complaint.description c = Js.trim (form_description form) /\
    category_label (Complaint.category c) = form_category form /\
    Complaint.created_at c = now /\ Complaint.updated_at c = now /\
    (1 <= char_length (Complaint.title c) <= 120)%Z /\
    (1 <= char_length (Complaint.description c) <= 5000)%Z /\
    profile_exists db user = true /\
    (form_file form = None -> Complaint.attachment_id c = None) /\
    (forall aid, Complaint.attachment_id c = Some aid ->
                 exists a, In a (attachments db') /\ Attachment.id a = aid
                           /\ Attachment.owner_user_id a = user).
Proof.
  intros H.
  destruct (UploadFacts.handleSubmit_inv _ _ _ _ _ _ H)
    as (Ht & Hd & db1 & att & c & Hcase & Hins).
  apply FormFacts.validate_iff in Ht, Hd.
  destruct (FormFacts.insert_complaint_row _ _ _ _ _ _ Hins)
    as (cat & Hcat & Hc & _ & Hprof & _).
  destruct (insert_complaint_ok _ _ _ _ _ _ Hins)
    as (h & Hcs & _ & _ & _ & Hatt & _).
  apply FormFacts.category_of_label_sound in Hcat. cbn in Hcat, Hprof.
  assert (Hdb1 : complaints db1 = complaints db /\ profiles db1 = profiles db).
  { destruct Hcase as [(_ & -> & _)|(file & aid & _ & _ & Hup)]; [auto|].
    destruct (FrameFacts.upload_step_frame _ _ _ _ _ _ _ Hup) as (H1 & _ & H2 & _).
    auto. }
  destruct Hdb1 as [Hc1 Hp1].
  exists c. rewrite Hcs, Hc1. subst c. cbn.
  repeat split; try assumption; try lia.
  - unfold profile_exists in *. rewrite <- Hp1. exact Hprof.
  - intros Hnone. destruct Hcase as [(_ & _ & ->)|(file & aid & Hf & _)];
      [reflexivity | congruence].
  - intros aid Haid.
    destruct Hcase as [(_ & _ & ->)|(file & aid' & _ & -> & Hup)]; [discriminate|].
    injection Haid as ->.
    destruct (SubmitFacts.upload_step_ok _ _ _ _ _ _ _ Hup)
      as (a & Ha & Hid & Hown & _).
    exists a. rewrite Hatt, Ha. repeat split; try assumption.
    apply in_or_app. right. left. reflexivity.
Qed.

Lemma submitted_row_is_the_trimmed_form_witness :
  exists c,
    complaints Example.submitted = complaints Example.signed_up ++ [c] /\
    Complaint.title c = "Broken chair" /\
    Complaint.category c = cat_working_hub.
Proof.
  destruct (submitted_row_is_the_trimmed_form Example.alice 1700 5 Example.chair_form
              Example.signed_up Example.submitted)
    as (c & H1 & _ & H2 & _ & H3 & _).
  - vm_compute. reflexivity.
  - exists c. split; [exact H1|]. split; [exact H2|].
    destruct (Complaint.category c); cbn in H3; try discriminate. reflexivity.
Defined.

(** X11. A submission that does not end in "Complaint submitted" has
    created no complaint and no ledger entry, and has changed no
    profile and no role; at most the blob and the attachment record of
    its upload step stay behind. *)
Theorem failed_submission_creates_no_complaint user date_now now form db :
  fst (handleSubmit user date_now now form db) <> Complaint_submitted ->
  let db' := snd (handleSubmit user date_now now form db) in
  complaints db' = complaints db /\
  complaint_status_history db' = complaint_status_history db /\
  profiles db' = profiles db /\ user_roles db' = user_roles db /\
  (exists l, attachments db' = attachments db ++ l) /\
  (exists l, storage_objects db' = storage_objects db ++ l).
Proof.
  assert (Hsame : complaints db = complaints db /\
                  complaint_status_history db = complaint_status_history db /\
                  profiles db = profiles db /\ user_roles db = user_roles db /\
                  (exists l, attachments db = attachments db ++ l) /\
                  (exists l, storage_objects db = storage_objects db ++ l)).
  { repeat split; exists []; rewrite app_nil_r; reflexivity. }
  unfold handleSubmit.
  destruct (negb (validateField (form_title form) titleSchema) || _ || _);
    [intros _; exact Hsame|].
  destruct (form_file form) as [file|]; destruct user as [uid|];
    try (intros _; exact Hsame).
  - destruct (upload_step uid date_now now file db) as [[aid|e] db1] eqn:Hup.
    + destruct (insert_complaint _ _ _ db1) as [[c db2]|e] eqn:Hins; cbn [fst snd].
      * intros Hne. exfalso. apply Hne. reflexivity.
      * intros _. exact (FrameFacts.upload_step_frame _ _ _ _ _ _ _ Hup).
    + cbn [fst snd]. intros _.
      exact (FrameFacts.upload_step_frame _ _ _ _ _ _ _ Hup).
  - destruct (insert_complaint _ _ _ db) as [[c db2]|e] eqn:Hins; cbn [fst snd].
    + intros Hne. exfalso. apply Hne. reflexivity.
    + intros _. exact Hsame.
Qed.

Lemma failed_submission_creates_no_complaint_witness :
  fst (handleSubmit (Some Example.alice) 1700 5
         (mkNewComplaintForm "Broken chair" "furniture" "The chair is broken" None)
         Example.signed_up)
  = Submission_failed invalid_enum_input /\
  complaints (snd (handleSubmit (Some Example.alice) 1700 5
                     (mkNewComplaintForm "Broken chair" "furniture"
                        "The chair is broken" None) Example.signed_up))
  = complaints Example.signed_up.
Proof.
  split; [vm_compute; reflexivity|].
  destruct (failed_submission_creates_no_complaint (Some Example.alice) 1700 5
              (mkNewComplaintForm "Broken chair" "furniture" "The chair is broken" None)
              Example.signed_up) as (H & _).
  - vm_compute. discriminate.
  - exact H.
Defined.

Module BlobFacts.

(** The upload goes through for a file within the bucket's limits, into
    the caller's own folder, under a name not yet taken. *)
Lemma storage_upload_succeeds uid name f db :
  (file_size f <= 10485760)%Z ->
  In (file_type f) validTypes ->
  uid_owns_folder (Some uid) name = true ->
  existsb (same_object "complaint-attachments" name) (storage_objects db) = false ->
  storage_upload (Some uid) "complaint-attachments" name f db
  = Ok (tt, with_objects
              (storage_objects db ++
               [StorageObject.mk "complaint-attachments" name (file_type f)
                  (file_size f)]) db).
Proof.
  intros Hsz Hty Hown Hfree.
  apply array_includes_In in Hty.
  assert (Hexp : ((file_type f =? "application/pdf")%string
                  || ((file_type f =? "image/jpeg")%string
                      || ((file_type f =? "image/png")%string
                          || ((file_type f =? "image/jpg")%string || false)))) = true)
    by exact Hty.
  apply Z.leb_le in Hsz.
  unfold storage_upload, bind. cbn -[uid_owns_folder same_object].
  rewrite Hsz. cbn -[uid_owns_folder same_object].
  rewrite Hexp. cbn -[uid_owns_folder same_object].
  rewrite Hown. cbn -[uid_owns_folder same_object].
  rewrite Hfree. reflexivity.
Qed.

(** A name already taken in the bucket is not overwritten. *)
Lemma storage_upload_collides uid name f db :
  (file_size f <= 10485760)%Z ->
  In (file_type f) validTypes ->
  uid_owns_folder (Some uid) name = true ->
  existsb (same_object "complaint-attachments" name) (storage_objects db) = true ->
  storage_upload (Some uid) "complaint-attachments" name f db
  = Err object_already_exists.
Proof.
  intros Hsz Hty Hown Htaken.
  apply array_includes_In in Hty.
  assert (Hexp : ((file_type f =? "application/pdf")%string
                  || ((file_type f =? "image/jpeg")%string
                      || ((file_type f =? "image/png")%string
                          || ((file_type f =? "image/jpg")%string || false)))) = true)
    by exact Hty.
  apply Z.leb_le in Hsz.
  unfold storage_upload, bind. cbn -[uid_owns_folder same_object].
  rewrite Hsz. cbn -[uid_owns_folder same_object].
  rewrite Hexp. cbn -[uid_owns_folder same_object].
  rewrite Hown. cbn -[uid_owns_folder same_object].
  rewrite Htaken. reflexivity.
Qed.

(** The INSERT of an attachment whose row breaks a CHECK aborts. *)
Lemma insert_attachment_check_violation uid now v db :
  attachment_checks
    (Attachment.mk (entropy db (drawn db)) (ai_owner_user_id v) None
       (ai_original_filename v) (ai_stored_path v) (ai_mime_type v)
       (ai_byte_size v) now) = false ->
  insert_attachment uid now v db = Err check_violation.
Proof.
  intros H. unfold insert_attachment, bind. cbn -[attachment_checks].
  rewrite H. reflexivity.
Qed.

Lemma upload_name_in_own_folder uid date_now file :
  is_uuid_text uid = true ->
  uid_owns_folder (Some uid) (upload_name uid date_now file) = true.
Proof.
  intros H. unfold upload_name. apply HandlerFacts.upload_path_in_own_folder.
  exact H.
Qed.

End BlobFacts.

(** X12. An empty file of an allowed type passes the page's file check
    and the bucket, and is then refused by the CHECK [byte_size > 0] of
    the attachments table: the submission fails, the blob stays in the
    bucket without an attachment record, and no complaint is created. *)
Theorem empty_file_leaves_an_orphaned_blob uid date_now now form f db :
  is_uuid_text uid = true ->
  (1 <= char_length (Js.trim (form_title form)) <= 120)%Z ->
  (1 <= char_length (Js.trim (form_description form)) <= 5000)%Z ->
  form_category form <> EmptyString ->
  form_file form = Some f ->
  In (file_type f) validTypes ->
  file_size f = 0%Z ->
  existsb (same_object "complaint-attachments" (upload_name uid date_now f))
    (storage_objects db) = false ->
  handleFileChange (Some f) None = (Some f, None) /\
  exists db',
    handleSubmit (Some uid) date_now now form db
    = (Submission_failed check_violation, db') /\
    storage_objects db' =
      storage_objects db ++
      [StorageObject.mk "complaint-attachments" (upload_name uid date_now f)
         (file_type f) 0%Z] /\
    attachments db' = attachments db /\
    complaints db' = complaints db /\
    complaint_status_history db' = complaint_status_history db.
Proof.
  intros Huuid Ht Hd Hc Hfile Hty Hsz Hfree. split.
  - unfold handleFileChange. apply array_includes_In in Hty. rewrite Hty, Hsz.
    reflexivity.
  - apply FormFacts.validate_iff in Ht, Hd. apply FormFacts.truthy_iff in Hc.
    unfold handleSubmit, titleSchema, descriptionSchema.
    rewrite Ht, Hd, Hc, Hfile. cbn [negb orb].
    unfold upload_step. fold (upload_name uid date_now f).
    rewrite (BlobFacts.storage_upload_succeeds uid _ f db);
      [ | rewrite Hsz; lia | exact Hty
        | apply BlobFacts.upload_name_in_own_folder; exact Huuid | exact Hfree].
    rewrite BlobFacts.insert_attachment_check_violation.
    + eexists. split; [reflexivity|]. rewrite Hsz. cbn. repeat split.
    + unfold attachment_checks. cbn -[char_length]. rewrite Hsz.
      rewrite !andb_false_r. reflexivity.
Qed.

Lemma empty_file_leaves_an_orphaned_blob_witness :
  exists db',
    handleSubmit (Some Example.bob) 1800 7
      (mkNewComplaintForm "Wobbly desk" "working_hub" "Next to the broken chair"
         (Some (mkFile "empty.pdf" "application/pdf" 0%Z)))
      Example.submitted
    = (Submission_failed check_violation, db') /\
    attachments db' = attachments Example.submitted /\
    complaints db' = complaints Example.submitted.
Proof.
  destruct (empty_file_leaves_an_orphaned_blob Example.bob 1800 7
              (mkNewComplaintForm "Wobbly desk" "working_hub" "Next to the broken chair"
                 (Some (mkFile "empty.pdf" "application/pdf" 0%Z)))
              (mkFile "empty.pdf" "application/pdf" 0%Z) Example.submitted)
    as (_ & db' & H1 & _ & H2 & H3 & _).
  - vm_compute. reflexivity.
  - vm_compute. split; discriminate.
  - vm_compute. split; discriminate.
  - discriminate.
  - reflexivity.
  - left. reflexivity.
  - reflexivity.
  - vm_compute. reflexivity.
  - exists db'. repeat split; assumption.
Defined.

(** X13. Blob names are the user's id, the client's clock and the
    extension: after a submission with a file, a second submission by
    the same user that reads the same [Date.now()] with a file of the
    same extension hits the stored name; the bucket does not overwrite,
    the submission fails and nothing is written. *)
Theorem same_millisecond_upload_collides
  uid date_now now form f db db' now2 form2 f2 :
  handleSubmit (Some uid) date_now now form db = (Complaint_submitted, db') ->
  form_file form = Some f ->
  (1 <= char_length (Js.trim (form_title form2)) <= 120)%Z ->
  (1 <= char_length (Js.trim (form_description form2)) <= 5000)%Z ->
  form_category form2 <> EmptyString ->
  form_file form2 = Some f2 ->
  In (file_type f2) validTypes ->
  (file_size f2 <= 10485760)%Z ->
  Js.pop (Js.split "." (file_name f2)) = Js.pop (Js.split "." (file_name f)) ->
  handleSubmit (Some uid) date_now now2 form2 db'
  = (Submission_failed object_already_exists, db').
Proof.
  intros H Hfile Ht Hd Hc Hfile2 Hty Hsz Hext.
  destruct (UploadFacts.handleSubmit_inv _ _ _ _ _ _ H)
    as (_ & _ & db1 & att & c & Hcase & Hins).
  destruct Hcase as [(Hnone & _)|(file & aid & Hf & _ & Hup)]; [congruence|].
  assert (file = f) by congruence. subst file.
  unfold upload_step in Hup. fold (upload_name uid date_now f) in Hup.
  destruct (storage_upload (Some uid) "complaint-attachments"
              (upload_name uid date_now f) f db) as [[u dbu]|e] eqn:Hs;
    [|discriminate].
  destruct (insert_attachment _ _ _ dbu) as [[a dba]|e] eqn:Ha; [|discriminate].
  injection Hup as _ <-.
  apply SubmitFacts.storage_upload_ok in Hs. destruct Hs as [-> Hown].
  apply SubmitFacts.insert_attachment_ok in Ha. destruct Ha as (-> & _).
  destruct (insert_complaint_ok _ _ _ _ _ _ Hins) as (h & _ & _ & _ & _ & _ & Hobj & _).
  cbn in Hobj.
  assert (Hname : upload_name uid date_now f2 = upload_name uid date_now f)
    by (unfold upload_name; rewrite Hext; reflexivity).
  apply FormFacts.validate_iff in Ht, Hd. apply FormFacts.truthy_iff in Hc.
  unfold handleSubmit, titleSchema, descriptionSchema.
  rewrite Ht, Hd, Hc, Hfile2. cbn [negb orb].
  unfold upload_step. fold (upload_name uid date_now f2).
  rewrite (BlobFacts.storage_upload_collides uid _ f2 db'); [reflexivity | | | |].
  - exact Hsz.
  - exact Hty.
  - rewrite Hname. exact Hown.
  - rewrite Hname, Hobj, existsb_app. cbn.
    rewrite String.eqb_refl. cbn. apply orb_true_r.
Qed.

Lemma same_millisecond_upload_collides_witness :
  handleSubmit (Some Example.alice) 1700 8
    (mkNewComplaintForm "Second" "other" "Again"
       (Some (mkFile "other.v2.pdf" "application/pdf" 10%Z)))
    Example.submitted
  = (Submission_failed object_already_exists, Example.submitted).
Proof.
  apply (same_millisecond_upload_collides Example.alice 1700 5 Example.chair_form
           Example.receipt Example.signed_up Example.submitted 8
           (mkNewComplaintForm "Second" "other" "Again"
              (Some (mkFile "other.v2.pdf" "application/pdf" 10%Z)))
           (mkFile "other.v2.pdf" "application/pdf" 10%Z)).
  - vm_compute. reflexivity.
  - reflexivity.
  - vm_compute. split; discriminate.
  - vm_compute. split; discriminate.
  - discriminate.
  - reflexivity.
  - left. reflexivity.
  - vm_compute. discriminate.
  - vm_compute. reflexivity.
Defined.

(** X14. The bucket takes a blob only from a signed-in caller, only
    into the bucket [complaint-attachments], only under a name that
    starts with the caller's own id and a slash, and only within the
    size limit and the four listed types; the blob is then the last
    object of the bucket. *)
Theorem upload_only_into_own_folder uid bucket name f db u db' :
  storage_upload uid bucket name f db = Ok (u, db') ->
  exists owner rest,
    uid = Some owner /\
    name = (owner ++ "/" ++ rest)%string /\
    mentions "/" owner = false /\
    bucket = "complaint-attachments" /\
    In (file_type f) validTypes /\
    (file_size f <= 10485760)%Z /\
    storage_objects db' =
      storage_objects db ++
      [StorageObject.mk bucket name (file_type f) (file_size f)].
Proof.
  intros H. pose proof (SubmitFacts.storage_upload_ok _ _ _ _ _ _ _ H) as [Hdb Hown].
  unfold storage_upload in H. tx_inv H.
  match goal with
  | Hb : match find _ buckets with _ => _ end = Ok ?b |- _ =>
      cbn -[String.eqb] in Hb;
      destruct (String.eqb "complaint-attachments" bucket) eqn:Eb;
        [injection Hb as <- | discriminate]
  end.
  apply String.eqb_eq in Eb. subst bucket.
  unfold uid_owns_folder in Hown.
  destruct uid as [owner|]; [|discriminate].
  destruct (nth_error (foldername name) 0) as [seg|] eqn:Eseg; [|discriminate].
  apply String.eqb_eq in Hown. subst seg.
  destruct (UploadFacts.first_folder_inv _ _ Eseg) as (Hm & rest & Hname).
  exists owner, rest. subst db'.
  split; [reflexivity|]. split; [exact Hname|]. split; [exact Hm|].
  split; [reflexivity|]. split; [|split; [|reflexivity]].
  - apply array_includes_In.
    match goal with
    | Hs : Js.array_includes _ (file_type f) = true |- _ => exact Hs
    end.
  - apply Z.leb_le.
    match goal with
    | Hs : (file_size f <=? _)%Z = true |- _ => exact Hs
    end.
Qed.

Lemma upload_only_into_own_folder_witness :
  exists owner rest,
    Some Example.alice = Some owner /\
    "11111111-1111-4111-8111-111111111111/1700.pdf" = (owner ++ "/" ++ rest)%string.
Proof.
  destruct (upload_only_into_own_folder (Some Example.alice) "complaint-attachments"
              "11111111-1111-4111-8111-111111111111/1700.pdf" Example.receipt
              Example.signed_up tt
              (with_objects
                 [StorageObject.mk "complaint-attachments"
                    "11111111-1111-4111-8111-111111111111/1700.pdf"
                    "application/pdf" 2048%Z] Example.signed_up))
    as (owner & rest & H1 & H2 & _).
  - vm_compute. reflexivity.
  - exists owner, rest. split; assumption.
Defined.

(** X15. The name of the blob is
    [<user id>/<Date.now()>.<extension>]: the extension is what follows
    the last dot of the file name, and a file name without a dot is
    taken whole as the extension. *)
Theorem upload_name_extension uid date_now ty sz :
  (forall pre ext,
     mentions "." ext = false ->
     upload_name uid date_now (mkFile (pre ++ "." ++ ext) ty sz)
     = (uid ++ "/" ++ Js.number_to_string date_now ++ "." ++ ext)%string) /\
  (forall name,
     mentions "." name = false ->
     upload_name uid date_now (mkFile name ty sz)
     = (uid ++ "/" ++ Js.number_to_string date_now ++ "." ++ name)%string).
Proof.
  split.
  - intros pre ext H. unfold upload_name. cbn [file_name].
    change (pre ++ "." ++ ext)%string with (pre ++ String "." ext)%string.
    rewrite (UploadFacts.extension_after_last_dot pre ext H). reflexivity.
  - intros name H. unfold upload_name. cbn [file_name].
    rewrite (UploadFacts.extension_without_dot name H). reflexivity.
Qed.

Lemma upload_name_extension_witness :
  upload_name Example.alice 1700 (mkFile "scan.final.jpeg" "image/jpeg" 9%Z)
  = "11111111-1111-4111-8111-111111111111/1700.jpeg" /\
  upload_name Example.alice 1700 (mkFile "README" "image/png" 9%Z)
  = "11111111-1111-4111-8111-111111111111/1700.README".
Proof.
  destruct (upload_name_extension Example.alice 1700 "image/jpeg" 9%Z) as [H1 _].
  destruct (upload_name_extension Example.alice 1700 "image/png" 9%Z) as [_ H2].
  split.
  - exact (H1 "scan.final" "jpeg" eq_refl).
  - exact (H2 "README" eq_refl).
Defined.

Module DownloadFacts.

Lemma storage_upload_fresh uid bucket name f db u db' :
  storage_upload uid bucket name f db = Ok (u, db') ->
  existsb (same_object bucket name) (storage_objects db) = false.
Proof.
  unfold storage_upload. intros H. tx_inv H.
  match goal with
  | Hn : negb _ = true |- _ => apply negb_true_iff in Hn; exact Hn
  end.
Qed.

(** What the upload step stored, in full. *)
Lemma upload_step_stored uid date_now now f db aid db1 :
  upload_step uid date_now now f db = (Ok aid, db1) ->
  attachments db1 =
    attachments db ++
    [Attachment.mk aid uid None (file_name f) (upload_name uid date_now f)
       (file_type f) (file_size f) now] /\
  storage_objects db1 =
    storage_objects db ++
    [StorageObject.mk "complaint-attachments" (upload_name uid date_now f)
       (file_type f) (file_size f)] /\
  ~ In aid (map Attachment.id (attachments db)) /\
  existsb (same_object "complaint-attachments" (upload_name uid date_now f))
    (storage_objects db) = false /\
  uid_owns_folder (Some uid) (upload_name uid date_now f) = true.
Proof.
  unfold upload_step. fold (upload_name uid date_now f).
  destruct (storage_upload (Some uid) "complaint-attachments"
              (upload_name uid date_now f) f db) as [[u dbu]|e] eqn:Hs;
    [|discriminate].
  destruct (insert_attachment _ _ _ dbu) as [[a dba]|e] eqn:Ha; [|discriminate].
  intros H. injection H as <- <-.
  pose proof (storage_upload_fresh _ _ _ _ _ _ _ Hs) as Hfree.
  apply SubmitFacts.storage_upload_ok in Hs. destruct Hs as [-> Hown].
  apply SubmitFacts.insert_attachment_ok in Ha.
  destruct Ha as (-> & -> & _ & Hfresh).
  cbn in *. repeat split; assumption.
Qed.

End DownloadFacts.

(** X16. What was uploaded can be downloaded: after a submission with a
    file, the download of the new complaint's attachment, by the
    submitting student or by an admin, hands out the blob stored under
    the upload name with the type and size of the file. *)
Theorem uploaded_file_can_be_downloaded uid date_now now form f db db' who :
  handleSubmit (Some uid) date_now now form db = (Complaint_submitted, db') ->
  form_file form = Some f ->
  who = Some uid \/ is_admin db' who = true ->
  exists c,
    complaints db' = complaints db ++ [c] /\
    StudentComplaintDetail.downloadAttachment db' who (Some c)
    = Some (StorageObject.mk "complaint-attachments" (upload_name uid date_now f)
              (file_type f) (file_size f)) /\
    admin_downloadAttachment db' who (Some (embed_student db' who c))
    = StudentComplaintDetail.downloadAttachment db' who (Some c).
Proof.
  intros H Hfile Hwho.
  destruct (UploadFacts.handleSubmit_inv _ _ _ _ _ _ H)
    as (_ & _ & db1 & att & c & Hcase & Hins).
  destruct Hcase as [(Hnone & _)|(file & aid & Hf & -> & Hup)]; [congruence|].
  assert (file = f) by congruence. subst file.
  destruct (DownloadFacts.upload_step_stored _ _ _ _ _ _ _ Hup)
    as (Hatt & Hobj & Hfresh & Hfree & Hown).
  destruct (insert_complaint_ok _ _ _ _ _ _ Hins)
    as (h & Hcs & _ & _ & _ & Hatt' & Hobj' & _ & _ & _ & _ & _ & _ & Hlink & _).
  destruct (FrameFacts.upload_step_frame _ _ _ _ _ _ _ Hup) as (Hc1 & _).
  cbn in Hlink. rewrite Hatt in Hatt'. rewrite Hobj in Hobj'. rewrite Hc1 in Hcs.
  set (a := Attachment.mk aid uid None (file_name f) (upload_name uid date_now f)
              (file_type f) (file_size f) now) in *.
  set (blob := StorageObject.mk "complaint-attachments" (upload_name uid date_now f)
                 (file_type f) (file_size f)) in *.
  assert (Hsel : Policy.attachments_select db' who a = true).
  { unfold Policy.attachments_select. destruct Hwho as [->|Hadm].
    - cbn. rewrite String.eqb_refl. reflexivity.
    - rewrite Hadm. apply orb_true_r. }
  assert (Hrow : StudentComplaintDetail.fetchAttachment db' who aid = Some a).
  { unfold StudentComplaintDetail.fetchAttachment, select_attachments.
    rewrite Hatt', !filter_app. cbn [filter]. rewrite Hsel. cbn [filter].
    change (Attachment.id a) with aid. rewrite String.eqb_refl.
    rewrite (ReadFacts.filter_nil (fun x => String.eqb (Attachment.id x) aid)).
    - reflexivity.
    - intros x Hx. apply filter_In in Hx. destruct Hx as [Hx _].
      apply String.eqb_neq. intros E. apply Hfresh. rewrite <- E.
      apply in_map. exact Hx. }
  assert (Hblob : storage_download db' who "complaint-attachments"
                    (upload_name uid date_now f) = Ok blob).
  { unfold storage_download. rewrite Hobj'.
    rewrite (UploadFacts.find_app_new _ (storage_objects db) blob); [reflexivity | |].
    - intros y Hy.
      assert (E : same_object "complaint-attachments" (upload_name uid date_now f) y
                  = false).
      { destruct (same_object _ _ y) eqn:E; [|reflexivity].
        assert (Hex : existsb (same_object "complaint-attachments"
                                 (upload_name uid date_now f)) (storage_objects db)
                      = true) by (apply existsb_exists; exists y; auto).
        congruence. }
      rewrite E. reflexivity.
    - unfold same_object, Policy.objects_select. cbn [blob StorageObject.bucket_id
        StorageObject.name]. rewrite !String.eqb_refl. cbn [andb].
      destruct Hwho as [->|Hadm]; [rewrite Hown | rewrite Hadm, orb_true_r];
        reflexivity. }
  assert (Hdl : StudentComplaintDetail.downloadAttachment db' who (Some c)
                = Some blob).
  { unfold StudentComplaintDetail.downloadAttachment.
    rewrite Hlink, Hrow. cbn [Attachment.stored_path a]. rewrite Hblob. reflexivity. }
  exists c. split; [exact Hcs|]. split; [exact Hdl | reflexivity].
Qed.

Lemma uploaded_file_can_be_downloaded_witness :
  exists c,
    complaints Example.submitted = complaints Example.signed_up ++ [c] /\
    StudentComplaintDetail.downloadAttachment Example.submitted (Some Example.carol)
      (Some c)
    = Some (StorageObject.mk "complaint-attachments"
              (upload_name Example.alice 1700 Example.receipt)
              "application/pdf" 2048%Z).
Proof.
  destruct (uploaded_file_can_be_downloaded Example.alice 1700 5 Example.chair_form
              Example.receipt Example.signed_up Example.submitted (Some Example.carol))
    as (c & H1 & H2 & _).
  - vm_compute. reflexivity.
  - reflexivity.
  - right. vm_compute. reflexivity.
  - exists c. split; assumption.
Defined.

(* ================================================================== *)
(** * Accounts, reachable states and what holds in all of them *)
(* ================================================================== *)

Module AccountFacts.

(** What a successful run of the sign-up trigger did. *)
Lemma handle_new_user_ok new_id new_email meta_full_name meta_role now db u db' :
  handle_new_user new_id new_email meta_full_name meta_role now db = Ok (u, db') ->
  exists role,
    match meta_role with
    | None => role = role_student
    | Some l => role_of_label l = Some role
    end /\
    profiles db' =
      profiles db ++
      [Profile.mk new_id role
         (match meta_full_name with Some n => n | None => "User" end)
         new_email true now now] /\
    user_roles db' =
      user_roles db ++ [UserRole.mk (entropy db (drawn db)) new_id role now] /\
    complaints db' = complaints db /\ attachments db' = attachments db /\
    complaint_status_history db' = complaint_status_history db /\
    storage_objects db' = storage_objects db /\
    ~ In new_id (map Profile.id (profiles db)) /\
    ~ In new_email (map Profile.email (profiles db)).
Proof.
  unfold handle_new_user. intros H. tx_inv H.
  repeat match goal with
         | Hp : ?f ?d = Ok (?x, ?d') |- _ => injection Hp as _ <-
         end.
  match goal with
  | Hr : match meta_role with _ => _ end = Ok ?r |- _ => exists r; split
  end.
  - destruct meta_role as [l|].
    + destruct (role_of_label l); [congruence | discriminate].
    + congruence.
  - cbn. repeat split;
      match goal with
      | Hn : negb (profile_exists _ _ || _) = true |- _ =>
          apply negb_true_iff, orb_false_iff in Hn; destruct Hn as [Hn1 Hn2];
          unfold profile_exists in Hn1
      end.
    + apply (StoreFacts.existsb_id_false Profile.id). exact Hn1.
    + apply (StoreFacts.existsb_id_false Profile.email). exact Hn2.
Qed.

End AccountFacts.

Module ReachFacts.

Lemma commit_ok {A} (m : Tx A) db a db' : m db = Ok (a, db') -> commit m db = db'.
Proof. intros H. unfold commit. rewrite H. reflexivity. Qed.

Lemma sign_up_holds new_id new_email meta_full_name meta_role now db :
  constraints_hold db ->
  constraints_hold
    (commit (handle_new_user new_id new_email meta_full_name meta_role now) db).
Proof.
  intros Hk. unfold commit.
  destruct (handle_new_user _ _ _ _ _ db) as [[u db']|e] eqn:E; [|exact Hk].
  destruct (AccountFacts.handle_new_user_ok _ _ _ _ _ _ _ _ E)
    as (role & _ & _ & _ & Hc & Ha & Hh & _).
  destruct Hk as (H1 & H2 & H3 & H4).
  unfold constraints_hold, complaints_pkey, attachments_pkey, history_complaint_fkey,
    complaints_checked, complaint_exists in *.
  rewrite Hc, Ha, Hh. auto.
Qed.

Lemma step_holds db db' : step db db' -> constraints_hold db -> constraints_hold db'.
Proof.
  intros [id email name role now d | uid now r d] Hk.
  - apply sign_up_holds. exact Hk.
  - apply ConstraintFacts.perform_holds. exact Hk.
Qed.

Lemma reachable_holds db : reachable db -> constraints_hold db.
Proof.
  induction 1 as [e | db db' _ IH Hs].
  - apply ConstraintFacts.empty_holds.
  - exact (step_holds _ _ Hs IH).
Qed.

(** The pages send nothing but requests of the write surface. *)
Lemma handleSubmit_reachable user date_now now form db :
  reachable db -> reachable (snd (handleSubmit user date_now now form db)).
Proof.
  intros Hr. unfold handleSubmit.
  destruct (negb (validateField (form_title form) titleSchema) || _ || _);
    [exact Hr|].
  assert (Hins : forall uid att d, reachable d ->
            reachable (snd (match insert_complaint (Some uid) now
                                    (mkComplaintInsert uid (Js.trim (form_title form))
                                       (form_category form)
                                       (Js.trim (form_description form)) att) d with
                            | Err complaintError => (Submission_failed complaintError, d)
                            | Ok (_, db2) => (Complaint_submitted, db2)
                            end))).
  { intros uid att d Hd.
    destruct (insert_complaint _ _ _ d) as [[c db2]|e] eqn:E; [|exact Hd].
    cbn [snd]. rewrite ApiFacts.insert_complaint_is_row in E.
    rewrite <- (commit_ok _ _ _ _ E).
    exact (reachable_step _ _ Hd
             (step_request (Some uid) now (Insert_complaint _) d)). }
  destruct (form_file form) as [file|]; destruct user as [uid|];
    try exact Hr; try (apply Hins; exact Hr).
  unfold upload_step.
  destruct (storage_upload _ _ _ _ db) as [[u db1]|e] eqn:Hup; [|exact Hr].
  assert (Hr1 : reachable db1).
  { rewrite <- (commit_ok _ _ _ _ Hup).
    exact (reachable_step _ _ Hr
             (step_request (Some uid) now (Upload_object _ _ _) db)). }
  destruct (insert_attachment _ _ _ db1) as [[a db2]|e] eqn:Hatt; [|exact Hr1].
  apply Hins. rewrite ApiFacts.insert_attachment_is_row in Hatt.
  rewrite <- (commit_ok _ _ _ _ Hatt).
  exact (reachable_step _ _ Hr1
           (step_request (Some uid) now (Insert_attachment _) db1)).
Qed.

Lemma handleSave_reachable uid now id st db :
  reachable db ->
  reachable (snd (fst (AdminComplaintDetail.handleSave uid now id st db))).
Proof.
  intros Hr. unfold AdminComplaintDetail.handleSave.
  destruct (ComplaintStatus_eqb (AdminComplaintDetail.status st) resolved && _);
    [exact Hr|].
  destruct (match AdminComplaintDetail.complaint st with
            | Some c0 => ComplaintStatus_eqb (Complaint.status (row c0)) resolved
            | None => false
            end); [exact Hr|].
  destruct (update_complaints uid now id _ db) as [[n db1]|e] eqn:E; [|exact Hr].
  cbn [fst snd]. rewrite ApiFacts.update_complaints_is_rows in E.
  rewrite <- (commit_ok _ _ _ _ E).
  exact (reachable_step _ _ Hr (step_request uid now (Update_complaints _ _) db)).
Qed.

Lemma in_profile_roles db u r :
  In (u, r) (profile_roles db)
  <-> exists p, In p (profiles db) /\ Profile.id p = u /\ Profile.role p = r.
Proof.
  unfold profile_roles. rewrite in_map_iff. split.
  - intros (p & E & Hp). injection E as <- <-. eauto.
  - intros (p & Hp & <- & <-). eauto.
Qed.

Lemma profile_ids db : map Profile.id (profiles db) = map fst (profile_roles db).
Proof. unfold profile_roles. rewrite map_map. reflexivity. Qed.

Lemma roles_agree_same db db' : same_roles db db' -> roles_agree db -> roles_agree db'.
Proof.
  intros [Hp Hu] (H1 & H2 & H3). unfold roles_agree.
  split; [|split].
  - change (NoDup (map Profile.id (profiles db'))).
    rewrite profile_ids, Hp, <- profile_ids. exact H1.
  - intros r Hr. rewrite Hu in Hr. destruct (H2 r Hr) as (p & Hin & Hid & Hrole).
    apply in_profile_roles. rewrite Hp. apply in_profile_roles. eauto.
  - intros p Hin.
    assert (Hq : In (Profile.id p, Profile.role p) (profile_roles db'))
      by (apply in_profile_roles; eauto).
    rewrite Hp in Hq. apply in_profile_roles in Hq.
    destruct Hq as (q & Hq & Hid & Hrole).
    destruct (H3 q Hq) as (r & Hr & Hrid & Hrr).
    exists r. rewrite Hu. repeat split; congruence.
Qed.

Lemma perform_same_roles uid now r db : same_roles db (perform uid now r db).
Proof.
  destruct r; cbn [perform]; apply RoleFacts.commit_same_roles; intros a db' H.
  - exact (RoleFacts.insert_complaint_row_same_roles _ _ _ _ _ _ H).
  - exact (RoleFacts.update_complaint_rows_same_roles _ _ _ _ _ _ _ H).
  - exact (RoleFacts.insert_attachment_row_same_roles _ _ _ _ _ _ H).
  - exact (RoleFacts.insert_history_row_same_roles _ _ _ _ _ _ H).
  - exact (RoleFacts.storage_upload_same_roles _ _ _ _ _ _ _ H).
  - exact (RoleFacts.update_profiles_same_roles _ _ _ _ _ _ _ H).
Qed.

Lemma sign_up_agrees new_id new_email meta_full_name meta_role now db :
  roles_agree db ->
  roles_agree
    (commit (handle_new_user new_id new_email meta_full_name meta_role now) db).
Proof.
  intros Hk. unfold commit.
  destruct (handle_new_user _ _ _ _ _ db) as [[u db']|e] eqn:E; [|exact Hk].
  destruct (AccountFacts.handle_new_user_ok _ _ _ _ _ _ _ _ E)
    as (role & _ & Hp & Hu & _ & _ & _ & _ & Hfresh & _).
  destruct Hk as (H1 & H2 & H3). unfold roles_agree. rewrite Hp, Hu.
  split; [|split].
  - rewrite map_app. cbn. apply ConstraintFacts.NoDup_snoc; assumption.
  - intros r Hr. apply in_app_or in Hr. destruct Hr as [Hr|[<-|[]]].
    + destruct (H2 r Hr) as (p & Hin & Hid & Hrole). exists p.
      split; [apply in_or_app; left; exact Hin | auto].
    + eexists. split; [apply in_or_app; right; left; reflexivity|]. cbn. auto.
  - intros p Hin. apply in_app_or in Hin. destruct Hin as [Hin|[<-|[]]].
    + destruct (H3 p Hin) as (r & Hr & Hid & Hrole). exists r.
      split; [apply in_or_app; left; exact Hr | auto].
    + eexists. split; [apply in_or_app; right; left; reflexivity|]. cbn. auto.
Qed.

Lemma reachable_agrees db : reachable db -> roles_agree db.
Proof.
  induction 1 as [e | db db' _ IH Hs].
  - repeat split; try constructor; intros x [].
  - destruct Hs as [id email name role now d | uid now r d].
    + apply sign_up_agrees. exact IH.
    + exact (roles_agree_same _ _ (perform_same_roles uid now r d) IH).
Qed.

(** The example database is one the application can reach. *)
Lemma example_reachable : reachable Example.later.
Proof.
  unfold Example.later, Example.submitted.
  apply handleSubmit_reachable. apply handleSubmit_reachable.
  unfold Example.signed_up.
  repeat (eapply reachable_step; [|apply step_sign_up]).
  apply reachable_empty.
Qed.

Lemma shared_reachable : reachable Scenario.shared.
Proof.
  unfold Scenario.shared, Scenario.bob_submitted, Example.submitted.
  eapply reachable_step; [|apply step_request].
  apply handleSubmit_reachable. apply handleSubmit_reachable.
  unfold Example.signed_up.
  repeat (eapply reachable_step; [|apply step_sign_up]).
  apply reachable_empty.
Qed.

End ReachFacts.

(** C5, counterexample to the claim as stated, in a state the
    application can reach: Alice has inserted a complaint that names
    the attachment of Bob's photo. Bob is neither its student nor an
    admin. His get of the complaint is answered "no single row", not
    with an authorization error, and the listing of its history
    succeeds with the empty list; but the download of its attachment,
    asked of the store for that complaint, hands Bob the blob: the
    attachment row and the blob are his own, and their policies look
    at their owner alone. *)
Lemma attachment_is_guarded_by_its_owner_only :
  reachable Scenario.shared /\
  has_role Scenario.shared (Some Example.bob) role_admin = false /\
  exists c,
    In c (complaints Scenario.shared) /\
    Complaint.id c = Scenario.shared_id /\
    Complaint.student_id c = Example.alice /\
    single (filter (fun r => String.eqb (Complaint.id r) (Complaint.id c))
              (select_complaints Scenario.shared (Some Example.bob)))
    = Err no_single_row /\
    StudentComplaintDetail.fetchHistory Scenario.shared (Some Example.bob)
      (Complaint.id c) = [] /\
    StudentComplaintDetail.downloadAttachment Scenario.shared (Some Example.bob)
      (Some c)
    = Some (StorageObject.mk "complaint-attachments"
              "22222222-2222-4222-8222-222222222222/1800.jpg" "image/jpg" 4096%Z).
Proof.
  split; [exact ReachFacts.shared_reachable|].
  split; [vm_compute; reflexivity|].
  exists (Complaint.mk Scenario.shared_id Example.alice "Shared photo" cat_other
            "See the photo" (Some Scenario.photo_attachment_id) open None 8 8).
  vm_compute. repeat split. right. right. left. reflexivity.
Qed.

(** X17. The declared constraints are invariants of the application:
    in every state reached from the empty tables by sign-ups and API
    writes, the primary keys of [complaints] and [attachments] are
    unique, every ledger row references an existing complaint and every
    complaint satisfies the CHECK constraints of its table; and they
    still hold after any [handleSubmit] and any [handleSave] run in such
    a state, whoever calls them and whatever the form holds. *)
Theorem reachable_states_keep_the_constraints db :
  reachable db ->
  constraints_hold db
  /\ (forall user date_now now form,
        constraints_hold (snd (handleSubmit user date_now now form db)))
  /\ (forall uid now id st,
        constraints_hold
          (snd (fst (AdminComplaintDetail.handleSave uid now id st db)))).
Proof.
  intros Hr. split; [|split].
  - exact (ReachFacts.reachable_holds _ Hr).
  - intros. apply ReachFacts.reachable_holds.
    apply ReachFacts.handleSubmit_reachable. exact Hr.
  - intros. apply ReachFacts.reachable_holds.
    apply ReachFacts.handleSave_reachable. exact Hr.
Qed.

Lemma reachable_states_keep_the_constraints_witness :
  reachable Example.later /\ constraints_hold Example.later.
Proof.
  split; [exact ReachFacts.example_reachable|].
  destruct (reachable_states_keep_the_constraints Example.later
              ReachFacts.example_reachable) as (H & _).
  exact H.
Defined.

Module AgreeFacts.

Lemma AppRole_eqb_eq a b : AppRole_eqb a b = true <-> a = b.
Proof. destruct a, b; cbn; split; intro; (reflexivity || discriminate). Qed.

Lemma has_role_iff_profile_role db p role :
  roles_agree db -> In p (profiles db) ->
  has_role db (Some (Profile.id p)) role = true <-> Profile.role p = role.
Proof.
  intros (Hnd & H2 & H3) Hp. unfold has_role. rewrite existsb_exists. split.
  - intros (r & Hr & Hb). apply andb_true_iff in Hb. destruct Hb as [Hu Hrole].
    cbn in Hu. apply String.eqb_eq in Hu. apply AppRole_eqb_eq in Hrole.
    destruct (H2 r Hr) as (q & Hq & Hid & Hqr).
    assert (q = p)
      by (apply (StoreFacts.key_unique_inj Profile.id (profiles db));
          [exact Hnd | exact Hq | exact Hp | congruence]).
    subst q. congruence.
  - intros <-. destruct (H3 p Hp) as (r & Hr & Hid & Hrole).
    exists r. split; [exact Hr|]. apply andb_true_iff. split.
    + cbn. apply String.eqb_eq. symmetry. exact Hid.
    + apply AppRole_eqb_eq. exact Hrole.
Qed.

Lemma no_profile_no_role db uid role :
  roles_agree db -> ~ In uid (map Profile.id (profiles db)) ->
  has_role db (Some uid) role = false.
Proof.
  intros (_ & H2 & _) Hn. unfold has_role.
  destruct (existsb _ (user_roles db)) eqn:E; [|reflexivity].
  apply existsb_exists in E. destruct E as (r & Hr & Hb).
  apply andb_true_iff in Hb. destruct Hb as [Hu _].
  cbn in Hu. apply String.eqb_eq in Hu.
  destruct (H2 r Hr) as (q & Hq & Hid & _).
  exfalso. apply Hn. apply in_map_iff. exists q. split; [congruence | exact Hq].
Qed.

(** The caller's own profile row, as [.eq("id", uid).single()] returns
    it. *)
Lemma own_profile_single db p :
  NoDup (map Profile.id (profiles db)) -> In p (profiles db) ->
  filter (fun q => String.eqb (Profile.id q) (Profile.id p))
    (select_profiles db (Some (Profile.id p))) = [p].
Proof.
  intros Hnd Hp. unfold select_profiles.
  assert (Hsel : In p (filter (Policy.profiles_select db (Some (Profile.id p)))
                         (profiles db))).
  { apply filter_In. split; [exact Hp|]. unfold Policy.profiles_select. cbn.
    rewrite String.eqb_refl. reflexivity. }
  apply (StoreFacts.filter_key_unique Profile.id); [|exact Hsel].
  apply ReadFacts.NoDup_map_filter. exact Hnd.
Qed.

Lemma no_profile_none db uid :
  ~ In uid (map Profile.id (profiles db)) ->
  filter (fun q => String.eqb (Profile.id q) uid) (select_profiles db (Some uid)) = [].
Proof.
  intros Hn. apply ReadFacts.filter_nil. intros q Hq.
  unfold select_profiles in Hq. apply filter_In in Hq. destruct Hq as [Hq _].
  apply String.eqb_neq. intros E. apply Hn. apply in_map_iff. eauto.
Qed.

End AgreeFacts.

(** X18. The role a page reads from the profile is the role the
    policies act on: in every reachable state, for every profile row,
    [has_role] (which reads [user_roles]) holds of the profile's id for
    exactly the role written in [profiles.role]; in particular
    [is_admin] is true of a user exactly when the profile says admin. *)
Theorem profile_role_is_the_granted_role db p :
  reachable db -> In p (profiles db) ->
  (forall role, has_role db (Some (Profile.id p)) role = true <-> Profile.role p = role)
  /\ (is_admin db (Some (Profile.id p)) = true <-> Profile.role p = role_admin).
Proof.
  intros Hr Hp. pose proof (ReachFacts.reachable_agrees _ Hr) as Ha. split.
  - intros role. apply AgreeFacts.has_role_iff_profile_role; assumption.
  - unfold is_admin. apply AgreeFacts.has_role_iff_profile_role; assumption.
Qed.

Lemma profile_role_is_the_granted_role_witness :
  In (Profile.mk Example.carol role_admin "Carol" "carol@desk.example" true 1 1)
     (profiles Example.later)
  /\ (is_admin Example.later (Some Example.carol) = true <-> role_admin = role_admin).
Proof.
  assert (Hin : In (Profile.mk Example.carol role_admin "Carol" "carol@desk.example"
                      true 1 1) (profiles Example.later))
    by (vm_compute; tauto).
  split; [exact Hin|].
  destruct (profile_role_is_the_granted_role Example.later _
              ReachFacts.example_reachable Hin) as (_ & H).
  exact H.
Defined.

(** X19. The redirect of the sign-in page follows the role the
    policies act on: in every reachable state, [checkUser] sends a
    signed-in user to "/admin" exactly when [is_admin] holds of that
    user, and to "/student" otherwise (also when the user has no
    profile row); without a session it does not navigate. *)
Theorem sign_in_redirect_follows_granted_role db uid :
  reachable db ->
  Guard.Auth db (Some uid)
  = Some (if is_admin db (Some uid) then route_admin else route_student)
  /\ Guard.Auth db None = None.
Proof.
  intros Hr. split; [|reflexivity].
  pose proof (ReachFacts.reachable_agrees _ Hr) as Ha.
  unfold Guard.Auth, is_admin.
  destruct (in_dec String.string_dec uid (map Profile.id (profiles db))) as [Hin|Hn].
  - apply in_map_iff in Hin. destruct Hin as (p & <- & Hp).
    rewrite (AgreeFacts.own_profile_single db p (proj1 Ha) Hp). cbn.
    destruct (has_role db (Some (Profile.id p)) role_admin) eqn:E.
    + apply (AgreeFacts.has_role_iff_profile_role db p role_admin Ha Hp) in E.
      rewrite E. reflexivity.
    + destruct (AppRole_eqb (Profile.role p) role_admin) eqn:E'; [|reflexivity].
      apply AgreeFacts.AppRole_eqb_eq in E'.
      apply (AgreeFacts.has_role_iff_profile_role db p role_admin Ha Hp) in E'.
      congruence.
  - rewrite (AgreeFacts.no_profile_none db uid Hn). cbn.
    rewrite (AgreeFacts.no_profile_no_role db uid role_admin Ha Hn). reflexivity.
Qed.

Lemma sign_in_redirect_follows_granted_role_witness :
  Guard.Auth Example.later (Some Example.carol) = Some route_admin
  /\ Guard.Auth Example.later (Some Example.alice) = Some route_student.
Proof.
  split.
  - destruct (sign_in_redirect_follows_granted_role Example.later Example.carol
                ReachFacts.example_reachable) as (H & _).
    exact H.
  - destruct (sign_in_redirect_follows_granted_role Example.later Example.alice
                ReachFacts.example_reachable) as (H & _).
    exact H.
Defined.

Module KeepFacts.

Lemma nothing_removed_refl db : nothing_removed db db.
Proof.
  unfold nothing_removed.
  repeat split; try (exists []; rewrite app_nil_r; reflexivity); apply Nat.le_refl.
Qed.

Lemma nothing_removed_trans a b c :
  nothing_removed a b -> nothing_removed b c -> nothing_removed a c.
Proof.
  intros ((l1 & H1) & (l2 & H2) & (l3 & H3) & (l4 & H4) & H5 & H6)
         ((m1 & K1) & (m2 & K2) & (m3 & K3) & (m4 & K4) & K5 & K6).
  repeat split.
  - exists (l1 ++ m1). rewrite K1, H1, app_assoc. reflexivity.
  - exists (l2 ++ m2). rewrite K2, H2, app_assoc. reflexivity.
  - exists (l3 ++ m3). rewrite K3, H3, app_assoc. reflexivity.
  - exists (l4 ++ m4). rewrite K4, H4, app_assoc. reflexivity.
  - exact (Nat.le_trans _ _ _ H5 K5).
  - exact (Nat.le_trans _ _ _ H6 K6).
Qed.

Lemma complaints_appended_refl db : complaints_appended db db.
Proof. exists []. rewrite app_nil_r. reflexivity. Qed.

Lemma complaints_appended_trans a b c :
  complaints_appended a b -> complaints_appended b c -> complaints_appended a c.
Proof.
  intros (l & H) (m & K). exists (l ++ m). rewrite K, H, app_assoc. reflexivity.
Qed.

(** From what happened to each table. *)
Lemma from_tables db db' lh la lo lu :
  complaint_status_history db' = complaint_status_history db ++ lh ->
  attachments db' = attachments db ++ la ->
  storage_objects db' = storage_objects db ++ lo ->
  user_roles db' = user_roles db ++ lu ->
  List.length (complaints db) <= List.length (complaints db') ->
  List.length (profiles db) <= List.length (profiles db') ->
  nothing_removed db db'.
Proof. intros. unfold nothing_removed. eauto 10. Qed.

Lemma commit_keeps {A} (m : Tx A) db :
  (forall a db', m db = Ok (a, db') -> nothing_removed db db') ->
  nothing_removed db (commit m db).
Proof.
  intros H. unfold commit. destruct (m db) as [[a db']|e] eqn:E.
  - exact (H a db' eq_refl).
  - apply nothing_removed_refl.
Qed.

Lemma commit_appends {A} (m : Tx A) db :
  (forall a db', m db = Ok (a, db') -> complaints_appended db db') ->
  complaints_appended db (commit m db).
Proof.
  intros H. unfold commit. destruct (m db) as [[a db']|e] eqn:E.
  - exact (H a db' eq_refl).
  - apply complaints_appended_refl.
Qed.

Lemma insert_complaint_row_keeps uid now v db c db' :
  insert_complaint_row uid now v db = Ok (c, db') ->
  nothing_removed db db' /\ complaints_appended db db'.
Proof.
  intros H. destruct (ApiFacts.insert_complaint_row_ok _ _ _ _ _ _ H)
    as (h & Hc & Hh & Hp & Hu & Ha & Ho & _).
  split; [|exists [c]; exact Hc].
  apply (from_tables db db' [h] [] [] []);
    rewrite ?app_nil_r; try assumption.
  - rewrite Hc, length_app. apply Nat.le_add_r.
  - rewrite Hp. apply Nat.le_refl.
Qed.

(** What any successful UPDATE of complaints did to the tables. *)
Lemma update_complaint_rows_frame uid now where_ v db n db' :
  update_complaint_rows uid now where_ v db = Ok (n, db') ->
  complaints db' =
    map (fun r => if where_ r && Policy.complaints_update_using db uid r
                  then update_updated_at_column now (set_patch v r) else r)
        (complaints db) /\
  profiles db' = profiles db /\ user_roles db' = user_roles db /\
  attachments db' = attachments db /\ storage_objects db' = storage_objects db /\
  exists added, complaint_status_history db' = complaint_status_history db ++ added.
Proof.
  intros H. destruct (ApiFacts.update_complaint_rows_ok _ _ _ _ _ _ _ H)
    as (rows' & fired & -> & _ & _ & _ & _ & Hf & _).
  destruct (FrameFacts.fire_frame _ _ _ _ _ _ Hf) as (Hp & Hu & Hc & Ha & Ho & Hh).
  cbn in *. auto 10.
Qed.

Lemma update_complaint_rows_keeps uid now where_ v db n db' :
  update_complaint_rows uid now where_ v db = Ok (n, db') ->
  nothing_removed db db'
  /\ (has_role db uid role_admin = false -> complaints db' = complaints db).
Proof.
  intros H. destruct (update_complaint_rows_frame _ _ _ _ _ _ _ H)
    as (Hc & Hp & Hu & Ha & Ho & (added & Hh)).
  split.
  - apply (from_tables db db' added [] [] []);
      rewrite ?app_nil_r; try assumption.
    + rewrite Hc, length_map. apply Nat.le_refl.
    + rewrite Hp. apply Nat.le_refl.
  - intros Hadm. rewrite Hc. unfold Policy.complaints_update_using. rewrite Hadm.
    rewrite <- (map_id (complaints db)) at 2. apply map_ext. intros r.
    rewrite andb_false_r. reflexivity.
Qed.

Lemma insert_attachment_row_keeps uid now v db a db' :
  insert_attachment_row uid now v db = Ok (a, db') ->
  nothing_removed db db' /\ complaints db' = complaints db.
Proof.
  intros H. destruct (ApiFacts.insert_attachment_row_ok _ _ _ _ _ _ H)
    as (Ha & Hp & Hu & Hc & Hh & Ho & _).
  split; [|exact Hc].
  apply (from_tables db db' [] [a] [] []);
    rewrite ?app_nil_r; try assumption.
  - rewrite Hc. apply Nat.le_refl.
  - rewrite Hp. apply Nat.le_refl.
Qed.

Lemma insert_history_row_keeps uid now v db h db' :
  insert_history_row uid now v db = Ok (h, db') ->
  nothing_removed db db' /\ complaints db' = complaints db.
Proof.
  intros H. destruct (ApiFacts.insert_history_row_ok _ _ _ _ _ _ H)
    as (Hh & Hp & Hu & Hc & Ha & Ho & _).
  split; [|exact Hc].
  apply (from_tables db db' [h] [] [] []);
    rewrite ?app_nil_r; try assumption.
  - rewrite Hc. apply Nat.le_refl.
  - rewrite Hp. apply Nat.le_refl.
Qed.

Lemma storage_upload_keeps uid bucket name f db u db' :
  storage_upload uid bucket name f db = Ok (u, db') ->
  nothing_removed db db' /\ complaints db' = complaints db.
Proof.
  intros H. destruct (SubmitFacts.storage_upload_ok _ _ _ _ _ _ _ H) as (-> & _).
  split; [|reflexivity].
  apply (from_tables _ _ [] []
           [StorageObject.mk bucket name (file_type f) (file_size f)] []); cbn;
    rewrite ?app_nil_r; try reflexivity; apply Nat.le_refl.
Qed.

Lemma update_profile_rows_length db uid now where_ v rows : forall rows',
  update_profile_rows db uid now where_ v rows = Ok rows' ->
  List.length rows' = List.length rows.
Proof.
  induction rows as [|OLD rows IH]; intros rows' H; cbn in H.
  - injection H as <-. reflexivity.
  - destruct (where_ OLD && Policy.profiles_update_using uid OLD).
    + destruct (profile_checks _); [|discriminate].
      destruct (profiles_update_check db uid (profile_new_row now v OLD))
        as [[|]|]; try discriminate.
      destruct (update_profile_rows db uid now where_ v rows) as [l|];
        [|discriminate].
      injection H as <-. cbn. f_equal. apply IH. reflexivity.
    + destruct (update_profile_rows db uid now where_ v rows) as [l|];
        [|discriminate].
      injection H as <-. cbn. f_equal. apply IH. reflexivity.
Qed.

Lemma update_profiles_keeps uid now where_ v db u db' :
  update_profiles uid now where_ v db = Ok (u, db') ->
  nothing_removed db db' /\ complaints db' = complaints db.
Proof.
  unfold update_profiles. intros H.
  destruct (update_profile_rows _ _ _ _ _ _) as [rows'|] eqn:E; [|discriminate].
  destruct (_ && _); [|discriminate].
  injection H as _ <-. split; [|reflexivity].
  apply (from_tables _ _ [] [] [] []); cbn;
    rewrite ?app_nil_r; try reflexivity; try apply Nat.le_refl.
  rewrite (update_profile_rows_length _ _ _ _ _ _ _ E). apply Nat.le_refl.
Qed.

Lemma sign_up_keeps new_id new_email meta_full_name meta_role now db u db' :
  handle_new_user new_id new_email meta_full_name meta_role now db = Ok (u, db') ->
  nothing_removed db db' /\ complaints db' = complaints db.
Proof.
  intros H.
  destruct (AccountFacts.handle_new_user_ok _ _ _ _ _ _ _ _ H)
    as (role & _ & Hp & Hu & Hc & Ha & Hh & Ho & _).
  split; [|exact Hc].
  apply (from_tables _ _ [] [] [] [UserRole.mk (entropy db (drawn db)) new_id role now]);
    rewrite ?app_nil_r; try assumption.
  - rewrite Hc. apply Nat.le_refl.
  - rewrite Hp, length_app. apply Nat.le_add_r.
Qed.

Lemma same_complaints_appended db db' :
  complaints db' = complaints db -> complaints_appended db db'.
Proof. intros H. exists []. rewrite app_nil_r. exact H. Qed.

End KeepFacts.

(** X20. No write of the API removes a row, and only an admin's UPDATE
    rewrites a complaint. After any request of the write surface (any
    columns, any filter, any caller), after any sign-up, after any
    [handleSubmit] and after any [handleSave], the ledger, the
    attachments, the stored objects and the role rows begin with
    exactly the rows they held before, and there are no fewer
    complaints and no fewer profiles. When the caller of a request
    does not hold the admin role, and after any sign-up and any
    [handleSubmit], the complaints table too begins with exactly the
    rows it held: complaints are then only appended. *)
Theorem no_write_removes_rows db :
  (forall uid now r,
     nothing_removed db (perform uid now r db)
     /\ (has_role db uid role_admin = false ->
         complaints_appended db (perform uid now r db)))
  /\ (forall new_id new_email meta_full_name meta_role now,
        let db' :=
          commit (handle_new_user new_id new_email meta_full_name meta_role now) db in
        nothing_removed db db' /\ complaints_appended db db')
  /\ (forall user date_now now form,
        let db' := snd (handleSubmit user date_now now form db) in
        nothing_removed db db' /\ complaints_appended db db')
  /\ (forall uid now id st,
        nothing_removed db
          (snd (fst (AdminComplaintDetail.handleSave uid now id st db)))).
Proof.
  assert (Hperf : forall uid now r d,
            nothing_removed d (perform uid now r d)
            /\ (has_role d uid role_admin = false ->
                complaints_appended d (perform uid now r d))).
  { intros uid now r d.
    destruct r as [v|where_ v|v|v|bucket name f|where_ v]; cbn [perform];
      unfold commit.
    - destruct (insert_complaint_row uid now v d) as [[c d']|] eqn:E.
      + destruct (KeepFacts.insert_complaint_row_keeps _ _ _ _ _ _ E). auto.
      + split; [apply KeepFacts.nothing_removed_refl
               | intros _; apply KeepFacts.complaints_appended_refl].
    - destruct (update_complaint_rows uid now where_ v d) as [[n d']|] eqn:E.
      + destruct (KeepFacts.update_complaint_rows_keeps _ _ _ _ _ _ _ E) as [H1 H2].
        split; [exact H1|]. intros Hadm.
        apply KeepFacts.same_complaints_appended. exact (H2 Hadm).
      + split; [apply KeepFacts.nothing_removed_refl
               | intros _; apply KeepFacts.complaints_appended_refl].
    - destruct (insert_attachment_row uid now v d) as [[a d']|] eqn:E.
      + destruct (KeepFacts.insert_attachment_row_keeps _ _ _ _ _ _ E) as [H1 H2].
        split; [exact H1 | intros _; apply KeepFacts.same_complaints_appended, H2].
      + split; [apply KeepFacts.nothing_removed_refl
               | intros _; apply KeepFacts.complaints_appended_refl].
    - destruct (insert_history_row uid now v d) as [[h d']|] eqn:E.
      + destruct (KeepFacts.insert_history_row_keeps _ _ _ _ _ _ E) as [H1 H2].
        split; [exact H1 | intros _; apply KeepFacts.same_complaints_appended, H2].
      + split; [apply KeepFacts.nothing_removed_refl
               | intros _; apply KeepFacts.complaints_appended_refl].
    - destruct (storage_upload uid bucket name f d) as [[u d']|] eqn:E.
      + destruct (KeepFacts.storage_upload_keeps _ _ _ _ _ _ _ E) as [H1 H2].
        split; [exact H1 | intros _; apply KeepFacts.same_complaints_appended, H2].
      + split; [apply KeepFacts.nothing_removed_refl
               | intros _; apply KeepFacts.complaints_appended_refl].
    - destruct (update_profiles uid now where_ v d) as [[u d']|] eqn:E.
      + destruct (KeepFacts.update_profiles_keeps _ _ _ _ _ _ _ E) as [H1 H2].
        split; [exact H1 | intros _; apply KeepFacts.same_complaints_appended, H2].
      + split; [apply KeepFacts.nothing_removed_refl
               | intros _; apply KeepFacts.complaints_appended_refl]. }
  split; [|split; [|split]].
  - intros uid now r. apply Hperf.
  - intros new_id new_email meta_full_name meta_role now. cbv zeta. unfold commit.
    destruct (handle_new_user _ _ _ _ _ db) as [[u d']|] eqn:E.
    + destruct (KeepFacts.sign_up_keeps _ _ _ _ _ _ _ _ E) as [H1 H2].
      split; [exact H1 | apply KeepFacts.same_complaints_appended, H2].
    + split; [apply KeepFacts.nothing_removed_refl
             | apply KeepFacts.complaints_appended_refl].
  - intros user date_now now form. cbv zeta. unfold handleSubmit.
    destruct (negb (validateField (form_title form) titleSchema) || _ || _);
      [split; [apply KeepFacts.nothing_removed_refl
              | apply KeepFacts.complaints_appended_refl]|].
    assert (Hins : forall uid att d,
              nothing_removed db d /\ complaints_appended db d ->
              let d' := snd (match insert_complaint (Some uid) now
                                     (mkComplaintInsert uid (Js.trim (form_title form))
                                        (form_category form)
                                        (Js.trim (form_description form)) att) d with
                             | Err complaintError => (Submission_failed complaintError, d)
                             | Ok (_, db2) => (Complaint_submitted, db2)
                             end) in
              nothing_removed db d' /\ complaints_appended db d').
    { intros uid att d [Hd1 Hd2]. cbv zeta.
      destruct (insert_complaint _ _ _ d) as [[c db2]|e] eqn:E; [|split; assumption].
      cbn [snd]. rewrite ApiFacts.insert_complaint_is_row in E.
      destruct (KeepFacts.insert_complaint_row_keeps _ _ _ _ _ _ E) as [K1 K2].
      split; [exact (KeepFacts.nothing_removed_trans _ _ _ Hd1 K1)
             | exact (KeepFacts.complaints_appended_trans _ _ _ Hd2 K2)]. }
    assert (Hrefl : nothing_removed db db /\ complaints_appended db db)
      by (split; [apply KeepFacts.nothing_removed_refl
                 | apply KeepFacts.complaints_appended_refl]).
    destruct (form_file form) as [file|]; destruct user as [uid|];
      try exact Hrefl; try (apply Hins; exact Hrefl).
    unfold upload_step.
    destruct (storage_upload _ _ _ _ db) as [[u db1]|e] eqn:Hup; [|exact Hrefl].
    destruct (KeepFacts.storage_upload_keeps _ _ _ _ _ _ _ Hup) as [U1 U2].
    apply KeepFacts.same_complaints_appended in U2.
    destruct (insert_attachment _ _ _ db1) as [[a db2]|e] eqn:Hatt;
      [|split; assumption].
    apply Hins. rewrite ApiFacts.insert_attachment_is_row in Hatt.
    destruct (KeepFacts.insert_attachment_row_keeps _ _ _ _ _ _ Hatt) as [A1 A2].
    apply KeepFacts.same_complaints_appended in A2.
    split; [exact (KeepFacts.nothing_removed_trans _ _ _ U1 A1)
           | exact (KeepFacts.complaints_appended_trans _ _ _ U2 A2)].
  - intros uid now id st. unfold AdminComplaintDetail.handleSave.
    destruct (ComplaintStatus_eqb (AdminComplaintDetail.status st) resolved && _);
      [apply KeepFacts.nothing_removed_refl|].
    destruct (match AdminComplaintDetail.complaint st with
              | Some c0 => ComplaintStatus_eqb (Complaint.status (row c0)) resolved
              | None => false
              end); [apply KeepFacts.nothing_removed_refl|].
    destruct (update_complaints uid now id _ db) as [[n db1]|e] eqn:E;
      [|apply KeepFacts.nothing_removed_refl].
    cbn [fst snd]. rewrite ApiFacts.update_complaints_is_rows in E.
    exact (proj1 (KeepFacts.update_complaint_rows_keeps _ _ _ _ _ _ _ E)).
Qed.

Module SignUpFacts.

Lemma role_of_label_admin l : role_of_label l = Some role_admin <-> l = "admin"%string.
Proof.
  unfold role_of_label. cbn [find role_label].
  destruct (String.eqb "student" l) eqn:E1; [|destruct (String.eqb "admin" l) eqn:E2].
  - apply String.eqb_eq in E1. subst l. split; intros H; [discriminate H | inversion H].
  - apply String.eqb_eq in E2. subst l. split; reflexivity.
  - apply String.eqb_neq in E2. split; intros H; [discriminate H | congruence].
Qed.

Lemma has_role_snoc db rows uid role r :
  user_roles db = rows ++ [r] ->
  has_role db uid role
  = existsb (fun x => uid_is uid (UserRole.user_id x)
                      && AppRole_eqb (UserRole.role x) role) rows
    || (uid_is uid (UserRole.user_id r) && AppRole_eqb (UserRole.role r) role).
Proof.
  intros H. unfold has_role. rewrite H, existsb_app. cbn. rewrite orb_false_r.
  reflexivity.
Qed.

End SignUpFacts.

(** X21. The role a new account gets is the one named in the sign-up
    metadata: when the trigger [handle_new_user] succeeds in a reachable
    state, the new user is an admin for the policies exactly when the
    metadata's role is "admin", the new profile carries the same role
    (student when the metadata names none), the name falls back to
    "User", and nobody else's roles change. *)
Theorem sign_up_grants_the_metadata_role
  new_id new_email meta_full_name meta_role now db u db' :
  reachable db ->
  handle_new_user new_id new_email meta_full_name meta_role now db = Ok (u, db') ->
  (is_admin db' (Some new_id) = true <-> meta_role = Some "admin"%string)
  /\ (exists role,
        profiles db' =
          profiles db ++
          [Profile.mk new_id role
             (match meta_full_name with Some n => n | None => "User"%string end)
             new_email true now now]
        /\ has_role db' (Some new_id) role = true
        /\ (meta_role = None -> role = role_student))
  /\ (forall other role, other <> new_id ->
        has_role db' (Some other) role = has_role db (Some other) role).
Proof.
  intros Hr H. pose proof (ReachFacts.reachable_agrees _ Hr) as Ha.
  destruct (AccountFacts.handle_new_user_ok _ _ _ _ _ _ _ _ H)
    as (role & Hrole & Hp & Hu & _ & _ & _ & _ & Hfresh & _).
  assert (Hnew : forall r, has_role db' (Some new_id) r = AppRole_eqb role r).
  { intros r. rewrite (SignUpFacts.has_role_snoc db' _ _ _ _ Hu).
    change (existsb _ (user_roles db)) with (has_role db (Some new_id) r).
    rewrite (AgreeFacts.no_profile_no_role db new_id r Ha Hfresh).
    cbn. rewrite String.eqb_refl. reflexivity. }
  split; [|split].
  - unfold is_admin. rewrite Hnew. rewrite AgreeFacts.AppRole_eqb_eq.
    destruct meta_role as [l|].
    + split.
      * intros ->. apply SignUpFacts.role_of_label_admin in Hrole. congruence.
      * intros E. injection E as ->. cbn in Hrole. congruence.
    + subst role. split; discriminate.
  - exists role. split; [exact Hp|]. split.
    + rewrite Hnew. apply AgreeFacts.AppRole_eqb_eq. reflexivity.
    + intros ->. exact Hrole.
  - intros other r Hne. rewrite (SignUpFacts.has_role_snoc db' _ _ _ _ Hu).
    change (existsb _ (user_roles db)) with (has_role db (Some other) r).
    cbn. apply String.eqb_neq in Hne. rewrite Hne. cbn. apply orb_false_r.
Qed.

Lemma sign_up_grants_the_metadata_role_witness :
  is_admin
    (commit (handle_new_user "dddddddd-dddd-4ddd-8ddd-dddddddddddd" "dave@desk.example"
               None (Some "admin") 8) Example.later)
    (Some "dddddddd-dddd-4ddd-8ddd-dddddddddddd") = true
  <-> Some "admin"%string = Some "admin"%string.
Proof.
  assert (E : handle_new_user "dddddddd-dddd-4ddd-8ddd-dddddddddddd" "dave@desk.example"
                None (Some "admin") 8 Example.later
              = Ok (tt, commit (handle_new_user "dddddddd-dddd-4ddd-8ddd-dddddddddddd"
                                  "dave@desk.example" None (Some "admin") 8)
                          Example.later))
    by (vm_compute; reflexivity).
  destruct (sign_up_grants_the_metadata_role _ _ _ _ _ _ _ _
              ReachFacts.example_reachable E) as (H & _).
  exact H.
Defined.

(** X22. The route guards settle after one navigation and lead to the
    dashboard of the profile's role: whatever [useAuth] reports, the
    page reached after one redirect does not redirect again; once
    loading is over, a signed-in user with a profile ends on "/admin"
    when the profile's role is admin and on "/student" otherwise, from
    the landing page and from either dashboard, and a visitor without
    a session never stays on a dashboard. *)
Theorem guards_settle_at_the_role_dashboard a page :
  auth_loading a = false ->
  Guard.of_page (Guard.settle 1 page a) a = None
  /\ (forall uid p,
        auth_user a = Some uid -> auth_profile a = Some p -> page <> route_auth ->
        Guard.settle 1 page a
        = if AppRole_eqb (Profile.role p) role_admin then route_admin
          else route_student)
  /\ (auth_user a = None ->
        Guard.settle 1 page a <> route_student
        /\ Guard.settle 1 page a <> route_admin).
Proof.
  destruct a as [loading user profile]. cbn [auth_loading auth_user auth_profile].
  intros ->. split; [|split].
  - destruct page, user as [uid|], profile as [p|];
      cbn; try reflexivity;
      destruct (AppRole_eqb (Profile.role p) role_admin) eqn:E;
      cbn; rewrite ?E; reflexivity.
  - intros uid p -> -> Hpage.
    destruct page; try contradiction; cbn;
      destruct (AppRole_eqb (Profile.role p) role_admin); reflexivity.
  - intros ->. destruct page; cbn; split; discriminate.
Qed.

Lemma guards_settle_at_the_role_dashboard_witness :
  Guard.of_page
    (Guard.settle 1 route_student
       (mkAuthState false (Some Example.carol)
          (Some (Profile.mk Example.carol role_admin "Carol" "carol@desk.example"
                   true 1 1))))
    (mkAuthState false (Some Example.carol)
       (Some (Profile.mk Example.carol role_admin "Carol" "carol@desk.example"
                true 1 1)))
  = None.
Proof.
  destruct (guards_settle_at_the_role_dashboard
              (mkAuthState false (Some Example.carol)
                 (Some (Profile.mk Example.carol role_admin "Carol"
                          "carol@desk.example" true 1 1)))
              route_student eq_refl) as (H & _).
  exact H.
Defined.

Module AnonFacts.

Lemma has_role_anon db role : has_role db None role = false.
Proof.
  unfold has_role. induction (user_roles db) as [|r l IH]; [reflexivity|].
  cbn. exact IH.
Qed.

Lemma uid_owns_folder_anon name : uid_owns_folder None name = false.
Proof. reflexivity. Qed.

Lemma update_profile_rows_anon db now where_ v rows :
  update_profile_rows db None now where_ v rows = Ok rows.
Proof.
  induction rows as [|OLD rest IH]; [reflexivity|].
  cbn [update_profile_rows]. unfold Policy.profiles_update_using. cbn [uid_is].
  rewrite andb_false_r, IH. reflexivity.
Qed.

Lemma with_same_profiles db : with_profiles (profiles db) db = db.
Proof. destruct db; reflexivity. Qed.

Lemma with_same_complaints db : with_complaints (complaints db) db = db.
Proof. destruct db; reflexivity. Qed.

(** An UPDATE of complaints by a caller without the admin role selects
    no row, whatever its filter and SET list. *)
Lemma non_admin_rows_update_is_void db uid now where_ v :
  has_role db uid role_admin = false ->
  update_complaint_rows uid now where_ v db
  = Ok (0, with_complaints (complaints db) db).
Proof.
  intros Hadm. unfold update_complaint_rows, Policy.complaints_update_using.
  rewrite Hadm.
  assert (E : forall rows,
             patch_rows (fun c => where_ c && false) now v rows = Ok (rows, [])).
  { induction rows as [|r rows IH]; simpl; [reflexivity|].
    rewrite andb_false_r, IH. reflexivity. }
  rewrite E. reflexivity.
Qed.

Lemma commit_fails {A} (m : Tx A) db :
  (forall a db', m db <> Ok (a, db')) -> commit m db = db.
Proof.
  intros H. unfold commit. destruct (m db) as [[a db']|e] eqn:E; [|reflexivity].
  exfalso. exact (H a db' eq_refl).
Qed.

End AnonFacts.

(** X23. Without a session nothing can be read and, the ledger's
    open INSERT policy apart, nothing can be written: for a caller
    whose [auth.uid()] is NULL every table reads as empty, every
    download fails with "Object not found", every write of the API
    (any columns, any filter) other than an INSERT into
    [complaint_status_history] leaves the database as it was, and so
    do [handleSubmit] and [handleSave]. *)
Theorem anonymous_caller_reads_and_writes_nothing db :
  (select_complaints db None = [] /\ select_profiles db None = []
   /\ select_attachments db None = [] /\ select_history db None = []
   /\ forall bucket path, storage_download db None bucket path = Err object_not_found)
  /\ (forall now r,
        match r with
        | Insert_history _ => True
        | _ => perform None now r db = db
        end)
  /\ (forall date_now now form, snd (handleSubmit None date_now now form db) = db)
  /\ (forall now id st,
        snd (fst (AdminComplaintDetail.handleSave None now id st db)) = db).
Proof.
  assert (Hc : forall c, Policy.complaints_select db None c = false)
    by (intro c; unfold Policy.complaints_select;
        rewrite AnonFacts.has_role_anon; reflexivity).
  assert (Hupd : forall now id v,
            update_complaints None now id v db = Ok (0, db)).
  { intros now id v.
    rewrite (UpdateFacts.non_admin_update_is_void db None now id v
               (AnonFacts.has_role_anon db role_admin)).
    rewrite AnonFacts.with_same_complaints. reflexivity. }
  split; [|split; [|split]].
  - repeat split.
    + apply ReadFacts.filter_nil. intros c _. apply Hc.
    + apply ReadFacts.filter_nil. intros p _. unfold Policy.profiles_select.
      rewrite AnonFacts.has_role_anon. reflexivity.
    + apply ReadFacts.filter_nil. intros a _. unfold Policy.attachments_select, is_admin.
      rewrite AnonFacts.has_role_anon. reflexivity.
    + apply ReadFacts.filter_nil. intros h _. unfold Policy.history_select, is_admin.
      rewrite AnonFacts.has_role_anon, orb_false_r.
      rewrite (ReadFacts.filter_nil (Policy.complaints_select db None));
        [reflexivity | intros c _; apply Hc].
    + intros bucket path. unfold storage_download.
      rewrite ReadFacts.find_nothing; [reflexivity|].
      intros o _. unfold Policy.objects_select, is_admin.
      rewrite AnonFacts.has_role_anon, AnonFacts.uid_owns_folder_anon.
      cbn [orb]. rewrite !andb_false_r. reflexivity.
  - intros now r. destruct r as [v|where_ v|v|v|bucket name f|where_ v]; cbn [perform].
    + apply AnonFacts.commit_fails. intros c db' H.
      destruct (ApiFacts.insert_complaint_row_ok _ _ _ _ _ _ H)
        as (h & _ & _ & _ & _ & _ & _ & _ & Hu & _).
      discriminate Hu.
    + unfold commit.
      rewrite (AnonFacts.non_admin_rows_update_is_void db None now where_ v
                 (AnonFacts.has_role_anon db role_admin)).
      apply AnonFacts.with_same_complaints.
    + apply AnonFacts.commit_fails. intros a db' H.
      destruct (ApiFacts.insert_attachment_row_ok _ _ _ _ _ _ H)
        as (_ & _ & _ & _ & _ & _ & Hu & _).
      discriminate Hu.
    + exact I.
    + apply AnonFacts.commit_fails. intros u db' H.
      destruct (SubmitFacts.storage_upload_ok _ _ _ _ _ _ _ H) as (_ & Hu).
      rewrite AnonFacts.uid_owns_folder_anon in Hu. discriminate Hu.
    + unfold commit, update_profiles.
      rewrite AnonFacts.update_profile_rows_anon.
      destruct (_ && _); [apply AnonFacts.with_same_profiles | reflexivity].
  - intros date_now now form. unfold handleSubmit.
    destruct (negb (validateField (form_title form) titleSchema) || _ || _);
      [reflexivity|].
    destruct (form_file form); reflexivity.
  - intros now id st. unfold AdminComplaintDetail.handleSave.
    destruct (ComplaintStatus_eqb (AdminComplaintDetail.status st) resolved && _);
      [reflexivity|].
    destruct (match AdminComplaintDetail.complaint st with
              | Some c0 => ComplaintStatus_eqb (Complaint.status (row c0)) resolved
              | None => false
              end); [reflexivity|].
    rewrite Hupd. reflexivity.
Qed.

Module ProfileFacts.

Lemma update_profile_rows_confined db uid now where_ v rows : forall rows',
  update_profile_rows db uid now where_ v rows = Ok rows' ->
  Forall2 (fun OLD NEW =>
             (uid_is uid (Profile.id OLD) = false -> NEW = OLD)
             /\ Profile.id NEW = Profile.id OLD)
    rows rows'.
Proof.
  induction rows as [|OLD rows IH]; intros rows' H; cbn in H.
  - injection H as <-. constructor.
  - destruct (where_ OLD && Policy.profiles_update_using uid OLD) eqn:Hsel.
    + destruct (profile_checks _); [|discriminate].
      destruct (profiles_update_check db uid (profile_new_row now v OLD))
        as [[|]|] eqn:Hchk; try discriminate.
      destruct (update_profile_rows db uid now where_ v rows) as [l|] eqn:Hrest;
        [|discriminate].
      injection H as <-. constructor; [|apply IH; reflexivity].
      apply andb_true_iff in Hsel. destruct Hsel as [_ Hown].
      unfold Policy.profiles_update_using in Hown.
      unfold profiles_update_check in Hchk.
      destruct (scalar_subquery _) as [[r|]|]; try discriminate.
      injection Hchk as Hchk. apply andb_true_iff in Hchk. destruct Hchk as [Hid _].
      apply StoreFacts.uid_is_true in Hown, Hid.
      split.
      * intros Hother. rewrite Hown in Hother. cbn in Hother.
        rewrite String.eqb_refl in Hother. discriminate.
      * rewrite Hown in Hid. injection Hid as Hid. symmetry. exact Hid.
    + destruct (update_profile_rows db uid now where_ v rows) as [l|] eqn:Hrest;
        [|discriminate].
      injection H as <-. constructor; [auto | apply IH; reflexivity].
Qed.

End ProfileFacts.

(** X24. An UPDATE on [profiles] reaches the caller's own row only,
    whatever its filter and whichever columns it names: when the
    statement succeeds, the table has the same rows in the same order,
    every row of another user is exactly as it was, no row has changed
    its id, and no other table is touched. (On the caller's own row
    every column but [id] and [role] is the caller's to set, the
    creation time included.) *)
Theorem profile_update_touches_only_own_row uid now where_ v db u db' :
  update_profiles uid now where_ v db = Ok (u, db') ->
  Forall2 (fun OLD NEW =>
             (uid_is uid (Profile.id OLD) = false -> NEW = OLD)
             /\ Profile.id NEW = Profile.id OLD)
    (profiles db) (profiles db')
  /\ user_roles db' = user_roles db /\ complaints db' = complaints db
  /\ attachments db' = attachments db
  /\ complaint_status_history db' = complaint_status_history db
  /\ storage_objects db' = storage_objects db.
Proof.
  unfold update_profiles. intros H.
  destruct (update_profile_rows db uid now where_ v (profiles db)) as [rows'|] eqn:E;
    [|discriminate].
  destruct (nodup_by Profile.id rows' && nodup_by Profile.email rows');
    [|discriminate].
  injection H as _ <-. cbn.
  split; [|repeat split].
  exact (ProfileFacts.update_profile_rows_confined _ _ _ _ _ _ _ E).
Qed.

(** The theorem where Alice renames herself and moves her creation time:
    both are written on her row, Bob's and Carol's rows stay. *)
Lemma profile_update_touches_only_own_row_witness :
  map (fun p => (Profile.full_name p, Profile.created_at p))
    (profiles (commit (update_profiles (Some Example.alice) 10 (fun _ => true)
                         (mkProfileUpdate None None (Some "Alice B") None None
                            (Some 0) None))
                 Example.later))
  = [("Alice B", 0); ("Bob", 1); ("Carol", 1)]%string
  /\ user_roles (commit (update_profiles (Some Example.alice) 10 (fun _ => true)
                           (mkProfileUpdate None None (Some "Alice B") None None
                              (Some 0) None))
                   Example.later)
     = user_roles Example.later.
Proof.
  assert (E : update_profiles (Some Example.alice) 10 (fun _ => true)
                (mkProfileUpdate None None (Some "Alice B"%string) None None
                   (Some 0) None)
                Example.later
              = Ok (tt, commit (update_profiles (Some Example.alice) 10 (fun _ => true)
                                  (mkProfileUpdate None None (Some "Alice B"%string)
                                     None None (Some 0) None))
                          Example.later))
    by (vm_compute; reflexivity).
  destruct (profile_update_touches_only_own_row _ _ _ _ _ _ _ E) as (_ & H & _).
  split; [vm_compute; reflexivity | exact H].
Defined.

Module BucketFacts.

Lemma handleFileChange_accepts f file :
  snd (handleFileChange (Some f) file) = None ->
  In (file_type f) validTypes /\ (file_size f <= 10485760)%Z
  /\ fst (handleFileChange (Some f) file) = Some f.
Proof.
  unfold handleFileChange.
  destruct (Js.array_includes validTypes (file_type f)) eqn:Ety; cbn [negb];
    [|discriminate].
  destruct (file_size f >? maxSize)%Z eqn:Esz; [discriminate|].
  intros _. split; [apply array_includes_In; exact Ety|]. split; [|reflexivity].
  destruct (Z.gtb_spec (file_size f) maxSize) as [|Hle]; [discriminate|].
  unfold maxSize in Hle. lia.
Qed.

Lemma storage_upload_err uid name f db e :
  (file_size f <= 10485760)%Z ->
  In (file_type f) validTypes ->
  storage_upload uid "complaint-attachments" name f db = Err e ->
  e = rls_violation /\ uid_owns_folder uid name = false
  \/ e = object_already_exists
     /\ existsb (same_object "complaint-attachments" name) (storage_objects db) = true.
Proof.
  intros Hsz Hty.
  apply array_includes_In in Hty.
  assert (Hexp : ((file_type f =? "application/pdf")%string
                  || ((file_type f =? "image/jpeg")%string
                      || ((file_type f =? "image/png")%string
                          || ((file_type f =? "image/jpg")%string || false)))) = true)
    by exact Hty.
  apply Z.leb_le in Hsz.
  unfold storage_upload, bind. cbn -[uid_owns_folder same_object].
  rewrite Hsz. cbn -[uid_owns_folder same_object].
  rewrite Hexp. cbn -[uid_owns_folder same_object].
  destruct (uid_owns_folder uid name) eqn:Hown; cbn -[uid_owns_folder same_object].
  - destruct (existsb _ (storage_objects db)) eqn:Hex; cbn; intros H;
      [|discriminate].
    injection H as <-. right. split; reflexivity.
  - intros H. injection H as <-. left. split; reflexivity.
Qed.

End BucketFacts.

(** X25. The page and the bucket agree on files: a file
    [handleFileChange] accepts becomes the page's file, has one of the
    bucket's mime types and at most the bucket's size limit, so its
    upload is stored whenever the name lies in the caller's own folder
    and is not taken, and can be refused only for the folder (policy) or
    for an existing object of that name, never for type or size. *)
Theorem accepted_file_passes_the_bucket f file :
  snd (handleFileChange (Some f) file) = None ->
  fst (handleFileChange (Some f) file) = Some f
  /\ (forall uid name db,
        uid_owns_folder (Some uid) name = true ->
        existsb (same_object "complaint-attachments" name) (storage_objects db) = false ->
        storage_upload (Some uid) "complaint-attachments" name f db
        = Ok (tt, with_objects
                    (storage_objects db ++
                     [StorageObject.mk "complaint-attachments" name (file_type f)
                        (file_size f)]) db))
  /\ (forall uid name db e,
        storage_upload uid "complaint-attachments" name f db = Err e ->
        e = rls_violation /\ uid_owns_folder uid name = false
        \/ e = object_already_exists
           /\ existsb (same_object "complaint-attachments" name) (storage_objects db)
              = true).
Proof.
  intros H. destruct (BucketFacts.handleFileChange_accepts f file H)
    as (Hty & Hsz & Hf).
  split; [exact Hf|]. split.
  - intros uid name db Hown Hfree.
    exact (BlobFacts.storage_upload_succeeds uid name f db Hsz Hty Hown Hfree).
  - intros uid name db e. exact (BucketFacts.storage_upload_err uid name f db e Hsz Hty).
Qed.

Lemma accepted_file_passes_the_bucket_witness :
  fst (handleFileChange (Some Example.photo) None) = Some Example.photo.
Proof.
  destruct (accepted_file_passes_the_bucket Example.photo None eq_refl) as (H & _).
  exact H.
Defined.

Module EnumFacts.

Lemma category_options_accepted s :
  In s category_options <-> exists c, category_of_label s = Some c.
Proof.
  split.
  - intros H. cbn in H.
    repeat (destruct H as [<-|H]; [eexists; reflexivity|]). contradiction.
  - intros (c & H). apply FormFacts.category_of_label_sound in H. subst s.
    destruct c; cbn; tauto.
Qed.

Lemma insert_history_err who now v db e :
  insert_history who now v db = Err e -> e <> invalid_enum_input.
Proof.
  unfold insert_history, bind, gen_random_uuid, ensure, read, ret, raise.
  cbn -[history_checks history_exists complaint_exists profile_exists
        Policy.history_insert_check].
  intros H.
  repeat match type of H with
         | context [if ?b then _ else _] => destruct b eqn:?
         end; try discriminate; injection H as <-; discriminate.
Qed.

Lemma insert_complaint_err uid now v db :
  insert_complaint uid now v db = Err invalid_enum_input ->
  category_of_label (ci_category v) = None.
Proof.
  unfold insert_complaint.
  destruct (category_of_label (ci_category v)) as [cat|] eqn:Hc; [|reflexivity].
  unfold bind at 1. unfold lift.
  unfold bind, gen_random_uuid, ensure, read, ret, raise, log_complaint_status_change.
  cbn -[complaint_checks complaint_exists profile_exists attachment_exists null_or
        Policy.complaints_insert_check insert_history].
  intros H. exfalso.
  repeat match type of H with
         | context [if ?b then _ else _] => destruct b eqn:?
         end; try discriminate.
  unfold bind in H.
  match type of H with
  | context [insert_history ?w ?n ?x ?d] =>
      destruct (insert_history w n x d) as [[h d']|e] eqn:E
  end; [discriminate|].
  injection H as ->. exact (insert_history_err _ _ _ _ _ E eq_refl).
Qed.

Lemma insert_attachment_err uid now v db e :
  insert_attachment uid now v db = Err e -> e <> invalid_enum_input.
Proof.
  unfold insert_attachment, bind, gen_random_uuid, ensure, read, ret, raise.
  cbn -[attachment_checks attachment_exists profile_exists
        Policy.attachments_insert_check].
  intros H.
  repeat match type of H with
         | context [if ?b then _ else _] => destruct b eqn:?
         end; try discriminate; injection H as <-; discriminate.
Qed.

Lemma storage_upload_no_enum uid bucket name f db e :
  storage_upload uid bucket name f db = Err e -> e <> invalid_enum_input.
Proof.
  unfold storage_upload, bind, lift, ensure, read, ret, raise.
  destruct (find _ buckets) as [b|]; [|intros H; injection H as <-; discriminate].
  cbn -[Js.array_includes Policy.objects_insert_check same_object].
  intros H.
  repeat match type of H with
         | context [if ?b then _ else _] => destruct b eqn:?
         end; try discriminate; injection H as <-; discriminate.
Qed.

End EnumFacts.

(** X26. The category select and the enum agree: a submission whose
    category is one of the six values the select offers never fails on
    the cast to [complaint_category], whatever else happens; a category
    outside them (the handler casts with [as any]) on an otherwise valid
    form without a file is answered with the enum's invalid-input error
    and nothing is written. *)
Theorem offered_category_passes_the_enum_cast user date_now now form db :
  (In (form_category form) category_options ->
   fst (handleSubmit user date_now now form db) <> Submission_failed invalid_enum_input)
  /\ (~ In (form_category form) category_options ->
      validateField (form_title form) titleSchema = true ->
      validateField (form_description form) descriptionSchema = true ->
      form_category form <> EmptyString ->
      form_file form = None ->
      forall uid,
        handleSubmit (Some uid) date_now now form db
        = (Submission_failed invalid_enum_input, db)).
Proof.
  split.
  - intros Hin. apply EnumFacts.category_options_accepted in Hin.
    destruct Hin as (cat & Hcat).
    unfold handleSubmit.
    destruct (negb (validateField (form_title form) titleSchema) || _ || _);
      [discriminate|].
    assert (Hins : forall uid att d,
              fst (match insert_complaint (Some uid) now
                           (mkComplaintInsert uid (Js.trim (form_title form))
                              (form_category form)
                              (Js.trim (form_description form)) att) d with
                   | Err complaintError => (Submission_failed complaintError, d)
                   | Ok (_, db2) => (Complaint_submitted, db2)
                   end) <> Submission_failed invalid_enum_input).
    { intros uid att d.
      destruct (insert_complaint _ _ _ d) as [[c db2]|e] eqn:E; [discriminate|].
      cbn [fst]. intros H. injection H as ->.
      apply EnumFacts.insert_complaint_err in E. cbn [ci_category] in E.
      congruence. }
    destruct (form_file form) as [file|]; destruct user as [uid|];
      try discriminate; try apply Hins.
    unfold upload_step.
    destruct (storage_upload _ _ _ _ db) as [[u db1]|e] eqn:Hup.
    + destruct (insert_attachment _ _ _ db1) as [[a db2]|e] eqn:Hatt;
        [apply Hins|].
      cbn [fst]. intros H. injection H as ->.
      exact (EnumFacts.insert_attachment_err _ _ _ _ _ Hatt eq_refl).
    + cbn [fst]. intros H. injection H as ->.
      exact (EnumFacts.storage_upload_no_enum _ _ _ _ _ _ Hup eq_refl).
  - intros Hout Ht Hd Hc Hfile uid.
    assert (Hnone : category_of_label (form_category form) = None).
    { destruct (category_of_label (form_category form)) as [c|] eqn:E; [|reflexivity].
      exfalso. apply Hout. apply EnumFacts.category_options_accepted. eauto. }
    apply FormFacts.truthy_iff in Hc.
    unfold handleSubmit. rewrite Ht, Hd, Hc, Hfile. cbn [negb orb].
    unfold insert_complaint. unfold bind at 1. unfold lift.
    cbn [ci_category]. rewrite Hnone. reflexivity.
Qed.

Lemma offered_category_passes_the_enum_cast_witness :
  handleSubmit (Some Example.bob) 1800 7
    (mkNewComplaintForm "Wobbly desk" "canteen" "Next to the broken chair" None)
    Example.submitted
  = (Submission_failed invalid_enum_input, Example.submitted).
Proof.
  destruct (offered_category_passes_the_enum_cast (Some Example.bob) 1800 7
              (mkNewComplaintForm "Wobbly desk" "canteen" "Next to the broken chair" None)
              Example.submitted) as (_ & H).
  apply H.
  - cbn. intros [E|[E|[E|[E|[E|[E|[]]]]]]]; discriminate E.
  - reflexivity.
  - reflexivity.
  - discriminate.
  - reflexivity.
Defined.
